(** * ROG Pool Service: report state, derived fields and PDF pagination

    A shallow embedding of the client-side logic of the service-report
    application (the React single-page application of [App.js]): the
    active/completed working sets, the list filters, the on-time/late flag,
    the gross-profit expression, the debounced field updates and the
    filter and pagination loop of the PDF download.

    Conventions of the embedding.
    - A JavaScript string is a [string]; [null]/[undefined] fields are
      [option]s, and [x || d] is written out with the truthiness of [x].
    - A timestamp ([Date.prototype.valueOf]) is a [Z] number of milliseconds;
      an [Invalid Date] (value [NaN]) is [None].  The [Date] parser of the
      host is a parameter [parseDate] of the functions that call [new Date].
    - Amounts of money are JavaScript numbers: IEEE-754 doubles ([float]).
      The arithmetic the code performs on them is stated once over an
      interface [JsNumber] and read on doubles; the formatter of the host
      prints a double from its shortest decimal.  Exact decimals ([Q]) are
      the second reading of the interface, used to state the rounding of
      the formatter and to compare the two arithmetics.
    - The functions of the host on strings and dates ([toLowerCase],
      [trim], [new Date], the getters of a [Date]) are parameters of the
      functions that call them; the examples instantiate them on inputs
      where the instance agrees with the host.
    - The debounce timers are a state machine over the pending timers of
      the host, the two properties of [window], the list on screen and the
      notes areas the pending callbacks hold on to.
    - Lengths of the PDF layout are millimetres; the cursor only ever takes
      integer values ([Z]), the page size of the PDF library is a rational
      ([Q]). *)

From Stdlib Require Import ZArith QArith Qround Qpower Floats List Bool String Ascii.
From Stdlib Require Import Lia Lqa Permutation.
Import ListNotations.

#[local] Set Warnings "-inexact-float".
#[local] Open Scope string_scope.
#[local] Open Scope list_scope.
#[local] Open Scope Z_scope.

(** ** JavaScript primitives used by the components *)

Module JS.

(** Truthiness of a possibly absent string: [null], [undefined] and the
    empty string are falsy. *)
Definition truthy_string (x : option string) : bool :=
  match x with
  | Some s => negb (s =? "")%string
  | None => false
  end.

(** [a || b] on strings where [a] may be absent. *)
Definition or_string (a : option string) (b : string) : string :=
  match a with
  | Some s => if (s =? "")%string then b else s
  | None => b
  end.

(** [String.prototype.toLowerCase] and [String.prototype.trim] belong to
    the host: the components that call them take them as parameters
    [toLowerCase] and [trim].  On a string of ASCII characters the host
    maps the letters [A] to [Z] to lower case and leaves every other
    character; [toLowerCaseASCII] is that restriction, which gives the
    parameter a value in the examples. *)
Definition lower_ascii (c : ascii) : ascii :=
  let n := nat_of_ascii c in
  if ((65 <=? n) && (n <=? 90))%nat then ascii_of_nat (n + 32) else c.

Fixpoint toLowerCaseASCII (s : string) : string :=
  match s with
  | EmptyString => EmptyString
  | String c s' => String (lower_ascii c) (toLowerCaseASCII s')
  end.

(** [String.prototype.includes]: [sub] occurs in [s] at some position. *)
Fixpoint includes (s sub : string) : bool :=
  String.prefix sub s ||
  match s with
  | EmptyString => false
  | String _ s' => includes s' sub
  end.

(** Numbers: the operations the components use on amounts. *)
Class JsNumber (N : Type) := {
  js_zero : N;
  js_add : N -> N -> N;
  js_sub : N -> N -> N;
  (** [Boolean(x)]: [0], [-0] and [NaN] are falsy. *)
  js_truthy : N -> bool
}.

(** The numbers of the running program: IEEE-754 binary64. *)
#[export] Instance double_number : JsNumber float := {
  js_zero := 0%float;
  js_add := PrimFloat.add;
  js_sub := PrimFloat.sub;
  js_truthy x := negb (PrimFloat.eqb x 0%float || PrimFloat.is_nan x)
}.

(** Exact decimal arithmetic, the reading in which rounding never occurs. *)
#[export] Instance exact_number : JsNumber Q := {
  js_zero := 0%Q;
  js_add := Qplus;
  js_sub := Qminus;
  js_truthy x := negb (Qeq_bool x 0%Q)
}.

(** [x || 0] for a possibly absent number. *)
Definition or_zero {N} `{JsNumber N} (x : option N) : N :=
  match x with
  | Some v => if js_truthy v then v else js_zero
  | None => js_zero
  end.

(** [Boolean(x)] for a possibly absent number. *)
Definition truthy_number {N} `{JsNumber N} (x : option N) : bool :=
  match x with
  | Some v => js_truthy v
  | None => false
  end.

(** [Math.ceil (a / b)] for an integer [a] and a positive integer [b]. *)
Definition ceil_div (a b : Z) : Z := - ((- a) / b).

(** The [Date] parser on the UTC forms of ISO 8601 ([YYYY-MM-DD],
    [YYYY-MM-DDTHH:MMZ] and [YYYY-MM-DDTHH:MM:SSZ]): milliseconds since the
    epoch, [None] for an [Invalid Date].  The other forms the host accepts
    are not covered; the components take the parser as a parameter. *)
Fixpoint decimal (s : string) (acc : Z) : option Z :=
  match s with
  | EmptyString => Some acc
  | String c s' =>
      let n := Z.of_nat (nat_of_ascii c) - 48 in
      if (0 <=? n) && (n <=? 9) then decimal s' (10 * acc + n) else None
  end.

Definition daysFromCivil (y m d : Z) : Z :=
  let y := if m <=? 2 then y - 1 else y in
  let era := y / 400 in
  let yoe := y - era * 400 in
  let mp := (m + 9) mod 12 in
  let doy := (153 * mp + 2) / 5 + d - 1 in
  let doe := yoe * 365 + yoe / 4 - yoe / 100 + doy in
  era * 146097 + doe - 719468.

Definition field (s : string) (from len : nat) : option Z :=
  let part := substring from len s in
  if (String.length part =? len)%nat then decimal part 0 else None.

Definition parseTime (s : string) : option Z :=
  match field s 1 2, field s 4 2 with
  | Some hh, Some mm =>
      if negb ((substring 0 1 s =? "T")%string && (substring 3 1 s =? ":")%string
               && (hh <=? 23) && (mm <=? 59)) then None
      else if (substring 6 4 s =? "Z")%string then Some ((hh * 60 + mm) * 60000)
      else
        match field s 7 2 with
        | Some ss =>
            if (substring 6 1 s =? ":")%string && (substring 9 2 s =? "Z")%string
               && (ss <=? 59)
            then Some ((hh * 60 + mm) * 60000 + ss * 1000) else None
        | None => None
        end
  | _, _ => None
  end.

Definition parseISO (s : string) : option Z :=
  match field s 0 4, field s 5 2, field s 8 2 with
  | Some y, Some m, Some d =>
      if negb ((substring 4 1 s =? "-")%string && (substring 7 1 s =? "-")%string
               && (1 <=? m) && (m <=? 12) && (1 <=? d) && (d <=? 31)) then None
      else
        let day := daysFromCivil y m d * 86400000 in
        if (String.length s =? 10)%nat then Some day
        else
          match parseTime (substring 10 (String.length s - 10) s) with
          | Some ms => Some (day + ms)
          | None => None
          end
  | _, _, _ => None
  end.

End JS.
Import JS.

(** ** The service report (the fields the embedded code reads) *)

Record report := {
  id : string;
  client_name : string;
  client_address : option string;
  employee_id : string;
  employee_name : string;
  description : option string;
  priority : string;
  status : string;
  request_date : string;
  completion_date : option string;
  total_cost : option float;
  parts_cost : option float;
  admin_notes : option string;
  employee_notes : option string;
  photos : list string
}.

(** [formatCurrency]: [Intl.NumberFormat('en-US')] with exactly two fraction
    digits applied to [amount || 0].  The formatter rounds the decimal value
    half away from zero; the result is the number of hundredths it prints
    (the digits are grouped by thousands around the decimal point, which
    loses nothing).  This is the rounding on the decimal the formatter
    reads; [formatCurrencyNumber] below applies it to a double. *)
Definition roundHalfExpand (x : Q) : Z :=
  if Qle_bool 0 x then Qfloor (x + (1 # 2))%Q else - Qfloor (- x + (1 # 2))%Q.

Definition formatCurrency (amount : Q) : Z :=
  roundHalfExpand (or_zero (Some amount) * 100)%Q.

(** ** Doubles as [Intl.NumberFormat] prints them

    The formatter reads a double as its shortest decimal, the decimal with
    the fewest significant digits that reads back as the same double (the
    nearest to the double among those), and rounds that decimal to the two
    fraction digits. *)

Module Intl.

(** The exact value of a finite double. *)
Definition exactValue (x : float) : option Q :=
  match Prim2SF x with
  | S754_zero _ => Some 0%Q
  | S754_finite s m e =>
      Some ((if s then -1 else 1) * (inject_Z (Zpos m) * Qpower 2 e))%Q
  | S754_infinity _ | S754_nan => None
  end.

Definition evenMantissa (x : float) : bool :=
  match Prim2SF x with
  | S754_finite _ m _ => Z.even (Zpos m)
  | _ => true
  end.

(** The reals that round to the positive finite double [x]: from half way
    to the double below to half way to the double above (the largest
    double has the same distance on both sides). *)
Definition roundingInterval (x : float) : Q * Q :=
  match exactValue x, exactValue (next_down x), exactValue (next_up x) with
  | Some v, Some d, Some u => ((d + v) / 2, (v + u) / 2)%Q
  | Some v, Some d, None => ((d + v) / 2, v + (v - d) / 2)%Q
  | Some v, None, _ => (v, v)
  | None, _, _ => (0, 0)%Q
  end.

(** The decimal [d] reads back as [x]: the ends of the interval count
    when the mantissa of [x] is even (ties go to even). *)
Definition readsBackAs (x : float) (d : Q) : bool :=
  let (lo, hi) := roundingInterval x in
  if evenMantissa x then Qle_bool lo d && Qle_bool d hi
  else negb (Qle_bool d lo) && negb (Qle_bool hi d).

Fixpoint raise (fuel : nat) (v : Q) (p : Z) : Z :=
  match fuel with
  | O => p
  | S fuel => if Qle_bool (Qpower 10 (p + 1)) v then raise fuel v (p + 1) else p
  end.

Fixpoint lower (fuel : nat) (v : Q) (p : Z) : Z :=
  match fuel with
  | O => p
  | S fuel => if Qle_bool (Qpower 10 p) v then p else lower fuel v (p - 1)
  end.

(** The position of the first significant digit of [v > 0]:
    [floor (log10 v)], from an estimate on the binary logarithms. *)
Definition magnitude (v : Q) : Z :=
  let est := (Z.log2 (Qnum v) - Z.log2 (Zpos (Qden v))) * 30103 / 100000 in
  raise 4 v (lower 4 v est).

(** The decimals of [digits] significant digits next to [v], tried for
    1, 2, ... digits; seventeen digits always tell a double. *)
Fixpoint shortestFrom (fuel : nat) (digits : Z) (x : float) (v : Q) (p : Z)
  : Q :=
  match fuel with
  | O => v
  | S fuel =>
      let unit := Qpower 10 (p - digits + 1) in
      let down := (inject_Z (Qfloor (v / unit)) * unit)%Q in
      let up := (down + unit)%Q in
      match readsBackAs x down, readsBackAs x up with
      | true, true => if Qle_bool (v - down) (up - v) then down else up
      | true, false => down
      | false, true => up
      | false, false => shortestFrom fuel (digits + 1) x v p
      end
  end.

(** The shortest decimal of a positive finite double. *)
Definition shortestDecimal (x : float) : Q :=
  match exactValue x with
  | Some v => if Qle_bool v 0 then 0%Q
              else shortestFrom 17 1 x v (magnitude v)
  | None => 0%Q
  end.

(** What the formatter prints with exactly two fraction digits: the sign
    and the digits as a number of hundredths, the infinity sign, or
    [NaN]. *)
Inductive printed :=
| Digits (negative : bool) (hundredths : Z)
| InfinitySign (negative : bool)
| NaNText.

(** [new Intl.NumberFormat('en-US', {minimumFractionDigits: 2,
    maximumFractionDigits: 2}).format(x)]. *)
Definition format (x : float) : printed :=
  match Prim2SF x with
  | S754_nan => NaNText
  | S754_infinity s => InfinitySign s
  | S754_zero s => Digits s 0
  | S754_finite s _ _ =>
      Digits s (roundHalfExpand (shortestDecimal (abs x) * 100)%Q)
  end.

End Intl.

(** [formatCurrency] on a number of the program: [amount || 0] goes to the
    formatter. *)
Definition formatCurrencyNumber (amount : float) : Intl.printed :=
  Intl.format (or_zero (Some amount)).

(** ** Derived fields of [ServiceReports] *)

Module ServiceReports.

Inductive flag := Green | Red.

Definition msPerDay : Z := 1000 * 60 * 60 * 24.

(** [reportDate] and [diffTime]: [today - new Date(report.request_date)],
    [NaN] when the request date does not parse.  [now] is the value of
    [new Date()]. *)
Definition diffTime (parseDate : string -> option Z) (now : Z) (r : report)
  : option Z :=
  match parseDate (request_date r) with
  | Some reportDate => Some (now - reportDate)
  | None => None
  end.

(** [Math.ceil(diffTime / (1000 * 60 * 60 * 24))].  The quotient is taken
    on integers: the double division is exact at the multiples of a day
    and monotone in between, so the comparisons with 1 and 2 below come out
    as on the exact quotient. *)
Definition diffDays (parseDate : string -> option Z) (now : Z) (r : report)
  : option Z :=
  match diffTime parseDate now r with
  | Some dt => Some (ceil_div dt msPerDay)
  | None => None
  end.

(** [isReportOverdue]: [diffDays >= 2]; a comparison with [NaN] is false. *)
Definition isReportOverdue (parseDate : string -> option Z) (now : Z)
  (r : report) : bool :=
  match diffDays parseDate now r with
  | Some d => 2 <=? d
  | None => false
  end.

(** [getReportFlag]: the green flag, the red flag or [null]. *)
Definition getReportFlag (parseDate : string -> option Z) (now : Z)
  (r : report) : option flag :=
  match diffDays parseDate now r with
  | Some d =>
      if d <=? 1 then Some Green
      else if 2 <=? d then Some Red
      else None
  | None => None
  end.

(** [fetchReports]: on a successful [GET /reports] the component keeps the
    reports that are not completed; on a failure the state is left as it
    was. *)
Definition fetchReports (response : option (list report))
  (reports : list report) : list report :=
  match response with
  | Some data => filter (fun r => negb (status r =? "completed")%string) data
  | None => reports
  end.

(** [filterReports] of the active view: by employee id when one is
    selected. *)
Definition filterReports (reports : list report) (selectedUserFilter : string)
  : list report :=
  if (selectedUserFilter =? "")%string then reports
  else filter (fun r => (employee_id r =? selectedUserFilter)%string) reports.

(** The gross-profit field: [(report.total_cost || 0) - (report.parts_cost || 0)]. *)
Definition grossProfit {N} `{JsNumber N} (total parts : option N) : N :=
  js_sub (or_zero total) (or_zero parts).

(** *** Debounced field updates

    The admin controls of a report card keep their timers in two properties
    of [window]: [financialTimeout], written by the inputs of both
    [total_cost] and [parts_cost], and [notesTimeout], written by the notes
    area.  Every card of the list uses the same two properties. *)

(** The request a timer sends when it fires: [updateFinancialField
    (reportId, field, value)] or [updateAdminNotes (reportId, notes)], each
    one [PUT /reports/{id}]. *)
Inductive request :=
| UpdateFinancialField (reportId field : string) (value : float)
| UpdateAdminNotes (reportId notes : string).

Inductive timerClass := Financial | Notes.

Definition classOf (q : request) : timerClass :=
  match q with
  | UpdateFinancialField _ _ _ => Financial
  | UpdateAdminNotes _ _ => Notes
  end.

Definition timerClass_eqb (a b : timerClass) : bool :=
  match a, b with
  | Financial, Financial | Notes, Notes => true
  | _, _ => false
  end.

(** The notes area an [onChange] event came from, [e.target]: the text it
    shows and whether its card is still on screen.  The cards are keyed by
    the id of their report, and the event keeps its target after the
    handler has returned (React 17 and later do not recycle events). *)
Record textarea := { shownText : string; attached : bool }.

(** The callback given to [setTimeout].  The callbacks of the two
    financial inputs hold the report, the field and the parsed value of
    their event ([newValue] is a constant of the handler).  The callback of
    the notes area holds the report and the event, and reads
    [e.target.value] when it runs. *)
Inductive closure :=
| FinancialCallback (reportId field : string) (value : float)
| NotesCallback (reportId : string) (target : textarea).

Definition classOfCallback (k : closure) : timerClass :=
  match k with
  | FinancialCallback _ _ _ => Financial
  | NotesCallback _ _ => Notes
  end.

(** Running a callback: the request it sends. *)
Definition send (k : closure) : request :=
  match k with
  | FinancialCallback rid field v => UpdateFinancialField rid field v
  | NotesCallback rid target => UpdateAdminNotes rid (shownText target)
  end.

(** A timer of the host: its handle, the time at which it fires and its
    callback. *)
Record timer := { tid : nat; due : Z; callback : closure }.

(** The state the handlers share: the pending timers of the host in firing
    order, the next handle [setTimeout] returns, the two properties of
    [window], the states [reports], [selectedUserFilter] and
    [filteredReports] of the component, the [PUT] requests sent so far and
    the number of calls of [fetchReports] that are under way: every update
    ends with one, after its [PUT]. *)
Record window := {
  pending : list timer;
  nextTimer : nat;
  financialTimeout : option nat;
  notesTimeout : option nat;
  reports : list report;
  selectedUserFilter : string;
  filteredReports : list report;
  requests : list request;
  fetching : nat
}.

(** The component after its first fetch has been answered with [fetched],
    no employee selected. *)
Definition initial (fetched : list report) : window :=
  {| pending := []; nextTimer := 1; financialTimeout := None;
     notesTimeout := None; reports := fetched; selectedUserFilter := "";
     filteredReports := fetched; requests := []; fetching := 0 |}.

(** [clearTimeout(h)]: the timer of handle [h] is dropped when it is still
    pending; [undefined] and the handle of a timer that has fired do
    nothing. *)
Definition clearTimeout (h : option nat) (w : window) : window :=
  match h with
  | Some i =>
      {| pending := filter (fun tm => negb (tid tm =? i)%nat) (pending w);
         nextTimer := nextTimer w;
         financialTimeout := financialTimeout w;
         notesTimeout := notesTimeout w;
         reports := reports w;
         selectedUserFilter := selectedUserFilter w;
         filteredReports := filteredReports w;
         requests := requests w;
         fetching := fetching w |}
  | None => w
  end.

(** Timers fire by due time, and by creation among equal due times. *)
Fixpoint enqueue (tm : timer) (l : list timer) : list timer :=
  match l with
  | [] => [tm]
  | x :: l' => if due x <=? due tm then x :: enqueue tm l' else tm :: l
  end.

(** [setTimeout(cb, delay)] called at time [t]: a fresh handle. *)
Definition setTimeout (t : Z) (cb : closure) (delay : Z) (w : window)
  : nat * window :=
  (nextTimer w,
   {| pending := enqueue {| tid := nextTimer w; due := t + delay; callback := cb |}
                   (pending w);
      nextTimer := S (nextTimer w);
      financialTimeout := financialTimeout w;
      notesTimeout := notesTimeout w;
      reports := reports w;
      selectedUserFilter := selectedUserFilter w;
      filteredReports := filteredReports w;
      requests := requests w;
      fetching := fetching w |}).

Definition set_financialTimeout (h : nat) (w : window) : window :=
  {| pending := pending w; nextTimer := nextTimer w;
     financialTimeout := Some h; notesTimeout := notesTimeout w;
     reports := reports w; selectedUserFilter := selectedUserFilter w;
     filteredReports := filteredReports w; requests := requests w;
     fetching := fetching w |}.

Definition set_notesTimeout (h : nat) (w : window) : window :=
  {| pending := pending w; nextTimer := nextTimer w;
     financialTimeout := financialTimeout w; notesTimeout := Some h;
     reports := reports w; selectedUserFilter := selectedUserFilter w;
     filteredReports := filteredReports w; requests := requests w;
     fetching := fetching w |}.

(** React commits the list [shown]: the notes area of a card that is still
    on screen shows [report.admin_notes || ''] of its report; the notes
    area of a card that has left the screen keeps its text, and a card
    that comes back gets a notes area of its own. *)
Definition render (shown : list report) (rid : string) (target : textarea)
  : textarea :=
  if attached target then
    match find (fun r => (id r =? rid)%string) shown with
    | Some r => {| shownText := or_string (admin_notes r) ""; attached := true |}
    | None => {| shownText := shownText target; attached := false |}
    end
  else target.

Definition renderCallback (shown : list report) (k : closure) : closure :=
  match k with
  | FinancialCallback _ _ _ => k
  | NotesCallback rid target => NotesCallback rid (render shown rid target)
  end.

Definition renderTimer (shown : list report) (tm : timer) : timer :=
  {| tid := tid tm; due := due tm;
     callback := renderCallback shown (callback tm) |}.

(** [setFilteredReports(l)] and the render that follows it. *)
Definition setFilteredReports (l : list report) (w : window) : window :=
  {| pending := map (renderTimer l) (pending w); nextTimer := nextTimer w;
     financialTimeout := financialTimeout w; notesTimeout := notesTimeout w;
     reports := reports w; selectedUserFilter := selectedUserFilter w;
     filteredReports := l; requests := requests w; fetching := fetching w |}.

Definition setReports (l : list report) (w : window) : window :=
  {| pending := pending w; nextTimer := nextTimer w;
     financialTimeout := financialTimeout w; notesTimeout := notesTimeout w;
     reports := l; selectedUserFilter := selectedUserFilter w;
     filteredReports := filteredReports w; requests := requests w;
     fetching := fetching w |}.

Definition setSelectedUserFilter (userId : string) (w : window) : window :=
  {| pending := pending w; nextTimer := nextTimer w;
     financialTimeout := financialTimeout w; notesTimeout := notesTimeout w;
     reports := reports w; selectedUserFilter := userId;
     filteredReports := filteredReports w; requests := requests w;
     fetching := fetching w |}.

Definition set_fetching (n : nat) (w : window) : window :=
  {| pending := pending w; nextTimer := nextTimer w;
     financialTimeout := financialTimeout w; notesTimeout := notesTimeout w;
     reports := reports w; selectedUserFilter := selectedUserFilter w;
     filteredReports := filteredReports w; requests := requests w;
     fetching := n |}.

Definition with_total_cost (v : float) (r : report) : report :=
  {| id := id r; client_name := client_name r;
     client_address := client_address r; employee_id := employee_id r;
     employee_name := employee_name r; description := description r;
     priority := priority r; status := status r;
     request_date := request_date r; completion_date := completion_date r;
     total_cost := Some v; parts_cost := parts_cost r;
     admin_notes := admin_notes r; employee_notes := employee_notes r;
     photos := photos r |}.

Definition with_parts_cost (v : float) (r : report) : report :=
  {| id := id r; client_name := client_name r;
     client_address := client_address r; employee_id := employee_id r;
     employee_name := employee_name r; description := description r;
     priority := priority r; status := status r;
     request_date := request_date r; completion_date := completion_date r;
     total_cost := total_cost r; parts_cost := Some v;
     admin_notes := admin_notes r; employee_notes := employee_notes r;
     photos := photos r |}.

Definition with_admin_notes (s : string) (r : report) : report :=
  {| id := id r; client_name := client_name r;
     client_address := client_address r; employee_id := employee_id r;
     employee_name := employee_name r; description := description r;
     priority := priority r; status := status r;
     request_date := request_date r; completion_date := completion_date r;
     total_cost := total_cost r; parts_cost := parts_cost r;
     admin_notes := Some s; employee_notes := employee_notes r;
     photos := photos r |}.

(** An [onChange] event of the admin controls of the card of [reportId].
    A financial input carries [parseFloat(e.target.value)], the notes area
    its text. *)
Inductive edit :=
| EditTotalCost (reportId : string) (parsed : float)
| EditPartsCost (reportId : string) (parsed : float)
| EditAdminNotes (reportId : string) (text : string).

Definition delayMs : Z := 1000.

(** The callback an edit gives to [setTimeout], the list [shown] being on
    screen: the notes area of the event shows the text just typed. *)
Definition callbackOf (shown : list report) (e : edit) : closure :=
  match e with
  | EditTotalCost rid v => FinancialCallback rid "total_cost" (or_zero (Some v))
  | EditPartsCost rid v => FinancialCallback rid "parts_cost" (or_zero (Some v))
  | EditAdminNotes rid s =>
      NotesCallback rid
        {| shownText := s;
           attached := existsb (fun r => (id r =? rid)%string) shown |}
  end.

(** The request that carries the value of an edit. *)
Definition flushOf (e : edit) : request :=
  match e with
  | EditTotalCost rid v => UpdateFinancialField rid "total_cost" (or_zero (Some v))
  | EditPartsCost rid v => UpdateFinancialField rid "parts_cost" (or_zero (Some v))
  | EditAdminNotes rid s => UpdateAdminNotes rid s
  end.

(** The three [onChange] handlers, run at time [t]: the list shown is
    updated at once, the timer kept in the property of [window] is cleared
    and a new one is stored there. *)
Definition onChange (t : Z) (e : edit) (w : window) : window :=
  match e with
  | EditTotalCost rid v =>
      let w1 := setFilteredReports
                  (map (fun r => if (id r =? rid)%string
                                 then with_total_cost (or_zero (Some v)) r else r)
                     (filteredReports w)) w in
      let w2 := clearTimeout (financialTimeout w1) w1 in
      let '(h, w3) :=
        setTimeout t (callbackOf (filteredReports w) e) delayMs w2 in
      set_financialTimeout h w3
  | EditPartsCost rid v =>
      let w1 := setFilteredReports
                  (map (fun r => if (id r =? rid)%string
                                 then with_parts_cost (or_zero (Some v)) r else r)
                     (filteredReports w)) w in
      let w2 := clearTimeout (financialTimeout w1) w1 in
      let '(h, w3) :=
        setTimeout t (callbackOf (filteredReports w) e) delayMs w2 in
      set_financialTimeout h w3
  | EditAdminNotes rid s =>
      let w1 := setFilteredReports
                  (map (fun r => if (id r =? rid)%string
                                 then with_admin_notes s r else r)
                     (filteredReports w)) w in
      let w2 := clearTimeout (notesTimeout w1) w1 in
      let '(h, w3) :=
        setTimeout t (callbackOf (filteredReports w) e) delayMs w2 in
      set_notesTimeout h w3
  end.

(** The event loop reaches time [t]: the timers due by then fire in order;
    each one sends its request, [PUT /reports/{id}], and goes on to
    [fetchReports()]. *)
Definition elapse (t : Z) (w : window) : window :=
  {| pending := filter (fun tm => negb (due tm <=? t)) (pending w);
     nextTimer := nextTimer w;
     financialTimeout := financialTimeout w;
     notesTimeout := notesTimeout w;
     reports := reports w;
     selectedUserFilter := selectedUserFilter w;
     filteredReports := filteredReports w;
     requests := requests w
                 ++ map (fun tm => send (callback tm))
                      (filter (fun tm => due tm <=? t) (pending w));
     fetching := fetching w
                 + List.length (filter (fun tm => due tm <=? t) (pending w)) |}.

(** The effect on [reports] and [selectedUserFilter]: [filterReports()]. *)
Definition filterReportsEffect (w : window) : window :=
  setFilteredReports (filterReports (reports w) (selectedUserFilter w)) w.

(** What happens to the component: an edit in a card; another handler
    calls [fetchReports()] (a status button, a form); a call of
    [fetchReports] that is under way comes to its end, with the data of
    [GET /reports] or with a failure (of the [PUT] before it or of the
    [GET]); the employee filter is set. *)
Inductive event :=
| Edit (e : edit)
| Reload
| Answer (response : option (list report))
| SelectUser (userId : string).

Definition handle (t : Z) (ev : event) (w : window) : window :=
  match ev with
  | Edit e => onChange t e w
  | Reload => set_fetching (S (fetching w)) w
  | Answer response =>
      match fetching w with
      | O => w
      | S n =>
          match response with
          | Some _ =>
              filterReportsEffect
                (setReports (fetchReports response (reports w))
                   (set_fetching n w))
          | None => set_fetching n w
          end
      end
  | SelectUser userId =>
      if (userId =? selectedUserFilter w)%string then w
      else filterReportsEffect (setSelectedUserFilter userId w)
  end.

(** A session: events at their times, in chronological order. *)
Definition run (es : list (Z * event)) (w : window) : window :=
  fold_left (fun w te => handle (fst te) (snd te) (elapse (fst te) w)) es w.

(** No further event arrives: every pending timer fires. *)
Definition quiesce (w : window) : window :=
  {| pending := [];
     nextTimer := nextTimer w;
     financialTimeout := financialTimeout w;
     notesTimeout := notesTimeout w;
     reports := reports w;
     selectedUserFilter := selectedUserFilter w;
     filteredReports := filteredReports w;
     requests := requests w ++ map (fun tm => send (callback tm)) (pending w);
     fetching := fetching w + List.length (pending w) |}.

(** The requests of one class that reached the backend. *)
Definition flushed (c : timerClass) (w : window) : list request :=
  filter (fun q => timerClass_eqb (classOf q) c) (requests w).

(** The last edit of a class in a session and the last edit of one field
    of one report. *)
Definition classOfEdit (e : edit) : timerClass := classOf (flushOf e).

Definition editOfClass (c : timerClass) (ev : event) : option edit :=
  match ev with
  | Edit e => if timerClass_eqb (classOfEdit e) c then Some e else None
  | _ => None
  end.

Fixpoint lastOfClass (c : timerClass) (es : list (Z * event)) : option edit :=
  match es with
  | [] => None
  | (_, ev) :: es' =>
      match lastOfClass c es' with
      | Some e' => Some e'
      | None => editOfClass c ev
      end
  end.

Definition fieldOf (e : edit) : string * string :=
  match e with
  | EditTotalCost rid _ => (rid, "total_cost")
  | EditPartsCost rid _ => (rid, "parts_cost")
  | EditAdminNotes rid _ => (rid, "admin_notes")
  end.

Definition samePair (a b : string * string) : bool :=
  (fst a =? fst b)%string && (snd a =? snd b)%string.

Fixpoint lastOfPair (p : string * string) (es : list (Z * event)) : option edit :=
  match es with
  | [] => None
  | (_, ev) :: es' =>
      match lastOfPair p es' with
      | Some e' => Some e'
      | None =>
          match ev with
          | Edit e => if samePair (fieldOf e) p then Some e else None
          | _ => None
          end
      end
  end.

(** The report and the field a request writes. *)
Definition targetOf (q : request) : string * string :=
  match q with
  | UpdateFinancialField rid f _ => (rid, f)
  | UpdateAdminNotes rid _ => (rid, "admin_notes")
  end.

(** The requests for one field of one report that reached the backend. *)
Definition flushedFor (p : string * string) (w : window) : list request :=
  filter (fun q => samePair (targetOf q) p) (requests w).

(** The property of [window] the handlers of a class use, and the pending
    timers of a class. *)
Definition handleOf (c : timerClass) (w : window) : option nat :=
  match c with
  | Financial => financialTimeout w
  | Notes => notesTimeout w
  end.

Definition pendingOf (c : timerClass) (w : window) : list timer :=
  filter (fun tm => timerClass_eqb (classOfCallback (callback tm)) c)
    (pending w).

(** Events in chronological order. *)
Fixpoint chronological (es : list (Z * event)) : bool :=
  match es with
  | [] => true
  | (t, _) :: rest =>
      match rest with
      | [] => true
      | (t', _) :: _ => (t <=? t') && chronological rest
      end
  end.

(** A burst in the narrow sense: events in chronological order, each less
    than the delay after the first one. *)
Definition burst (es : list (Z * event)) : bool :=
  chronological es &&
  match es with
  | [] => true
  | (t0, _) :: _ => forallb (fun te => fst te <? t0 + delayMs) es
  end.

(** A burst of the edits of class [c]: each of them comes less than the
    delay after the one before it, [previous] being the time of the last
    edit of the class before the session. *)
Fixpoint closeEdits (c : timerClass) (previous : option Z)
  (es : list (Z * event)) : bool :=
  match es with
  | [] => true
  | (t, ev) :: rest =>
      match editOfClass c ev with
      | Some _ =>
          match previous with
          | Some t0 => t <? t0 + delayMs
          | None => true
          end && closeEdits c (Some t) rest
      | None => closeEdits c previous rest
      end
  end.

(** The events that put another list on screen. *)
Definition replaces (ev : event) : bool :=
  match ev with
  | Answer (Some _) | SelectUser _ => true
  | Edit _ | Reload | Answer None => false
  end.

Definition flushList (e : option edit) : list request :=
  match e with
  | Some e => [flushOf e]
  | None => []
  end.

(** The states the handlers reach: the handles stored in [window] were
    issued by [setTimeout], the two properties never hold the same handle,
    and a class has at most one pending timer, the one its property names. *)
Definition wellFormed (w : window) : Prop :=
  (forall c h, handleOf c w = Some h -> (h < nextTimer w)%nat) /\
  (forall h, financialTimeout w = Some h -> notesTimeout w <> Some h) /\
  (forall c,
     pendingOf c w = []
     \/ exists h d k,
          handleOf c w = Some h
          /\ pendingOf c w = [{| tid := h; due := d; callback := k |}]).

(** A notes area that is on screen shows the notes of its report. *)
Definition syncedCallback (shown : list report) (k : closure) : Prop :=
  match k with
  | FinancialCallback _ _ _ => True
  | NotesCallback rid target =>
      attached target = true ->
      exists r, find (fun r => (id r =? rid)%string) shown = Some r
                /\ shownText target = or_string (admin_notes r) ""
  end.

Definition synced (w : window) : Prop :=
  Forall (fun tm => syncedCallback (filteredReports w) (callback tm))
    (pending w).

End ServiceReports.

(** ** The completed view, [ServicesConcluded] *)

Module ServicesConcluded.

(** [fetchCompletedReports]: the completed reports of a successful
    [GET /reports]; on a failure the state is left as it was. *)
Definition fetchCompletedReports (response : option (list report))
  (reports : list report) : list report :=
  match response with
  | Some data => filter (fun r => (status r =? "completed")%string) data
  | None => reports
  end.

Section Host.

(** [String.prototype.toLowerCase] of the host. *)
Variable toLowerCase : string -> string.

(** [filterReports]: the client filter when [searchClient] is not empty,
    then the employee filter when [searchEmployee] is not empty. *)
Definition filterReports (reports : list report)
  (searchClient searchEmployee : string) : list report :=
  let filtered := reports in
  let filtered :=
    if (searchClient =? "")%string then filtered
    else filter (fun r => (client_name r =? searchClient)%string) filtered in
  let filtered :=
    if (searchEmployee =? "")%string then filtered
    else filter (fun r => includes (toLowerCase (employee_name r))
                                   (toLowerCase searchEmployee)) filtered in
  filtered.

End Host.

End ServicesConcluded.

(** ** The PDF download, [ReportsDownload] *)

Module ReportsDownload.

(** *** The document *)

(** A report container drawn on a page: the number printed in its title
    band, the report and the top edge of its border. *)
Record container := { number : nat; content : report; top : Z }.

Definition page := list container.

(** The document under construction: the pages already left and the page
    the drawing calls go to. *)
Record document := { finished : list page; current : page }.

Definition pages (d : document) : list page := finished d ++ [current d].

(** [new jsPDF(...)]: one empty page. *)
Definition newDocument : document := {| finished := []; current := [] |}.

(** [pdf.addPage()]. *)
Definition addPage (d : document) : document :=
  {| finished := finished d ++ [current d]; current := [] |}.

(** The drawing calls of one report, on the current page. *)
Definition draw (c : container) (d : document) : document :=
  {| finished := finished d; current := current d ++ [c] |}.

(** The page size [new jsPDF('p', 'mm', 'a4')] reports: the library keeps
    the A4 format as 595.28 by 841.89 points and divides by its scale factor
    for millimetres, 72 / 25.4. *)
Definition a4Width : Q := (59528 # 100) / ((72 # 1) / (254 # 10)).
Definition a4Height : Q := (84189 # 100) / ((72 # 1) / (254 # 10)).

(** *** The side effects of a click on the download button *)

Inductive effect :=
| Alert (message : string)
| SetIsGenerating (b : bool)
| Save (fileName : string) (doc : list page).

Inductive outcome (A : Type) :=
| Returned (a : A)
| Thrown (error : string).
Arguments Returned {A} a.
Arguments Thrown {A} error.

(** A computation: the effects it performed, in order, and how it ended. *)
Definition M (A : Type) : Type := list effect * outcome A.

Definition ret {A} (a : A) : M A := ([], Returned a).

Definition bind {A B} (m : M A) (k : A -> M B) : M B :=
  match m with
  | (tr, Returned a) => let '(tr', o) := k a in (tr ++ tr', o)
  | (tr, Thrown e) => (tr, Thrown e)
  end.

Definition perform (e : effect) : M unit := ([e], Returned tt).

Definition throw {A} (e : string) : M A := ([], Thrown e).

(** [try { m } catch (error) { h error }]. *)
Definition tryCatch {A} (m : M A) (h : string -> M A) : M A :=
  match m with
  | (tr, Returned a) => (tr, Returned a)
  | (tr, Thrown e) => let '(tr', o) := h e in (tr ++ tr', o)
  end.

Notation "m ;; k" := (bind m (fun _ => k))
  (at level 61, right associativity).
Notation "x <- m ;; k" := (bind m (fun x => k))
  (at level 61, m at next level, right associativity).

(** [await axios.get(...)]: the data of the response, or a rejection. *)
Definition await {A} (response : option A) : M A :=
  match response with
  | Some data => ret data
  | None => throw "Network Error"
  end.

(** *** The pagination loop of [generatePDF] *)

Definition maxReportsPerPage : nat := 3.
Definition containerHeight : Z := 85.

(** The variables of the loop. *)
Record cursor := { pdf : document; yPosition : Z; reportsPerPage : nat }.

(** The state of the loop on a page shorter than 412 millimetres: the
    counter is the number of containers on the current page, each container
    has moved the cursor by at least 146, and no page holds more than two. *)
Definition packed (s : cursor) : Prop :=
  List.length (current (pdf s)) = reportsPerPage s /\
  20 + 146 * Z.of_nat (reportsPerPage s) <= yPosition s /\
  (reportsPerPage s <= 2)%nat /\
  Forall (fun p : page => (List.length p <= 2)%nat) (finished (pdf s)).

Section Layout.

(** The page size of the document and the line breaker of the PDF library,
    [pdf.splitTextToSize]. *)
Variables (pageWidth pageHeight : Q).
Variable splitTextToSize : string -> Q -> list string.

(** [reportsPerPage >= maxReportsPerPage || yPosition > pageHeight - 100]. *)
Definition needsNewPage (s : cursor) : bool :=
  (maxReportsPerPage <=? reportsPerPage s)%nat
  || negb (Qle_bool (inject_Z (yPosition s)) (pageHeight - 100)%Q).

(** The cursor after the text blocks of a report whose title band starts at
    [y]: the title band, the two columns, the description and the notes. *)
Definition afterBlocks (r : report) (y : Z) : Z :=
  let y := y + 15 in
  let leftY := y + 7 + 7 + 7 in
  let rightY :=
    if truthy_number (total_cost r) || truthy_number (parts_cost r)
    then y + 7 + 7 + 7 else y in
  let y := Z.max leftY rightY + 3 in
  let wrappedDesc :=
    splitTextToSize (or_string (description r) "N/A") (pageWidth - 40)%Q in
  let y := y + (if (2 <? List.length wrappedDesc)%nat then 18 else 12) in
  let y := if truthy_string (admin_notes r) then y + 6 else y in
  let y := if truthy_string (employee_notes r) then y + 6 else y in
  y.

(** The body of the loop for [reports[i]]. *)
Definition placeReport (i : nat) (r : report) (s : cursor) : cursor :=
  let s :=
    if needsNewPage s
    then {| pdf := addPage (pdf s); yPosition := 20; reportsPerPage := 0 |}
    else s in
  let d := draw {| number := i + 1; content := r; top := yPosition s - 5 |}
             (pdf s) in
  let y := afterBlocks r (yPosition s) in
  {| pdf := d;
     yPosition := y + (containerHeight + 10);
     reportsPerPage := S (reportsPerPage s) |}.

Fixpoint placeReports (i : nat) (reports : list report) (s : cursor) : cursor :=
  match reports with
  | [] => s
  | r :: rest => placeReports (S i) rest (placeReport i r s)
  end.

(** The pages [generatePDF] lays out: the banner leaves the cursor at 45 on
    the first page. *)
Definition layout (reports : list report) : list page :=
  pages (pdf (placeReports 0 reports
                {| pdf := newDocument; yPosition := 45; reportsPerPage := 0 |})).

(** [generatePDF].  Every call of the PDF library, [pdf.save] included,
    sits in the [try] of the function: [thrown] is the exception one of
    them throws, if any, which the [catch] logs and throws again.  When
    none throws, the laid out document is saved under the name of the
    period.  The footer loop stamps [Page p of N] on each of the pages. *)
Definition generatePDF (reports : list report) (startDate endDate : string)
  (thrown : option string) : M unit :=
  tryCatch
    (match thrown with
     | Some error => throw error
     | None =>
         perform (Save ("service_reports_" ++ startDate ++ "_to_" ++ endDate
                          ++ ".pdf")%string
                       (layout reports))
     end)
    (fun error => throw error).

(** *** The filter of [generateReport] *)

Variable parseDate : string -> option Z.

(** The callback of [allReports.filter]: completed, and
    [reportDate >= start && reportDate <= end] on the values of the three
    dates, which is false as soon as one of them is invalid. *)
Definition completedInRange (startDate endDate : string) (r : report) : bool :=
  if negb (status r =? "completed")%string then false
  else
    match parseDate (or_string (completion_date r) (request_date r)),
          parseDate startDate, parseDate endDate with
    | Some reportDate, Some start, Some end_ =>
        (start <=? reportDate) && (reportDate <=? end_)
    | _, _, _ => false
    end.

(** [x && x !== 'all' && x !== ''] for a selection of the form. *)
Definition isSelected (x : string) : bool :=
  negb (x =? "")%string && negb (x =? "all")%string && negb (x =? "")%string.

Definition filterForDownload (allReports : list report)
  (startDate endDate selectedClient selectedEmployee : string) : list report :=
  let reports := filter (completedInRange startDate endDate) allReports in
  let reports :=
    if isSelected selectedClient
    then filter (fun r => (client_name r =? selectedClient)%string) reports
    else reports in
  let reports :=
    if isSelected selectedEmployee
    then filter (fun r => (employee_id r =? selectedEmployee)%string) reports
    else reports in
  reports.

(** [generateReport], given the answer of [GET /reports] and the exception
    the PDF library throws during [generatePDF], if any.  The [try] block
    answers whether control goes on to the statement after it: the branch of
    the empty list returns from the handler. *)
Definition generateReport
  (startDate endDate selectedClient selectedEmployee : string)
  (response : option (list report)) (thrown : option string) : M unit :=
  if (startDate =? "")%string || (endDate =? "")%string
  then perform (Alert "Please select both start and end dates")
  else
    perform (SetIsGenerating true) ;;
    goesOn <-
      tryCatch
        (allReports <- await response ;;
         let reports :=
           filterForDownload allReports startDate endDate
             selectedClient selectedEmployee in
         if (List.length reports =? 0)%nat
         then
           perform (Alert "No completed reports found for the selected criteria") ;;
           perform (SetIsGenerating false) ;;
           ret false
         else
           generatePDF reports startDate endDate thrown ;;
           ret true)
        (fun _ => perform (Alert "Failed to generate report") ;; ret true) ;;
    if goesOn : bool then perform (SetIsGenerating false) else ret tt.

End Layout.

End ReportsDownload.

(** ** Invariants of the pagination loop and the photo block *)

Module PdfLayout.
Import ReportsDownload.

(** A container, its border 85 high, lies between the top margin and the
    footer line of a page of height [pageHeight]. *)
Definition fits (pageHeight : Q) (c : container) : Prop :=
  15 <= top c /\ (inject_Z (top c + containerHeight) <= pageHeight - 20)%Q.

(** State of the loop: the cursor never rises above 20 and every container
    drawn so far fits on its page. *)
Definition withinPage (pageHeight : Q) (s : cursor) : Prop :=
  20 <= yPosition s /\
  Forall (fits pageHeight) (List.concat (pages (pdf s))).

(** Two containers of a page, the first drawn before the second. *)
Definition below (a b : container) : Prop := top a + 146 <= top b.

(** State of the loop: the cursor is past every container of the current
    page, and the containers of each page follow one another downwards. *)
Definition spacedOut (s : cursor) : Prop :=
  Forall (fun c => top c + 151 <= yPosition s) (current (pdf s)) /\
  Forall (ForallOrdPairs below) (pages (pdf s)).

(** State of the loop: the counter is the size of the current page, no page
    holds more than three containers, the pages left behind are not empty,
    and the current page is empty only before the first report. *)
Definition filled (s : cursor) : Prop :=
  List.length (current (pdf s)) = reportsPerPage s /\
  (reportsPerPage s <= 3)%nat /\
  Forall (fun p : page => (1 <= List.length p <= 3)%nat) (finished (pdf s)) /\
  (current (pdf s) = [] -> yPosition s = 45 /\ finished (pdf s) = []).

(** The photo block of a container.  [photoSize] and [maxPhotos] are the
    constants of the loop over [report.photos]. *)
Definition photoSize : Z := 20.
Definition maxPhotos : nat := 4.

(** An image placed by [pdf.addImage], with the number of its badge. *)
Record image := { badge : nat; data : string; left : Q; upper : Z }.

(** What the block prints: the count of its caption, the images and the
    count of the [+N more] line. *)
Record photoBlock := {
  caption : option nat;
  images : list image;
  more : option nat
}.

(** The cell of the image with badge [b]: two columns, rows of two. *)
Definition inCell (photoStartX : Q) (photoY : Z) (im : image) : Prop :=
  (left im
   == photoStartX
      + inject_Z (Z.of_nat ((badge im - 1) mod 2) * (photoSize + 3)))%Q /\
  upper im = photoY + Z.of_nat ((badge im - 1) / 2) * (photoSize + 3).

(** The body of [for (let j = 0; j < Math.min(photos.length, maxPhotos); j++)]
    for the photos from index [j] on: an image whose [addImage] throws is
    skipped by the [catch] of the body and the loop goes on. *)
Fixpoint placePhotos (addImage : string -> bool) (photoStartX : Q) (photoY : Z)
  (j : nat) (photos : list string) : list image :=
  match photos with
  | [] => []
  | photoData :: rest =>
      let col := (j mod 2)%nat in
      let row := (j / 2)%nat in
      let x := (photoStartX + inject_Z (Z.of_nat col * (photoSize + 3)))%Q in
      let y := photoY + Z.of_nat row * (photoSize + 3) in
      let drawn :=
        if addImage photoData
        then [{| badge := j + 1; data := photoData; left := x; upper := y |}]
        else [] in
      drawn ++ placePhotos addImage photoStartX photoY (S j) rest
  end.

(** The block for [report.photos], the cursor standing at [yPosition] after
    the notes. *)
Definition drawPhotos (addImage : string -> bool) (pageWidth : Q)
  (photos : list string) (yPosition : Z) : photoBlock :=
  if (0 <? List.length photos)%nat then
    let photoStartX := (pageWidth / 2 + 5)%Q in
    let photoY := yPosition - 35 in
    {| caption := Some (Nat.min (List.length photos) maxPhotos);
       images :=
         placePhotos addImage photoStartX photoY 0
           (firstn (Nat.min (List.length photos) maxPhotos) photos);
       more :=
         if (maxPhotos <? List.length photos)%nat
         then Some (List.length photos - maxPhotos)%nat else None |}
  else {| caption := None; images := []; more := None |}.

End PdfLayout.

(** ** The download as one predicate and its visible outcomes *)

Module DownloadCriteria.
Import ReportsDownload.

(** The three filters of [generateReport] as one predicate on a report. *)
Definition keepForDownload (parseDate : string -> option Z)
  (startDate endDate selectedClient selectedEmployee : string) (r : report)
  : bool :=
  completedInRange parseDate startDate endDate r
  && (negb (isSelected selectedClient)
      || (client_name r =? selectedClient)%string)
  && (negb (isSelected selectedEmployee)
      || (employee_id r =? selectedEmployee)%string).

(** What the user gets to see of a run: an alert or a saved file. *)
Definition isOutcome (e : effect) : bool :=
  match e with
  | Alert _ | Save _ _ => true
  | SetIsGenerating _ => false
  end.

(** The changes of the busy indicator in a run. *)
Definition busyChanges (tr : list effect) : list bool :=
  flat_map (fun e => match e with SetIsGenerating b => [b] | _ => [] end) tr.

End DownloadCriteria.

(** ** The report form of [ServiceReports] *)

Module ReportForm.

(** [Array.prototype.filter] with a callback that looks at the index. *)
Fixpoint filterIndexed {A : Type} (keep : A -> nat -> bool) (i : nat)
  (l : list A) : list A :=
  match l with
  | [] => []
  | x :: rest =>
      if keep x i then x :: filterIndexed keep (S i) rest
      else filterIndexed keep (S i) rest
  end.

(** [removePhoto] and [removeVideo]: [prev.filter((_, i) => i !== index)]. *)
Definition removePhoto (index : nat) (prev : list string) : list string :=
  filterIndexed (fun _ i => negb (i =? index)%nat) 0 prev.

Definition removeVideo (index : nat) (prev : list string) : list string :=
  filterIndexed (fun _ i => negb (i =? index)%nat) 0 prev.

(** What a file input does with the chosen files: an alert, or one reader
    started for each file. *)
Inductive uploadOutcome :=
| Refused (message : string)
| Reading (files : list string).

(** [handlePhotoUpload] and [handleVideoUpload], the list of the form being
    [photos] (or [videos]) when the handler runs.  A file is given by the
    data URL its reader delivers. *)
Definition handlePhotoUpload (photos files : list string) : uploadOutcome :=
  if (5 <? List.length photos + List.length files)%nat
  then Refused "Maximum 5 photos allowed"
  else Reading files.

Definition handleVideoUpload (videos files : list string) : uploadOutcome :=
  if (2 <? List.length videos + List.length files)%nat
  then Refused "Maximum 2 videos allowed"
  else Reading files.

(** The [onload] callbacks of the readers, in the order in which the reads
    finish: each one runs [setPhotos(prev => [...prev, result])]. *)
Definition onload (results : list string) (prev : list string) : list string :=
  fold_left (fun prev result => prev ++ [result]) results prev.

(** What the user does with the photos of the form: chooses files, whose
    reads then finish in the order [finished], or removes the photo at an
    index. *)
Inductive photoEvent :=
| Choose (files finished : list string)
| Remove (index : nat).

Definition photoStep (photos : list string) (ev : photoEvent) : list string :=
  match ev with
  | Choose files finished =>
      match handlePhotoUpload photos files with
      | Refused _ => photos
      | Reading _ => onload finished photos
      end
  | Remove index => removePhoto index photos
  end.

(** The reads of a choice are the chosen files, finished in some order. *)
Definition readsFinish (ev : photoEvent) : Prop :=
  match ev with
  | Choose files finished => Permutation files finished
  | Remove _ => True
  end.

(** A number as [Math.min] and [Math.max] produce it from the values of
    dates: [NaN], an infinity (no argument at all) or a finite value. *)
Inductive number := NaN | Infinity | NegInfinity | Finite (z : Z).

Definition valueOf (d : option Z) : number :=
  match d with
  | Some z => Finite z
  | None => NaN
  end.

Definition min2 (a b : number) : number :=
  match a, b with
  | NaN, _ | _, NaN => NaN
  | NegInfinity, _ | _, NegInfinity => NegInfinity
  | Infinity, x | x, Infinity => x
  | Finite x, Finite y => Finite (Z.min x y)
  end.

Definition max2 (a b : number) : number :=
  match a, b with
  | NaN, _ | _, NaN => NaN
  | Infinity, _ | _, Infinity => Infinity
  | NegInfinity, x | x, NegInfinity => x
  | Finite x, Finite y => Finite (Z.max x y)
  end.

(** [Math.min(...dates)] and [Math.max(...dates)]. *)
Definition mathMin (dates : list (option Z)) : number :=
  fold_right (fun d acc => min2 (valueOf d) acc) Infinity dates.

Definition mathMax (dates : list (option Z)) : number :=
  fold_right (fun d acc => max2 (valueOf d) acc) NegInfinity dates.

(** [new Date(value)]: a finite value is a date, anything else is an
    [Invalid Date]. *)
Definition newDate (n : number) : option Z :=
  match n with
  | Finite z => Some z
  | _ => None
  end.

(** [getReportPeriod].  [toDateString] is the day of a date in the time
    zone of the browser and [formatLATime] its day in Los Angeles, both
    defined on invalid dates too. *)
Definition getReportPeriod (parseDate : string -> option Z)
  (toDateString formatLATime : option Z -> string)
  (filteredReports : list report) : string :=
  if (List.length filteredReports =? 0)%nat then "No reports"
  else
    let dates := map (fun r => parseDate (request_date r)) filteredReports in
    let minDate := newDate (mathMin dates) in
    let maxDate := newDate (mathMax dates) in
    if (toDateString minDate =? toDateString maxDate)%string
    then formatLATime minDate
    else (formatLATime minDate ++ " - " ++ formatLATime maxDate)%string.

(** A value of the body of a [PUT] request. *)
Inductive jsvalue :=
| VString (s : string)
| VNumber (x : float)
| VStrings (l : list string).

(** The [updateData] object of [handleUpdateReport], its properties in the
    order in which they are written.  [role] is [user?.role]; the two costs
    are the texts of the inputs of the form. *)
Definition updateData (parseFloat : string -> float) (role : option string)
  (description priority : string) (photos : list string)
  (employeeNotes adminNotes totalCost partsCost : string)
  : list (string * jsvalue) :=
  [("description", VString description);
   ("priority", VString priority);
   ("photos", VStrings photos);
   ("employee_notes", VString employeeNotes)]
  ++ (if match role with Some r => (r =? "admin")%string | None => false end
      then
        [("admin_notes", VString adminNotes)]
        ++ (if negb (totalCost =? "")%string
            then [("total_cost", VNumber (parseFloat totalCost))] else [])
        ++ (if negb (partsCost =? "")%string
            then [("parts_cost", VNumber (parseFloat partsCost))] else [])
        ++ (if negb (totalCost =? "")%string && negb (partsCost =? "")%string
            then [("gross_profit",
                   VNumber (PrimFloat.sub (parseFloat totalCost)
                                          (parseFloat partsCost)))]
            else [])
      else []).

(** [object[key]]. *)
Fixpoint property (key : string) (object : list (string * jsvalue))
  : option jsvalue :=
  match object with
  | [] => None
  | (k, v) :: rest => if (k =? key)%string then Some v else property key rest
  end.

End ReportForm.

(** ** Invariants of the debounce timers over whole sessions *)

Module DebounceSessions.
Import ServiceReports.

(** The request [q] comes from the edit [e]: it writes the field of the
    edit, and a financial request carries the very value of the edit. *)
Definition fromEdit (e : edit) (q : request) : Prop :=
  targetOf q = fieldOf e /\ (classOf q = Financial -> q = flushOf e).

(** After any part of a session whose last edit of class [c] is [last c]:
    a request of that edit is waiting in the pending timer of the class,
    or it was the last request of the class to be sent. *)
Definition settled (last : timerClass -> option edit) (w : window) : Prop :=
  forall c,
    match last c with
    | None => pendingOf c w = [] /\ flushed c w = []
    | Some e =>
        (exists tm, pendingOf c w = [tm] /\ fromEdit e (send (callback tm)))
        \/ (pendingOf c w = []
            /\ exists before q, flushed c w = before ++ [q] /\ fromEdit e q)
    end.

(** Every request sent or waiting comes from one of the edits [seen], and
    there are no more of them than edits. *)
Definition accounted (seen : list edit) (w : window) : Prop :=
  (forall q,
     In q (requests w ++ map (fun tm => send (callback tm)) (pending w)) ->
     exists e, In e seen /\ fromEdit e q) /\
  (List.length (requests w) + List.length (pending w) <= List.length seen)%nat.

(** The notes typed last in the card of [rid], at time [t], are on their
    way: their timer is pending with the text [s] in its notes area, or
    the request with that text was the last of the notes to be sent. *)
Definition notesOnTheirWay (t : Z) (rid s : string) (w : window) : Prop :=
  (exists tm, pendingOf Notes w = [tm] /\ due tm = t + delayMs
              /\ send (callback tm) = UpdateAdminNotes rid s)
  \/ (pendingOf Notes w = []
      /\ exists before, flushed Notes w = before ++ [UpdateAdminNotes rid s]).

(** The list on screen after an edit. *)
Definition applyEdit (e : edit) (r : report) : report :=
  if (id r =? fst (fieldOf e))%string then
    match e with
    | EditTotalCost _ v => with_total_cost (or_zero (Some v)) r
    | EditPartsCost _ v => with_parts_cost (or_zero (Some v)) r
    | EditAdminNotes _ s => with_admin_notes s r
    end
  else r.

Definition edited (e : edit) (shown : list report) : list report :=
  map (applyEdit e) shown.

(** [w'] is [w] after a step that leaves the timers and the requests
    alone: the list on screen is the same, or another list has been
    rendered. *)
Definition renders (w w' : window) : Prop :=
  nextTimer w' = nextTimer w /\
  financialTimeout w' = financialTimeout w /\
  notesTimeout w' = notesTimeout w /\
  requests w' = requests w /\
  ((pending w' = pending w /\ filteredReports w' = filteredReports w)
   \/ pending w' = map (renderTimer (filteredReports w')) (pending w)).

(** The handles and the notes areas are as the handlers leave them. *)
Definition stable (w : window) : Prop := wellFormed w /\ synced w.

(** A class has one request at most, sent or waiting. *)
Definition oneAtMost (c : timerClass) (w : window) : Prop :=
  (List.length (flushed c w) + List.length (pendingOf c w) <= 1)%nat.

(** The edits of a session. *)
Definition editsOf (es : list (Z * event)) : list edit :=
  flat_map (fun te => match snd te with Edit e => [e] | _ => [] end) es.


End DebounceSessions.

(** ** Accounts and the session, [AuthProvider] and [Dashboard] *)

Module Account.

Record user := { id : string; username : string; role : string }.

(** The state [AuthProvider] keeps and mirrors: the two React states, the
    [token] entry of [localStorage] and the [Authorization] default header
    of the HTTP client. *)
Record session := {
  currentUser : option user;
  token : option string;
  stored : option string;
  authorization : option string
}.

(** The provider when it mounts: the token state is read from
    [localStorage]. *)
Definition mount (storedToken : option string) : session :=
  {| currentUser := None; token := storedToken; stored := storedToken;
     authorization := None |}.

Definition logout (s : session) : session :=
  {| currentUser := None; token := None; stored := None;
     authorization := None |}.

(** [login]: the answer of [POST /auth/login] is the token and the user, or
    the request fails; the result says whether it succeeded. *)
Definition login (response : option (string * user)) (s : session)
  : bool * session :=
  match response with
  | Some (access_token, userData) =>
      (true,
       {| currentUser := Some userData; token := Some access_token;
          stored := Some access_token;
          authorization := Some ("Bearer " ++ access_token)%string |})
  | None => (false, s)
  end.

(** What happens to the session: the effect on [token] starts (the header
    is set when there is a token and [GET /auth/me] is sent), the answer of
    [GET /auth/me] arrives, a login attempt, a logout. *)
Inductive event :=
| TokenEffect
| CurrentUser (response : option user)
| Login (response : option (string * user))
| Logout.

Definition step (s : session) (ev : event) : session :=
  match ev with
  | TokenEffect =>
      if truthy_string (token s)
      then {| currentUser := currentUser s; token := token s;
              stored := stored s;
              authorization :=
                Some ("Bearer " ++ or_string (token s) "")%string |}
      else s
  | CurrentUser (Some userData) =>
      {| currentUser := Some userData; token := token s; stored := stored s;
         authorization := authorization s |}
  | CurrentUser None => logout s
  | Login response => snd (login response s)
  | Logout => logout s
  end.

(** The screens of the application. *)
Inductive screen :=
| LoginScreen
| ServiceReportsTab
| ServicesConcludedTab
| ClientsManagementTab
| UsersManagementTab
| CalendarTab
| ReportsDownloadTab.

(** [user?.role === 'admin']. *)
Definition isAdmin (u : option user) : bool :=
  match u with
  | Some u => (role u =? "admin")%string
  | None => false
  end.

(** The components [Dashboard] renders under the navigation for the value
    of [activeTab]. *)
Definition dashboard (u : option user) (activeTab : string) : list screen :=
  (if (activeTab =? "reports")%string then [ServiceReportsTab] else [])
  ++ (if (activeTab =? "completed")%string then [ServicesConcludedTab] else [])
  ++ (if (activeTab =? "clients")%string && isAdmin u
      then [ClientsManagementTab] else [])
  ++ (if (activeTab =? "users")%string && isAdmin u
      then [UsersManagementTab] else [])
  ++ (if (activeTab =? "calendar")%string && isAdmin u
      then [CalendarTab] else [])
  ++ (if (activeTab =? "reports-download")%string && isAdmin u
      then [ReportsDownloadTab] else []).

(** [App]: the dashboard for a signed-in user, the login form otherwise. *)
Definition app (u : option user) (activeTab : string) : list screen :=
  match u with
  | Some _ => dashboard u activeTab
  | None => [LoginScreen]
  end.

End Account.

(** ** The clients view, [ClientsManagement] *)

Module ClientsManagement.

Record client := {
  id : string;
  name : string;
  address : string;
  employee_id : option string
}.

(** [client.employee_id === employeeId]. *)
Definition assignedTo (employeeId : string) (c : client) : bool :=
  match employee_id c with
  | Some e => (e =? employeeId)%string
  | None => false
  end.

(** The effect on [clients] and [employeeFilter] that computes
    [filteredClients]. *)
Definition filteredClients (clients : list client) (employeeFilter : string)
  : list client :=
  if (employeeFilter =? "")%string then clients
  else if (employeeFilter =? "unassigned")%string
  then filter (fun c => negb (truthy_string (employee_id c))) clients
  else filter (assignedTo employeeFilter) clients.

Definition getEmployeeClientCount (clients : list client) (employeeId : string)
  : nat :=
  List.length (filter (assignedTo employeeId) clients).

(** [getEmployeeName]. *)
Definition getEmployeeName (users : list Account.user)
  (employeeId : option string) : string :=
  if negb (truthy_string employeeId) then "Unassigned"
  else
    match find (fun u => (Account.id u =? or_string employeeId "")%string) users with
    | Some employee => Account.username employee
    | None => "Unknown"
    end.

(** The form of a new client. *)
Record newClient := {
  new_name : string;
  new_address : string;
  new_employee_id : string
}.

Inductive effect :=
| Alert (message : string)
| Confirm (existing : client)
| SetIsCreating (b : bool)
| Post (name address : string) (employee_id : option string)
| FetchClients
| SetShowAddClient (b : bool)
| ResetNewClient.

Section Host.

(** [String.prototype.trim] and [String.prototype.toLowerCase] of the
    host. *)
Variables (trim toLowerCase : string -> string).

(** The client [handleCreateClient] takes for a duplicate:
    [clients.find(client => client.name.toLowerCase().trim()
    === newClient.name.toLowerCase().trim())]. *)
Definition duplicateOf (clients : list client) (n : newClient) : option client :=
  find (fun c => (trim (toLowerCase (name c))
                  =? trim (toLowerCase (new_name n)))%string) clients.

(** [handleCreateClient]: [proceed] is the answer to the confirmation
    dialog, should it be shown, and [accepted] says whether the backend
    accepts the request, should it be sent. *)
Definition handleCreateClient (clients : list client) (n : newClient)
  (proceed accepted : bool) : list effect :=
  if (trim (new_name n) =? "")%string || (trim (new_address n) =? "")%string
  then [Alert "Please fill in both name and address"]
  else
    let post :=
      Post (trim (new_name n)) (trim (new_address n))
        (if (new_employee_id n =? "")%string then None
         else Some (new_employee_id n)) in
    let send :=
      if accepted
      then [post; FetchClients; SetShowAddClient false; ResetNewClient;
            Alert "Client created successfully!"; SetIsCreating false]
      else [post; Alert "Failed to create client"; SetIsCreating false] in
    SetIsCreating true ::
    match duplicateOf clients n with
    | Some existing =>
        Confirm existing ::
        (if proceed then send else [SetIsCreating false])
    | None => send
    end.

End Host.

Definition isPost (e : effect) : bool :=
  match e with
  | Post _ _ _ => true
  | _ => false
  end.

End ClientsManagement.

(** ** The profit calendar, [Calendar], and the counters of the active view *)

Module Calendar.

(** A report as the calendar reads it: the calendar also looks at
    [last_modified]. *)
Record entry := { base : report; last_modified : option string }.

Definition isLeap (year : Z) : bool :=
  ((year mod 4 =? 0) && negb (year mod 100 =? 0)) || (year mod 400 =? 0).

(** [new Date(selectedYear, month + 1, 0).getDate()], the month counted
    from 0: the last day of the month.  The constructor reads a year from 0
    to 99 as a year of the twentieth century.  The years whose months
    [Date] cannot hold (more than 100 million days from 1970) are not
    covered: the properties below take the year from 0 to 275759. *)
Definition daysInMonth (year : Z) (month : nat) : nat :=
  let year := if (0 <=? year) && (year <=? 99) then 1900 + year else year in
  match month with
  | 1 => if isLeap year then 29 else 28
  | 3 | 5 | 8 | 10 => 30
  | _ => 31
  end%nat.

(** [monthData]: for the months 0 to 11, the amounts of the days 1 to the
    last day of the month. *)
Definition table := list (list float).

(** The table after the two initialising loops. *)
Definition emptyYear (year : Z) : table :=
  map (fun month => repeat 0%float (daysInMonth year month)) (seq 0 12).

(** [monthData[month][day]], [None] for [undefined]. *)
Definition cell (t : table) (month day : nat) : option float :=
  match nth_error t month with
  | Some row => if (day =? 0)%nat then None else nth_error row (day - 1)
  | None => None
  end.

Fixpoint updateAt {A : Type} (i : nat) (f : A -> A) (l : list A) : list A :=
  match l, i with
  | [], _ => []
  | x :: rest, O => f x :: rest
  | x :: rest, S i' => x :: updateAt i' f rest
  end.

(** [if (monthData[month] && monthData[month][day] !== undefined)
    monthData[month][day] += profit]. *)
Definition addProfit (t : table) (month day : nat) (profit : float) : table :=
  match cell t month day with
  | Some _ =>
      updateAt month (updateAt (day - 1) (fun x => PrimFloat.add x profit)) t
  | None => t
  end.

Section Dates.

(** [new Date(s).getFullYear()], and [getMonth()] (from 0) and [getDate()]
    of [moment.utc(s).tz('America/Los_Angeles').toDate()]: [toDate] gives
    the native [Date] of the instant, so the month and the day are those of
    the time zone of the browser, like the year.  [None] for an invalid
    date. *)
Variable fullYear : string -> option Z.
Variable monthAndDay : string -> option (nat * nat).

(** The filter on the fetched reports. *)
Definition inYear (selectedYear : Z) (en : entry) : bool :=
  (status (base en) =? "completed")%string
  && truthy_string (last_modified en)
  && match fullYear (or_string (last_modified en) "") with
     | Some y => y =? selectedYear
     | None => false
     end.

(** The inner test of the [forEach]. *)
Definition hasAmounts (en : entry) : bool :=
  truthy_string (last_modified en)
  && truthy_number (total_cost (base en))
  && truthy_number (parts_cost (base en)).

Definition profitOf (en : entry) : float :=
  PrimFloat.sub (or_zero (total_cost (base en))) (or_zero (parts_cost (base en))).

(** The body of the [forEach]. *)
Definition record (t : table) (en : entry) : table :=
  if hasAmounts en then
    match monthAndDay (or_string (last_modified en) "") with
    | Some (month, day) => addProfit t month day (profitOf en)
    | None => t
    end
  else t.

(** [fetchYearlyData] on the data of the response: the new [monthlyData]. *)
Definition fetchYearlyData (selectedYear : Z) (data : list entry) : table :=
  fold_left record (filter (inYear selectedYear) data) (emptyYear selectedYear).

(** The reports that end up in the cell of a day. *)
Definition landsOn (selectedYear : Z) (month day : nat) (en : entry) : bool :=
  inYear selectedYear en && hasAmounts en
  && match monthAndDay (or_string (last_modified en) "") with
     | Some (m, d) => (m =? month)%nat && (d =? day)%nat
     | None => false
     end.

End Dates.

(** [calculateYearlyTotal]. *)
Definition calculateYearlyTotal (monthlyData : table) : float :=
  fold_left
    (fun total month =>
       fold_left (fun total dayProfit => PrimFloat.add total dayProfit)
         month total)
    monthlyData 0%float.

End Calendar.

Module ActiveCounters.

(** The counters of the header of the active view:
    [filteredReports.filter(r => r.status === s).length]. *)
Definition statusCount (s : string) (filteredReports : list report) : nat :=
  List.length (filter (fun r => (status r =? s)%string) filteredReports).

(** [filteredReports.filter(r => getReportFlag(r) === red).length]. *)
Definition lateCount (parseDate : string -> option Z) (now : Z)
  (filteredReports : list report) : nat :=
  List.length
    (filter (fun r =>
               match ServiceReports.getReportFlag parseDate now r with
               | Some ServiceReports.Red => true
               | _ => false
               end) filteredReports).

End ActiveCounters.

(** ** Example data *)

(** A report with the given identity, status and dates and nothing else
    filled in. *)
Definition plainReport (rid client employee state requested : string)
  (completed : option string) : report :=
  {| id := rid; client_name := client; client_address := None;
     employee_id := employee; employee_name := employee;
     description := None; priority := "SAME WEEK"; status := state;
     request_date := requested; completion_date := completed;
     total_cost := None; parts_cost := None;
     admin_notes := None; employee_notes := None; photos := [] |}.

(** Two cards of the active list, as first fetched. *)
Definition twoCards : list report :=
  [ServiceReports.with_admin_notes "old note"
     (plainReport "r1" "Ana" "e1" "reported" "2024-03-08T12:00:00Z" None);
   plainReport "r2" "Bob" "e1" "reported" "2024-03-08T13:00:00Z" None].

(** An administrator types the notes of the first card letter by letter and
    sets its estimate in between. *)
Definition typing : list (Z * ServiceReports.event) :=
  [(0, ServiceReports.Edit (ServiceReports.EditAdminNotes "r1" "c"));
   (200, ServiceReports.Edit (ServiceReports.EditAdminNotes "r1" "ca"));
   (300, ServiceReports.Edit (ServiceReports.EditTotalCost "r1" 120%float))].

(** The list of [GET /reports] once the estimate has been saved, and once
    the notes have been saved too. *)
Definition estimateSaved : list report :=
  map (fun r => if (id r =? "r1")%string
                then ServiceReports.with_total_cost 120%float r else r) twoCards.

Definition notesSaved : list report :=
  map (fun r => if (id r =? "r1")%string
                then ServiceReports.with_admin_notes "cal" r else r) estimateSaved.

(** * Properties *)

(** ** The on-time/late flag *)

Section Flags.
Import ServiceReports.

Variable parseDate : string -> option Z.
Variable now : Z.

Lemma ceil_div_bounds a b :
  0 < b -> (ceil_div a b - 1) * b < a <= ceil_div a b * b.
Proof.
  intros Hb. unfold ceil_div.
  pose proof (Z.mul_div_le (- a) b Hb) as Hle.
  pose proof (Z.mul_succ_div_gt (- a) b Hb) as Hgt.
  nia.
Qed.

Lemma ceil_div_le a b k : 0 < b -> ceil_div a b <= k <-> a <= k * b.
Proof.
  intros Hb. pose proof (ceil_div_bounds a b Hb) as [Hlo Hhi]. split; nia.
Qed.

Lemma ceil_div_exact k b : 0 < b -> ceil_div (k * b) b = k.
Proof.
  intros Hb. unfold ceil_div.
  replace (- (k * b)) with ((- k) * b) by ring.
  rewrite Z.div_mul by lia. lia.
Qed.

Lemma diffDays_valid r d :
  parseDate (request_date r) = Some d ->
  diffDays parseDate now r = Some (ceil_div (now - d) msPerDay).
Proof. intros H. unfold diffDays, diffTime. now rewrite H. Qed.

Lemma diffDays_invalid r :
  parseDate (request_date r) = None -> diffDays parseDate now r = None.
Proof. intros H. unfold diffDays, diffTime. now rewrite H. Qed.

(** C5. With [diffDays = ceil ((now - request_date) / 1 day)], a day being
    86400000 ms: [diffDays] is the least whole number of days that covers
    the age [now - request_date]; the flag is green whenever [diffDays <= 1]
    and red whenever [diffDays >= 2], that is green exactly up to an age of
    one day and red exactly beyond it.  A request date exactly one day
    before [now] is flagged green and a request date exactly two days before
    [now] is flagged red. *)
Theorem getReportFlag_thresholds r d :
  parseDate (request_date r) = Some d ->
  msPerDay = 86400000 /\
  (exists days,
     diffDays parseDate now r = Some days
     /\ (days - 1) * 86400000 < now - d <= days * 86400000
     /\ (days <= 1 -> getReportFlag parseDate now r = Some Green)
     /\ (2 <= days -> getReportFlag parseDate now r = Some Red)) /\
  (getReportFlag parseDate now r = Some Green <-> now - d <= 86400000) /\
  (getReportFlag parseDate now r = Some Red <-> 86400000 < now - d) /\
  (now - d = 86400000 -> getReportFlag parseDate now r = Some Green) /\
  (now - d = 2 * 86400000 -> getReportFlag parseDate now r = Some Red).
Proof.
  intros Hd. pose proof (diffDays_valid r d Hd) as Hdays.
  assert (Hday : 0 < msPerDay) by reflexivity.
  pose proof (ceil_div_bounds (now - d) msPerDay Hday) as Hceil.
  unfold getReportFlag. rewrite Hdays.
  set (days := ceil_div (now - d) msPerDay) in *. clearbody days.
  change msPerDay with 86400000 in Hceil.
  assert (Hgreen : (if days <=? 1 then Some Green
                    else if 2 <=? days then Some Red else None) = Some Green
                   <-> now - d <= 86400000).
  { destruct (Z.leb_spec days 1) as [Hle|Hgt].
    - split; [intros _; lia | reflexivity].
    - split; [|lia]. now destruct (2 <=? days). }
  assert (Hred : (if days <=? 1 then Some Green
                  else if 2 <=? days then Some Red else None) = Some Red
                 <-> 86400000 < now - d).
  { destruct (Z.leb_spec days 1) as [Hle|Hgt].
    - split; [discriminate | lia].
    - destruct (Z.leb_spec 2 days) as [Hge|Hlt]; [|lia].
      split; [intros _; lia | reflexivity]. }
  split; [reflexivity|]. split; [|split; [exact Hgreen|split; [exact Hred|split]]].
  - exists days. split; [reflexivity|]. split; [exact Hceil|]. split.
    + intros Hle. apply Hgreen. lia.
    + intros Hge. apply Hred. lia.
  - intros Heq. apply Hgreen. lia.
  - intros Heq. apply Hred. lia.
Qed.

(** C6. [isReportOverdue] answers true exactly when [getReportFlag], read
    at the same time, answers the red flag. *)
Theorem isReportOverdue_iff_red r :
  isReportOverdue parseDate now r = true <->
  getReportFlag parseDate now r = Some Red.
Proof.
  unfold isReportOverdue, getReportFlag.
  destruct (diffDays parseDate now r) as [days|]; [|split; discriminate].
  destruct (Z.leb_spec days 1) as [Hle|Hgt].
  - destruct (Z.leb_spec 2 days) as [Hge|_]; [lia|]. split; discriminate.
  - destruct (Z.leb_spec 2 days) as [_|Hlt]; [|lia]. split; reflexivity.
Qed.

(** C10. When the request date of the report is a valid date the flag is
    the green one or the red one: the trailing [return null] is not
    reached. *)
Theorem getReportFlag_never_null r d :
  parseDate (request_date r) = Some d ->
  getReportFlag parseDate now r = Some Green \/
  getReportFlag parseDate now r = Some Red.
Proof.
  intros Hd. unfold getReportFlag. rewrite (diffDays_valid r d Hd).
  destruct (Z.leb_spec (ceil_div (now - d) msPerDay) 1) as [Hle|Hgt].
  - now left.
  - destruct (Z.leb_spec 2 (ceil_div (now - d) msPerDay)) as [_|Hlt]; [|lia].
    now right.
Qed.

(** The flag is [null] exactly on an invalid request date. *)
Lemma getReportFlag_null_iff r :
  getReportFlag parseDate now r = None <-> parseDate (request_date r) = None.
Proof.
  split.
  - intros Hnull. destruct (parseDate (request_date r)) as [d|] eqn:Hd; [|easy].
    destruct (getReportFlag_never_null r d Hd) as [H|H]; congruence.
  - intros Hd. unfold getReportFlag. now rewrite (diffDays_invalid r Hd).
Qed.

End Flags.

(** The boundary examples: seen from 2024-03-10T12:00Z, a request of
    2024-03-09T12:00Z is on time, a request of 2024-03-08T12:00Z is late,
    and so is a request of 2024-03-09T11:59:59Z, one second more than a day
    old. *)
Lemma getReportFlag_thresholds_witness :
  ServiceReports.getReportFlag parseISO 1710072000000
    (plainReport "r1" "Smith Pool" "john" "reported" "2024-03-09T12:00Z" None)
  = Some ServiceReports.Green /\
  ServiceReports.getReportFlag parseISO 1710072000000
    (plainReport "r2" "Smith Pool" "john" "reported" "2024-03-08T12:00Z" None)
  = Some ServiceReports.Red /\
  ServiceReports.getReportFlag parseISO 1710072000000
    (plainReport "r3" "Smith Pool" "john" "reported" "2024-03-09T11:59:59Z" None)
  = Some ServiceReports.Red.
Proof.
  split; [|split].
  - apply (getReportFlag_thresholds parseISO 1710072000000
             (plainReport "r1" "Smith Pool" "john" "reported"
                "2024-03-09T12:00Z" None) 1709985600000); reflexivity.
  - apply (getReportFlag_thresholds parseISO 1710072000000
             (plainReport "r2" "Smith Pool" "john" "reported"
                "2024-03-08T12:00Z" None) 1709899200000); reflexivity.
  - destruct (getReportFlag_thresholds parseISO 1710072000000
                (plainReport "r3" "Smith Pool" "john" "reported"
                   "2024-03-09T11:59:59Z" None) 1709985599000 eq_refl)
      as (_ & _ & _ & Hred & _).
    apply Hred. reflexivity.
Defined.

Lemma getReportFlag_never_null_witness :
  ServiceReports.getReportFlag parseISO 1710072000000
    (plainReport "r1" "Smith Pool" "john" "reported" "2024-03-10T11:59:59Z" None)
  = Some ServiceReports.Green \/
  ServiceReports.getReportFlag parseISO 1710072000000
    (plainReport "r1" "Smith Pool" "john" "reported" "2024-03-10T11:59:59Z" None)
  = Some ServiceReports.Red.
Proof.
  apply (getReportFlag_never_null parseISO 1710072000000 _ 1710071999000).
  reflexivity.
Defined.

(** ** The working sets *)

(** C8. The active view keeps the reports of a fetched collection that are
    not completed and the completed view keeps the completed ones: every
    fetched report is in one of the two, none is in both, and together they
    are the collection. *)
Theorem working_sets_partition (fetched shownActive shownCompleted : list report) :
  let active := ServiceReports.fetchReports (Some fetched) shownActive in
  let completed :=
    ServicesConcluded.fetchCompletedReports (Some fetched) shownCompleted in
  (forall r, In r fetched <-> In r active \/ In r completed) /\
  (forall r, ~ (In r active /\ In r completed)) /\
  (forall r, In r active -> status r <> "completed") /\
  (forall r, In r completed -> status r = "completed") /\
  Permutation (active ++ completed) fetched /\
  (List.length active + List.length completed = List.length fetched)%nat.
Proof.
  cbn zeta. unfold ServiceReports.fetchReports,
    ServicesConcluded.fetchCompletedReports.
  assert (Hactive : forall r,
    In r (filter (fun r => negb (status r =? "completed")%string) fetched) ->
    status r <> "completed").
  { intros r Hin. apply filter_In in Hin as [_ Hneq].
    apply negb_true_iff in Hneq. now apply String.eqb_neq. }
  assert (Hdone : forall r,
    In r (filter (fun r => (status r =? "completed")%string) fetched) ->
    status r = "completed").
  { intros r Hin. apply filter_In in Hin as [_ Heq]. now apply String.eqb_eq. }
  assert (Hperm : Permutation
    (filter (fun r => negb (status r =? "completed")%string) fetched
     ++ filter (fun r => (status r =? "completed")%string) fetched) fetched).
  { clear. induction fetched as [|r l IH]; cbn; [constructor|].
    destruct (status r =? "completed")%string; cbn.
    - symmetry. apply Permutation_cons_app. now symmetry.
    - now constructor. }
  repeat split.
  - intros Hin. rewrite !filter_In.
    destruct (status r =? "completed")%string; [right|left]; now split.
  - intros [Hin|Hin]; now apply filter_In in Hin.
  - intros r [Ha Hc]. now apply (Hactive r Ha), Hdone.
  - exact Hactive.
  - exact Hdone.
  - exact Hperm.
  - rewrite <- length_app. now apply Permutation_length.
Qed.

(** When the request fails each view keeps what it showed. *)
Lemma fetch_failure_keeps_state (shownActive shownCompleted : list report) :
  ServiceReports.fetchReports None shownActive = shownActive /\
  ServicesConcluded.fetchCompletedReports None shownCompleted = shownCompleted.
Proof. now split. Qed.

(** ** The filters of the completed view *)

Lemma prefix_spec sub s :
  String.prefix sub s = true <-> exists b, s = (sub ++ b)%string.
Proof.
  revert s. induction sub as [|c sub IH]; intros s.
  - split; [intros _; now exists s | intros _; now destruct s].
  - destruct s as [|c' s]; cbn;
      [split; [discriminate | intros [b Hb]; discriminate]|].
    destruct (ascii_dec c c') as [->|Hneq].
    + rewrite IH. split; intros [b Hb]; exists b; congruence.
    + split; [discriminate | intros [b Hb]; congruence].
Qed.

(** [includes] finds exactly the occurrences of [sub] in [s]. *)
Lemma includes_spec s sub :
  includes s sub = true <-> exists a b, s = (a ++ sub ++ b)%string.
Proof.
  induction s as [|c s IH].
  - cbn [includes]. rewrite orb_false_r, prefix_spec. split.
    + intros [b Hb]. now exists EmptyString, b.
    + intros [a [b Hb]]. destruct a; [now exists b | discriminate].
  - cbn [includes]. rewrite orb_true_iff, prefix_spec, IH. split.
    + intros [[b Hb]|[a [b Hb]]].
      * now exists EmptyString, b.
      * exists (String c a), b. cbn. now rewrite Hb.
    + intros [a [b Hb]]. destruct a as [|c' a].
      * left. now exists b.
      * right. exists a, b. cbn in Hb. congruence.
Qed.

Section CompletedFilters.

(** [String.prototype.toLowerCase] of the host. *)
Variable toLowerCase : string -> string.

(** C9. [filterReports] of the completed view is a function of the list
    and of the two criteria.  It selects with a predicate, so the reports it
    keeps stay in the order of the input.  A client criterion keeps exactly
    the reports whose [client_name] equals it; an employee criterion keeps
    exactly the reports whose [employee_name], put in lower case by the
    host, contains the criterion put in lower case by the host.
    [Smith Pool] does not select the client [Smith Pools]; and since the
    host turns [John] into [john] and leaves [jo], the criterion [jo]
    selects the employee [John]. *)
Theorem filterReports_completed_spec :
  (forall reports searchClient searchEmployee,
     exists keep,
       ServicesConcluded.filterReports toLowerCase reports
         searchClient searchEmployee
       = filter keep reports) /\
  (forall reports searchClient searchEmployee r,
     In r (ServicesConcluded.filterReports toLowerCase reports
             searchClient searchEmployee)
     <-> In r reports
         /\ (searchClient = "" \/ client_name r = searchClient)
         /\ (searchEmployee = ""
             \/ exists a b,
                  toLowerCase (employee_name r)
                  = (a ++ toLowerCase searchEmployee ++ b)%string)) /\
  (forall rid employee state requested,
     ServicesConcluded.filterReports toLowerCase
       [plainReport rid "Smith Pools" employee state requested None]
       "Smith Pool" "" = []) /\
  (toLowerCase "John" = "john" -> toLowerCase "jo" = "jo" ->
   forall rid client state requested,
     ServicesConcluded.filterReports toLowerCase
       [plainReport rid client "John" state requested None] "" "jo"
     = [plainReport rid client "John" state requested None]).
Proof.
  split; [|split; [|split]].
  - intros reports sc se.
    exists (fun r =>
      ((sc =? "")%string || (client_name r =? sc)%string)
      && ((se =? "")%string
          || includes (toLowerCase (employee_name r)) (toLowerCase se))).
    unfold ServicesConcluded.filterReports.
    destruct (sc =? "")%string, (se =? "")%string; cbn [orb].
    + induction reports as [|r l IH]; cbn; [reflexivity|]. now f_equal.
    + apply filter_ext. reflexivity.
    + apply filter_ext. intros r. now rewrite andb_true_r.
    + induction reports as [|r l IH]; cbn; [reflexivity|].
      destruct (client_name r =? sc)%string; cbn; [|exact IH].
      destruct (includes _ _); cbn; congruence.
  - intros reports searchClient searchEmployee r.
    unfold ServicesConcluded.filterReports.
    destruct (String.eqb_spec searchClient "") as [Hc|Hc],
             (String.eqb_spec searchEmployee "") as [He|He];
      rewrite ?filter_In, ?String.eqb_eq, ?includes_spec; tauto.
  - reflexivity.
  - intros HJohn Hjo rid client state requested.
    unfold ServicesConcluded.filterReports. cbn [String.eqb filter plainReport
      employee_name]. now rewrite HJohn, Hjo.
Qed.

End CompletedFilters.

(** With the lower case of ASCII strings: the criterion [jo] selects the
    employees [John] and [MARJORIE] and not [Jane], whatever the case of
    the criterion. *)
Lemma filterReports_completed_spec_witness :
  ServicesConcluded.filterReports toLowerCaseASCII
    [plainReport "r1" "Smith Pool" "John" "completed" "2024-03-09T12:00Z" None;
     plainReport "r2" "Smith Pool" "Jane" "completed" "2024-03-09T12:00Z" None;
     plainReport "r3" "Lake House" "MARJORIE" "completed" "2024-03-09T12:00Z"
       None]
    "" "Jo"
  = [plainReport "r1" "Smith Pool" "John" "completed" "2024-03-09T12:00Z" None;
     plainReport "r3" "Lake House" "MARJORIE" "completed" "2024-03-09T12:00Z"
       None] /\
  ServicesConcluded.filterReports toLowerCaseASCII
    [plainReport "r1" "Smith Pool" "John" "completed" "2024-03-09T12:00Z" None]
    "" "jo"
  = [plainReport "r1" "Smith Pool" "John" "completed" "2024-03-09T12:00Z" None].
Proof.
  split; [reflexivity|].
  apply (filterReports_completed_spec toLowerCaseASCII); reflexivity.
Defined.

(** ** The filter and the guard of the PDF download *)

Section Download.
Import ReportsDownload.

Variables (pageWidth pageHeight : Q).
Variable splitTextToSize : string -> Q -> list string.
Variable parseDate : string -> option Z.



(** The date a report is filed under: its completion date, or its request
    date when the completion date is absent ([null] or empty). *)
Lemma effective_date_cases r :
  (completion_date r = None \/ completion_date r = Some "" ->
   or_string (completion_date r) (request_date r) = request_date r) /\
  (forall c, completion_date r = Some c -> c <> "" ->
   or_string (completion_date r) (request_date r) = c).
Proof.
  split.
  - intros [H|H]; now rewrite H.
  - intros c H Hc. rewrite H. cbn. now destruct (String.eqb_spec c "").
Qed.



(** The bounds are instants: a period that ends on 2024-03-31 ends at
    the first instant of that day, so a report completed on that day at
    15:00 is outside it while one completed at 00:00 is inside. *)
Lemma filterForDownload_end_of_period :
  filterForDownload parseISO
    [plainReport "r1" "Smith Pool" "john" "completed" "2024-03-20T09:00Z"
       (Some "2024-03-31T00:00Z");
     plainReport "r2" "Smith Pool" "john" "completed" "2024-03-20T09:00Z"
       (Some "2024-03-31T15:00Z");
     plainReport "r3" "Smith Pool" "john" "completed" "2024-03-01T00:00Z" None]
    "2024-03-01" "2024-03-31" "" "all"
  = [plainReport "r1" "Smith Pool" "john" "completed" "2024-03-20T09:00Z"
       (Some "2024-03-31T00:00Z");
     plainReport "r3" "Smith Pool" "john" "completed" "2024-03-01T00:00Z" None].
Proof. reflexivity. Qed.

(** The download never ends with an exception: a rejected request is
    caught and answered with an alert. *)
Lemma generateReport_returns startDate endDate selectedClient selectedEmployee
  response thrown :
  snd (generateReport pageWidth pageHeight splitTextToSize parseDate
         startDate endDate selectedClient selectedEmployee response thrown)
  = Returned tt.
Proof.
  unfold generateReport.
  destruct ((startDate =? "")%string || (endDate =? "")%string); [reflexivity|].
  destruct response as [allReports|]; cbn; [|reflexivity].
  destruct (List.length _ =? 0)%nat; [reflexivity|].
  now destruct thrown.
Qed.

(** C4. When the filtered sequence is empty the generation stops before a
    document is built: the user is told that no completed report was found,
    the busy indicator is reset, nothing is saved and the handler returns
    normally. *)
Theorem generateReport_empty startDate endDate selectedClient selectedEmployee
  allReports thrown :
  startDate <> "" -> endDate <> "" ->
  filterForDownload parseDate allReports startDate endDate
    selectedClient selectedEmployee = [] ->
  let result :=
    generateReport pageWidth pageHeight splitTextToSize parseDate
      startDate endDate selectedClient selectedEmployee (Some allReports)
      thrown in
  result
  = ([SetIsGenerating true;
      Alert "No completed reports found for the selected criteria";
      SetIsGenerating false], Returned tt) /\
  (forall fileName doc, ~ In (Save fileName doc) (fst result)) /\
  (exists message, In (Alert message) (fst result)) /\
  snd result = Returned tt.
Proof.
  intros Hs He Hempty result.
  assert (Hresult : result
    = ([SetIsGenerating true;
        Alert "No completed reports found for the selected criteria";
        SetIsGenerating false], Returned tt)).
  { subst result. unfold generateReport.
    apply String.eqb_neq in Hs, He. rewrite Hs, He. cbn [orb].
    cbn [await bind ret]. rewrite Hempty. reflexivity. }
  rewrite Hresult. repeat split.
  - intros fileName doc [H|[H|[H|[]]]]; discriminate.
  - eexists. right. left. reflexivity.
Qed.

End Download.


Lemma generateReport_empty_witness :
  ReportsDownload.generateReport ReportsDownload.a4Width ReportsDownload.a4Height
    (fun s _ => [s]) parseISO "2024-03-01" "2024-03-31" "" ""
    (Some [plainReport "r1" "Smith Pool" "john" "scheduled" "2024-03-09T12:00Z" None;
           plainReport "r2" "Smith Pool" "john" "completed" "2024-02-09T12:00Z"
             (Some "2024-02-10T09:30Z")])
    None
  = ([ReportsDownload.SetIsGenerating true;
      ReportsDownload.Alert "No completed reports found for the selected criteria";
      ReportsDownload.SetIsGenerating false], ReportsDownload.Returned tt).
Proof.
  apply (generateReport_empty ReportsDownload.a4Width ReportsDownload.a4Height
           (fun s _ => [s]) parseISO "2024-03-01" "2024-03-31" "" ""
           [plainReport "r1" "Smith Pool" "john" "scheduled" "2024-03-09T12:00Z" None;
            plainReport "r2" "Smith Pool" "john" "completed" "2024-02-09T12:00Z"
              (Some "2024-02-10T09:30Z")]
           None);
    [discriminate | discriminate | reflexivity].
Defined.

(** ** Gross profit *)

Section GrossProfit.
Import ServiceReports.

Lemma or_zero_exact (x : Q) : (or_zero (Some x) == x)%Q.
Proof.
  cbn. destruct (Qeq_bool x 0) eqn:Hx; cbn; [|reflexivity].
  apply Qeq_bool_iff in Hx. now rewrite Hx.
Qed.

Lemma roundHalfExpand_bounds (x : Q) :
  (x - (1 # 2) <= inject_Z (roundHalfExpand x) <= x + (1 # 2))%Q.
Proof.
  unfold roundHalfExpand. destruct (Qle_bool 0 x).
  - pose proof (Qfloor_le (x + (1 # 2))) as Hlo.
    pose proof (Qlt_floor (x + (1 # 2))) as Hhi.
    rewrite inject_Z_plus in Hhi. change (inject_Z 1) with 1%Q in Hhi.
    set (c := inject_Z (Qfloor (x + (1 # 2)))) in *. split; lra.
  - pose proof (Qfloor_le (- x + (1 # 2))) as Hlo.
    pose proof (Qlt_floor (- x + (1 # 2))) as Hhi.
    rewrite inject_Z_plus in Hhi. change (inject_Z 1) with 1%Q in Hhi.
    rewrite inject_Z_opp.
    set (c := inject_Z (Qfloor (- x + (1 # 2)))) in *. split; lra.
Qed.

(** The displayed amounts are whole numbers of hundredths, at most half a
    hundredth away from the amount. *)
Lemma formatCurrency_bounds (x : Q) :
  (100 * x - (1 # 2) <= inject_Z (formatCurrency x) <= 100 * x + (1 # 2))%Q.
Proof.
  unfold formatCurrency.
  pose proof (roundHalfExpand_bounds (or_zero (Some x) * 100)) as [Hlo Hhi].
  pose proof (or_zero_exact x) as Hx.
  set (c := inject_Z (roundHalfExpand (or_zero (Some x) * 100))) in *.
  set (y := or_zero (Some x)) in *.
  split; lra.
Qed.

(** C7 as stated fails on the numbers of the program.  On doubles, adding
    the same amount to both operands changes the difference: with a total
    of 0.1, no parts cost and a shift of 1e16, the shifted total rounds to
    1e16 and the profit comes out as 0 in place of 0.1; with a shift of 0.7
    the two profits differ in their last bits. *)
Lemma grossProfit_shift_not_invariant :
  ~ (forall total parts d : float,
       grossProfit (Some (js_add total d)) (Some (js_add parts d))
       = grossProfit (Some total) (Some parts)) /\
  PrimFloat.eqb
    (grossProfit (Some (0.1 + 1e16)%float) (Some (0 + 1e16)%float)) 0%float
  = true /\
  PrimFloat.eqb
    (grossProfit (Some (0.1 + 0.7)%float) (Some (0 + 0.7)%float))
    (grossProfit (Some 0.1%float) (Some 0%float))
  = false.
Proof.
  split; [|split; vm_compute; reflexivity].
  intros H. specialize (H 0.1%float 0%float 1e16%float).
  apply (f_equal (fun x => PrimFloat.eqb x 0%float)) in H.
  vm_compute in H. discriminate H.
Qed.

Lemma shortestFrom_sound x v p : forall fuel digits,
  Intl.readsBackAs x (Intl.shortestFrom fuel digits x v p) = true
  \/ Intl.shortestFrom fuel digits x v p = v.
Proof.
  induction fuel as [|fuel IH]; intros digits; cbn [Intl.shortestFrom];
    [now right|].
  set (unit := Qpower 10 (p - digits + 1)).
  set (down := (inject_Z (Qfloor (v / unit)) * unit)%Q).
  destruct (Intl.readsBackAs x down) eqn:Hdown,
           (Intl.readsBackAs x (down + unit)) eqn:Hup.
  - destruct (Qle_bool _ _); now left.
  - now left.
  - now left.
  - apply IH.
Qed.

(** How a double counts as an operand and what it is when it is shown. *)
Lemma truthy_double (x : float) :
  js_truthy x
  = match Prim2SF x with
    | S754_nan | S754_zero _ => false
    | S754_infinity _ | S754_finite _ _ _ => true
    end.
Proof.
  cbn [js_truthy double_number]. unfold PrimFloat.is_nan.
  rewrite !FloatAxioms.eqb_spec.
  change (Prim2SF 0%float) with (S754_zero false).
  destruct (Prim2SF x) as [s| s| |s m e]; try reflexivity.
  - now destruct s.
  - unfold SFeqb, SFcompare.
    destruct s; rewrite Z.compare_refl, Pos.compare_cont_refl; reflexivity.
Qed.

(** C7, amended.  The gross profit is the double
    [(total || 0) - (parts || 0)]: an operand that is absent, 0 or [NaN]
    counts as 0.  The field shows it through [formatCurrency]: 0.00 for a
    result that is 0 or [NaN], the infinity sign for an infinite one, and
    for any other result the sign of the double and a whole number of
    hundredths, at most half a hundredth away from the decimal the
    formatter reads, which is a decimal that reads back as the double.
    So 1.005 is shown as 1.01, 1.005 - 1 as 0.00, 0.3 - 0.1 as 0.20 and
    0 - 0.125 as -0.13. *)
Theorem grossProfit_spec :
  (forall total parts : option float,
     let counted := fun x : option float =>
       match x with
       | Some v =>
           if PrimFloat.eqb v 0%float || PrimFloat.is_nan v then 0%float else v
       | None => 0%float
       end in
     grossProfit total parts = PrimFloat.sub (counted total) (counted parts)) /\
  (forall g : float,
     match Prim2SF g with
     | S754_nan | S754_zero _ =>
         formatCurrencyNumber g = Intl.Digits false 0
     | S754_infinity s => formatCurrencyNumber g = Intl.InfinitySign s
     | S754_finite s _ _ =>
         exists d : Q,
           (Intl.readsBackAs (abs g) d = true
            \/ Intl.exactValue (abs g) = Some d)
           /\ formatCurrencyNumber g
              = Intl.Digits s (roundHalfExpand (d * 100))
           /\ (100 * d - (1 # 2) <= inject_Z (roundHalfExpand (d * 100))
               <= 100 * d + (1 # 2))%Q
     end) /\
  formatCurrencyNumber 1.005%float = Intl.Digits false 101 /\
  formatCurrencyNumber (grossProfit (Some 1.005%float) (Some 1%float))
  = Intl.Digits false 0 /\
  formatCurrencyNumber (grossProfit (Some 0.3%float) (Some 0.1%float))
  = Intl.Digits false 20 /\
  formatCurrencyNumber (grossProfit None (Some 0.125%float))
  = Intl.Digits true 13 /\
  formatCurrencyNumber (grossProfit (Some 59.995%float) None)
  = Intl.Digits false 6000.
Proof.
  split; [|split; [|repeat split; vm_compute; reflexivity]].
  - intros total parts counted. subst counted.
    unfold grossProfit, or_zero, js_truthy, js_zero, js_sub, double_number.
    destruct total as [t|], parts as [q|]; try reflexivity;
      try (destruct (PrimFloat.eqb t 0 || PrimFloat.is_nan t));
      try (destruct (PrimFloat.eqb q 0 || PrimFloat.is_nan q)); reflexivity.
  - intros g. unfold formatCurrencyNumber. cbn [or_zero].
    rewrite truthy_double.
    destruct (Prim2SF g) as [s| s| |s m e] eqn:Hg.
    + reflexivity.
    + unfold Intl.format. now rewrite Hg.
    + reflexivity.
    + unfold Intl.format. rewrite Hg.
      exists (Intl.shortestDecimal (abs g)). split; [|split; [reflexivity|]].
      * unfold Intl.shortestDecimal.
        destruct (Intl.exactValue (abs g)) as [v|] eqn:Hv.
        -- destruct (Qle_bool v 0) eqn:Hpos.
           ++ exfalso. unfold Intl.exactValue in Hv.
              rewrite FloatAxioms.abs_spec, Hg in Hv. cbn [SFabs] in Hv.
              injection Hv as <-. apply Qle_bool_iff in Hpos.
              pose proof (Qpower_0_lt 2 e ltac:(reflexivity)) as Hpow.
              assert (Hm : (0 < inject_Z (Z.pos m))%Q) by reflexivity.
              pose proof (Qmult_lt_0_compat _ _ Hm Hpow) as Hprod.
              set (w := (inject_Z (Z.pos m) * Qpower 2 e)%Q) in *. lra.
           ++ destruct (shortestFrom_sound (abs g) v (Intl.magnitude v) 17 1)
                as [Hback|Heq]; [now left|right; now rewrite Heq].
        -- exfalso. unfold Intl.exactValue in Hv.
           rewrite FloatAxioms.abs_spec, Hg in Hv. discriminate Hv.
      * pose proof (roundHalfExpand_bounds (Intl.shortestDecimal (abs g) * 100))
          as [Hlo Hhi].
        set (h := inject_Z (roundHalfExpand (Intl.shortestDecimal (abs g) * 100)))
          in *.
        set (d := Intl.shortestDecimal (abs g)) in *. split; lra.
Qed.

End GrossProfit.

(** ** Pagination of the PDF *)

Section Pagination.
Import ReportsDownload.

Variables (pageWidth pageHeight : Q).
Variable splitTextToSize : string -> Q -> list string.

#[local] Abbreviation afterBlocks := (afterBlocks pageWidth splitTextToSize).
#[local] Abbreviation needsNewPage := (needsNewPage pageHeight).
#[local] Abbreviation placeReport := (placeReport pageWidth pageHeight splitTextToSize).
#[local] Abbreviation placeReports := (placeReports pageWidth pageHeight splitTextToSize).
#[local] Abbreviation layout := (layout pageWidth pageHeight splitTextToSize).

(** The text blocks of a report move the cursor by 51 to 69 millimetres. *)
Lemma afterBlocks_bounds r y : y + 51 <= afterBlocks r y <= y + 69.
Proof.
  unfold ReportsDownload.afterBlocks.
  destruct (truthy_number (total_cost r) || truthy_number (parts_cost r));
    destruct (2 <? List.length _)%nat;
    destruct (truthy_string (admin_notes r));
    destruct (truthy_string (employee_notes r)); lia.
Qed.

(** A page is left exactly on the test of the loop: three containers
    placed, or the cursor beyond [pageHeight - 100]. *)
Lemma needsNewPage_spec s :
  needsNewPage s = true <->
  (3 <= reportsPerPage s)%nat
  \/ (pageHeight - 100 < inject_Z (yPosition s))%Q.
Proof.
  unfold ReportsDownload.needsNewPage, maxReportsPerPage.
  rewrite orb_true_iff, Nat.leb_le, negb_true_iff.
  split; (intros [H|H]; [now left | right]).
  - apply Qnot_le_lt. intros Hle. apply Qle_bool_iff in Hle. congruence.
  - destruct (Qle_bool _ _) eqn:Hle; [|reflexivity].
    apply Qle_bool_iff in Hle. now apply Qlt_not_le in H.
Qed.

Lemma placeReport_page_break i r s :
  pdf (placeReport i r s)
  = draw {| number := i + 1; content := r;
            top := (if needsNewPage s then 20 else yPosition s) - 5 |}
      (if needsNewPage s then addPage (pdf s) else pdf s).
Proof. unfold ReportsDownload.placeReport. now destruct (needsNewPage s). Qed.

(** Every report is drawn once, after the reports before it. *)
Lemma placeReport_appends i r s :
  List.concat (pages (pdf (placeReport i r s)))
  = List.concat (pages (pdf s))
    ++ [{| number := i + 1; content := r;
           top := (if needsNewPage s then 20 else yPosition s) - 5 |}].
Proof.
  rewrite placeReport_page_break. unfold pages, draw, addPage.
  destruct (needsNewPage s); cbn [finished current];
    rewrite !concat_app; cbn [List.concat];
    rewrite ?app_nil_r, <- ?app_assoc; cbn [app]; rewrite ?app_nil_r;
    reflexivity.
Qed.

Lemma placeReports_content reports : forall i s,
  map content (List.concat (pages (pdf (placeReports i reports s))))
  = map content (List.concat (pages (pdf s))) ++ reports.
Proof.
  induction reports as [|r rest IH]; intros i s; cbn [ReportsDownload.placeReports].
  - now rewrite app_nil_r.
  - rewrite IH, placeReport_appends, map_app, <- app_assoc. reflexivity.
Qed.

Lemma placeReports_numbers reports : forall i s,
  map number (List.concat (pages (pdf (placeReports i reports s))))
  = map number (List.concat (pages (pdf s)))
    ++ seq (i + 1) (List.length reports).
Proof.
  induction reports as [|r rest IH]; intros i s; cbn [ReportsDownload.placeReports].
  - now rewrite app_nil_r.
  - rewrite IH, placeReport_appends, map_app, <- app_assoc. cbn.
    now replace (S i + 1)%nat with (S (i + 1)) by lia.
Qed.

(** The reports appear in the document in the order of the input, numbered
    from 1. *)
Lemma layout_keeps_order reports :
  map content (List.concat (layout reports)) = reports /\
  map number (List.concat (layout reports)) = seq 1 (List.length reports).
Proof.
  unfold ReportsDownload.layout. split.
  - now rewrite placeReports_content.
  - now rewrite placeReports_numbers.
Qed.

Hypothesis short_page : (pageHeight < 412)%Q.

Lemma fits_below_312 s : needsNewPage s = false -> yPosition s < 312.
Proof.
  intros Hfit. destruct (Z.lt_ge_cases (yPosition s) 312) as [Hlt|Hge]; [easy|].
  assert (Hnew : needsNewPage s = true); [|congruence].
  apply needsNewPage_spec. right.
  apply Qlt_le_trans with (y := inject_Z 312).
  - change (inject_Z 312) with (412 - 100)%Q. lra.
  - now rewrite <- Zle_Qle.
Qed.

Lemma placeReport_packed i r s : packed s -> packed (placeReport i r s).
Proof.
  intros (Hlen & Hy & Hcount & Hdone).
  pose proof (afterBlocks_bounds r 20) as Hfresh.
  pose proof (afterBlocks_bounds r (yPosition s)) as Hsame.
  unfold packed, ReportsDownload.placeReport, containerHeight.
  destruct (needsNewPage s) eqn:Hnew;
    cbn [pdf yPosition reportsPerPage draw addPage finished current].
  - repeat split; try lia.
    apply Forall_app. split; [exact Hdone|].
    constructor; [lia | constructor].
  - pose proof (fits_below_312 s Hnew) as Hfit.
    rewrite length_app. cbn [List.length]. repeat split; try lia.
    exact Hdone.
Qed.

Lemma placeReports_packed reports : forall i s,
  packed s -> packed (placeReports i reports s).
Proof.
  induction reports as [|r rest IH]; intros i s Hs; cbn; [exact Hs|].
  now apply IH, placeReport_packed.
Qed.

Lemma layout_at_most_two reports :
  Forall (fun p : page => (List.length p <= 2)%nat) (layout reports).
Proof.
  unfold ReportsDownload.layout.
  set (start := {| pdf := newDocument; yPosition := 45; reportsPerPage := 0 |}).
  assert (Hstart : packed start).
  { unfold packed, start; cbn. repeat split; try lia. constructor. }
  destruct (placeReports_packed reports 0 start Hstart)
    as (Hlen & _ & Hcount & Hdone).
  unfold pages. apply Forall_app. split; [exact Hdone|].
  constructor; [lia | constructor].
Qed.

Lemma length_concat_bound (A : Type) (k : nat) (l : list (list A)) :
  Forall (fun p => (List.length p <= k)%nat) l ->
  (List.length (List.concat l) <= k * List.length l)%nat.
Proof.
  induction 1 as [|p l Hp _ IH]; cbn; [lia|].
  rewrite length_app. lia.
Qed.

End Pagination.

(** C1.  On a page shorter than 412 millimetres (A4 is 297) the cursor
    test leaves the page before a third container is placed: seven reports
    never come out as pages of 3, 3 and 1 containers; they take at least
    four pages of at most two containers each, in the order of the input. *)
Theorem seven_reports_pages (pageWidth pageHeight : Q)
  (splitTextToSize : string -> Q -> list string) (reports : list report) :
  (pageHeight < 412)%Q ->
  List.length reports = 7%nat ->
  let doc := ReportsDownload.layout pageWidth pageHeight splitTextToSize reports in
  map (@List.length ReportsDownload.container) doc <> [3; 3; 1]%nat /\
  Forall (fun p : ReportsDownload.page => (List.length p <= 2)%nat) doc /\
  (4 <= List.length doc)%nat /\
  map ReportsDownload.content (List.concat doc) = reports.
Proof.
  intros Hshort Hseven doc.
  pose proof (layout_at_most_two pageWidth pageHeight splitTextToSize
                Hshort reports) as Htwo.
  pose proof (layout_keeps_order pageWidth pageHeight splitTextToSize reports)
    as [Horder _].
  fold doc in Htwo, Horder.
  split; [|split; [exact Htwo|split; [|exact Horder]]].
  - intros Hcounts.
    destruct doc as [|p doc']; [discriminate|].
    cbn [map] in Hcounts. injection Hcounts as Hp _.
    apply Forall_inv in Htwo. cbn beta in Htwo.
    assert (Habsurd : (3 <= 2)%nat) by (rewrite <- Hp; exact Htwo). lia.
  - pose proof (length_concat_bound _ 2 doc Htwo) as Hbound.
    apply (f_equal (@List.length report)) in Horder.
    rewrite length_map in Horder. unfold ReportsDownload.page in *. lia.
Qed.

(** Seven reports without notes, costs or long descriptions on the A4 page
    of the download: pages of 2, 2, 2 and 1 containers. *)
Lemma seven_reports_pages_witness :
  map (@List.length ReportsDownload.container)
    (ReportsDownload.layout ReportsDownload.a4Width ReportsDownload.a4Height
       (fun s _ => [s])
       (map (fun n => plainReport n "Smith Pool" "john" "completed"
                        "2024-03-09T12:00Z" (Some "2024-03-10T12:00Z"))
          ["r1"; "r2"; "r3"; "r4"; "r5"; "r6"; "r7"]))
  = [2; 2; 2; 1]%nat /\
  map (@List.length ReportsDownload.container)
    (ReportsDownload.layout ReportsDownload.a4Width ReportsDownload.a4Height
       (fun s _ => [s])
       (map (fun n => plainReport n "Smith Pool" "john" "completed"
                        "2024-03-09T12:00Z" (Some "2024-03-10T12:00Z"))
          ["r1"; "r2"; "r3"; "r4"; "r5"; "r6"; "r7"]))
  <> [3; 3; 1]%nat.
Proof.
  split; [reflexivity|].
  apply (seven_reports_pages ReportsDownload.a4Width ReportsDownload.a4Height
           (fun s _ => [s])
           (map (fun n => plainReport n "Smith Pool" "john" "completed"
                            "2024-03-09T12:00Z" (Some "2024-03-10T12:00Z"))
              ["r1"; "r2"; "r3"; "r4"; "r5"; "r6"; "r7"]));
    reflexivity.
Defined.

(** ** Debounced field updates *)

Section Debounce.
Import ServiceReports DebounceSessions.

Lemma timerClass_eqb_spec a b : reflect (a = b) (timerClass_eqb a b).
Proof. destruct a, b; constructor; congruence. Qed.

Lemma filter_swap (A : Type) (p q : A -> bool) (l : list A) :
  filter p (filter q l) = filter q (filter p l).
Proof.
  induction l as [|x l IH]; cbn; [reflexivity|].
  destruct (p x) eqn:Hp, (q x) eqn:Hq; cbn; rewrite ?Hp, ?Hq, IH; reflexivity.
Qed.

Lemma filter_all (A : Type) (p : A -> bool) (l : list A) :
  (forall x, In x l -> p x = true) -> filter p l = l.
Proof.
  induction l as [|x l IH]; cbn; intros H; [reflexivity|].
  rewrite (H x (or_introl eq_refl)), IH; [reflexivity|].
  intros y Hy. apply H. now right.
Qed.

Lemma filter_none (A : Type) (p : A -> bool) (l : list A) :
  (forall x, In x l -> p x = false) -> filter p l = [].
Proof.
  induction l as [|x l IH]; cbn; intros H; [reflexivity|].
  rewrite (H x (or_introl eq_refl)). apply IH.
  intros y Hy. apply H. now right.
Qed.

Lemma filter_map_commute (A B : Type) (f : A -> B) (p : B -> bool)
  (q : A -> bool) (l : list A) :
  (forall x, p (f x) = q x) -> filter p (map f l) = map f (filter q l).
Proof.
  intros Hpq. induction l as [|x l IH]; cbn; [reflexivity|].
  rewrite Hpq. destruct (q x); cbn; now rewrite IH.
Qed.

Lemma map_id_in (A : Type) (f : A -> A) (l : list A) :
  (forall x, In x l -> f x = x) -> map f l = l.
Proof.
  induction l as [|x l IH]; cbn; intros H; [reflexivity|].
  rewrite (H x (or_introl eq_refl)), IH; [reflexivity|].
  intros y Hy. apply H. now right.
Qed.

Lemma filter_split_length (A : Type) (f : A -> bool) (l : list A) :
  (List.length (filter f l) + List.length (filter (fun x => negb (f x)) l)
   = List.length l)%nat.
Proof.
  induction l as [|x l IH]; cbn; [reflexivity|].
  destruct (f x); cbn; lia.
Qed.

Lemma In_enqueue tm x l : In x (enqueue tm l) <-> x = tm \/ In x l.
Proof.
  induction l as [|y l IH]; cbn.
  - intuition congruence.
  - destruct (due y <=? due tm); cbn; rewrite ?IH; intuition congruence.
Qed.

Lemma length_enqueue tm l : List.length (enqueue tm l) = S (List.length l).
Proof.
  induction l as [|x l IH]; cbn; [reflexivity|].
  destruct (due x <=? due tm); cbn; now rewrite ?IH.
Qed.

Lemma filter_enqueue_other (p : timer -> bool) tm l :
  p tm = false -> filter p (enqueue tm l) = filter p l.
Proof.
  intros Hp. induction l as [|y l IH]; cbn; [now rewrite Hp|].
  destruct (due y <=? due tm); cbn; [now rewrite IH | now rewrite Hp].
Qed.

Lemma filter_enqueue_fresh (p : timer -> bool) tm l :
  p tm = true -> filter p l = [] -> filter p (enqueue tm l) = [tm].
Proof.
  intros Hp. induction l as [|y l IH]; cbn; [now rewrite Hp|].
  destruct (p y) eqn:Hy; [discriminate|]. intros Hl.
  destruct (due y <=? due tm); cbn; rewrite ?Hy, ?Hp; [now apply IH|].
  now rewrite Hl.
Qed.

(** *** Callbacks and renders *)

Lemma classOf_send k : classOf (send k) = classOfCallback k.
Proof. now destruct k. Qed.

Lemma classOfCallback_render shown k :
  classOfCallback (renderCallback shown k) = classOfCallback k.
Proof. now destruct k. Qed.

Lemma targetOf_render shown k :
  targetOf (send (renderCallback shown k)) = targetOf (send k).
Proof. now destruct k. Qed.

Lemma send_callbackOf shown e : send (callbackOf shown e) = flushOf e.
Proof. now destruct e. Qed.

Lemma classOfCallback_callbackOf shown e :
  classOfCallback (callbackOf shown e) = classOfEdit e.
Proof. now destruct e. Qed.

(** A render leaves a financial callback as it is; it can only change the
    text a notes callback will read. *)
Lemma fromEdit_render shown e k :
  fromEdit e (send k) -> fromEdit e (send (renderCallback shown k)).
Proof.
  intros [Htarget Hvalue]. split; [now rewrite targetOf_render|].
  destruct k as [rid field v|rid target]; [exact Hvalue | discriminate].
Qed.

Lemma fromEdit_flushOf e : fromEdit e (flushOf e).
Proof. split; [now destruct e | reflexivity]. Qed.

Lemma renderTimer_financial shown tm :
  classOfCallback (callback tm) = Financial -> renderTimer shown tm = tm.
Proof.
  destruct tm as [i d [rid field v|rid target]]; [reflexivity | discriminate].
Qed.

Lemma pendingOf_In c w tm :
  In tm (pendingOf c w) <->
  In tm (pending w) /\ classOfCallback (callback tm) = c.
Proof.
  unfold pendingOf. rewrite filter_In.
  now destruct (timerClass_eqb_spec (classOfCallback (callback tm)) c).
Qed.

Lemma pendingOf_map_render c shown l :
  filter (fun tm => timerClass_eqb (classOfCallback (callback tm)) c)
    (map (renderTimer shown) l)
  = map (renderTimer shown)
      (filter (fun tm => timerClass_eqb (classOfCallback (callback tm)) c) l).
Proof.
  apply filter_map_commute. intros tm. cbn.
  now rewrite classOfCallback_render.
Qed.

Lemma pendingOf_setFilteredReports c l w :
  pendingOf c (setFilteredReports l w)
  = map (renderTimer l) (pendingOf c w).
Proof. apply pendingOf_map_render. Qed.

Lemma or_string_some s : or_string (Some s) "" = s.
Proof. cbn. now destruct (String.eqb_spec s "") as [->|_]. Qed.

Lemma find_map_same (p : report -> bool) (f : report -> report) l :
  (forall r, p (f r) = p r) -> find p (map f l) = option_map f (find p l).
Proof.
  intros Hp. induction l as [|r l IH]; cbn; [reflexivity|].
  rewrite Hp. now destruct (p r).
Qed.

Lemma existsb_find (p : report -> bool) l :
  existsb p l = true -> exists r, find p l = Some r.
Proof.
  induction l as [|r l IH]; cbn; [discriminate|].
  destruct (p r); [now exists r | exact IH].
Qed.

Lemma id_applyEdit e r : id (applyEdit e r) = id r.
Proof.
  unfold applyEdit. destruct (id r =? fst (fieldOf e))%string; [|reflexivity].
  now destruct e.
Qed.

Lemma admin_notes_applyEdit e r :
  classOfEdit e = Financial -> admin_notes (applyEdit e r) = admin_notes r.
Proof.
  intros He. unfold applyEdit.
  destruct (id r =? fst (fieldOf e))%string; [|reflexivity].
  now destruct e.
Qed.

(** Every render leaves the notes areas showing the list. *)
Lemma synced_render shown k : syncedCallback shown (renderCallback shown k).
Proof.
  destruct k as [rid field v|rid target]; cbn; [exact I|].
  unfold render. destruct (attached target) eqn:Hon.
  - destruct (find _ shown) as [r|] eqn:Hfind; cbn; [|discriminate].
    intros _. now exists r.
  - intros Hoff. congruence.
Qed.

(** A financial edit changes no notes, so the render it causes leaves the
    notes areas as they are. *)
Lemma render_edited_financial e shown k :
  classOfEdit e = Financial -> syncedCallback shown k ->
  renderCallback (edited e shown) k = k.
Proof.
  intros He. destruct k as [rid field v|rid [text on]]; cbn; [reflexivity|].
  intros Hsync. unfold render. cbn. destruct on; [|reflexivity].
  destruct (Hsync eq_refl) as (r & Hfind & Htext). cbn in Htext.
  unfold edited. rewrite find_map_same by (intros; now rewrite id_applyEdit).
  rewrite Hfind. cbn. now rewrite (admin_notes_applyEdit e r He), <- Htext.
Qed.

(** The notes area of a notes edit shows, after the edit, the text typed. *)
Lemma synced_callbackOf shown e :
  syncedCallback (edited e shown) (callbackOf shown e).
Proof.
  destruct e as [rid v|rid v|rid s]; cbn; [exact I | exact I|].
  intros Hon. destruct (existsb_find _ _ Hon) as (r & Hfind).
  unfold edited. rewrite find_map_same by (intros; now rewrite id_applyEdit).
  rewrite Hfind. cbn [option_map]. eexists. split; [reflexivity|].
  apply find_some in Hfind as [_ Hid]. unfold applyEdit. cbn [fieldOf fst].
  rewrite Hid. cbn [admin_notes with_admin_notes shownText].
  now rewrite or_string_some.
Qed.

(** *** What the handlers leave in the shared state *)

Lemma onChange_fields t e w :
  pending (onChange t e w)
  = enqueue {| tid := nextTimer w; due := t + delayMs;
               callback := callbackOf (filteredReports w) e |}
      (pending (clearTimeout (handleOf (classOfEdit e) w)
                  (setFilteredReports (edited e (filteredReports w)) w))) /\
  nextTimer (onChange t e w) = S (nextTimer w) /\
  handleOf (classOfEdit e) (onChange t e w) = Some (nextTimer w) /\
  (forall c, c <> classOfEdit e -> handleOf c (onChange t e w) = handleOf c w) /\
  requests (onChange t e w) = requests w /\
  filteredReports (onChange t e w) = edited e (filteredReports w).
Proof.
  destruct e; cbn;
    [destruct (financialTimeout w) | destruct (financialTimeout w)
     | destruct (notesTimeout w)];
    (split; [reflexivity|]); (split; [reflexivity|]); (split; [reflexivity|]);
    (split; [|split; reflexivity]); intros [] Hc; cbn;
    solve [reflexivity | now elim Hc].
Qed.

Lemma pendingOf_clearTimeout c h w :
  pendingOf c (clearTimeout h w)
  = match h with
    | Some i => filter (fun tm => negb (tid tm =? i)%nat) (pendingOf c w)
    | None => pendingOf c w
    end.
Proof.
  destruct h as [i|]; [|reflexivity].
  unfold pendingOf; cbn. apply filter_swap.
Qed.

(** Clearing the handle of a class drops the pending timer of that class
    and no timer of the other class. *)
Lemma clearTimeout_own c w :
  wellFormed w -> pendingOf c (clearTimeout (handleOf c w) w) = [].
Proof.
  intros (_ & _ & Hone). rewrite pendingOf_clearTimeout.
  destruct (Hone c) as [Hnil|(h & d & k & Hh & Hp)].
  - rewrite Hnil. now destruct (handleOf c w).
  - rewrite Hh, Hp. cbn. now rewrite Nat.eqb_refl.
Qed.

Lemma clearTimeout_other c c' w :
  wellFormed w -> c <> c' ->
  pendingOf c (clearTimeout (handleOf c' w) w) = pendingOf c w.
Proof.
  intros (_ & Hdistinct & Hone) Hc. rewrite pendingOf_clearTimeout.
  destruct (handleOf c' w) as [i|] eqn:Hi; [|reflexivity].
  destruct (Hone c) as [Hnil|(h & d & k & Hh & Hp)].
  - now rewrite Hnil.
  - rewrite Hp. cbn.
    destruct (Nat.eqb_spec h i) as [->|_]; [|reflexivity].
    exfalso. destruct c, c'; cbn in Hh, Hi; try congruence.
    + exact (Hdistinct i Hh Hi).
    + exact (Hdistinct i Hi Hh).
Qed.

Lemma wellFormed_initial fetched : wellFormed (initial fetched).
Proof.
  repeat split.
  - intros [] h; discriminate.
  - discriminate.
  - intros c. now left.
Qed.

Lemma stable_initial fetched : stable (initial fetched).
Proof. split; [apply wellFormed_initial | constructor]. Qed.

(** A step that only renders keeps the states well formed, with the same
    timers under the same handles. *)
Lemma renders_pendingOf c w w' :
  renders w w' ->
  pendingOf c w' = pendingOf c w
  \/ pendingOf c w' = map (renderTimer (filteredReports w')) (pendingOf c w).
Proof.
  intros (_ & _ & _ & _ & [[Hp _]|Hp]); unfold pendingOf; rewrite Hp.
  - now left.
  - right. apply pendingOf_map_render.
Qed.

Lemma renders_handleOf c w w' : renders w w' -> handleOf c w' = handleOf c w.
Proof. intros (_ & Hf & Hn & _). now destruct c. Qed.

Lemma renders_flushed c w w' : renders w w' -> flushed c w' = flushed c w.
Proof. intros (_ & _ & _ & Hr & _). unfold flushed. now rewrite Hr. Qed.

Lemma renders_stable w w' : renders w w' -> stable w -> stable w'.
Proof.
  intros Hr [(Hfresh & Hdistinct & Hone) Hsync].
  pose proof Hr as (Hnext & Hf & Hn & _ & Hshown).
  split; [split; [|split]|].
  - intros c h. rewrite (renders_handleOf c _ _ Hr), Hnext. apply Hfresh.
  - rewrite Hf, Hn. exact Hdistinct.
  - intros c. rewrite (renders_handleOf c _ _ Hr).
    destruct (Hone c) as [Hnil|(h & d & k & Hh & Hp)];
      destruct (renders_pendingOf c _ _ Hr) as [Hsame|Hmap].
    + left. now rewrite Hsame.
    + left. now rewrite Hmap, Hnil.
    + right. exists h, d, k. now rewrite Hsame.
    + right. exists h, d, (renderCallback (filteredReports w') k).
      now rewrite Hmap, Hp.
  - unfold synced. destruct Hshown as [[Hp Hl]|Hp]; rewrite Hp.
    + now rewrite Hl.
    + apply Forall_map, Forall_forall. intros tm _. apply synced_render.
Qed.

Lemma renders_setFilteredReports l w : renders w (setFilteredReports l w).
Proof. repeat split. now right. Qed.

(** An edit restarts the timer of its class: afterwards the class has one
    pending timer, due one delay after the edit, with the callback of the
    edit; the pending timer of the other class is not touched. *)
Lemma onChange_restarts t e w :
  stable w ->
  pendingOf (classOfEdit e) (onChange t e w)
  = [{| tid := nextTimer w; due := t + delayMs;
        callback := callbackOf (filteredReports w) e |}] /\
  (forall c, c <> classOfEdit e ->
     pendingOf c (onChange t e w) = pendingOf c w).
Proof.
  intros Hw. destruct (onChange_fields t e w) as (Hp & _).
  set (w1 := setFilteredReports (edited e (filteredReports w)) w) in *.
  assert (Hw1 : stable w1)
    by (apply (renders_stable w); [apply renders_setFilteredReports | exact Hw]).
  assert (Hh : forall c, handleOf c w1 = handleOf c w) by now intros [].
  unfold pendingOf at 1. rewrite Hp, <- Hh. split.
  - apply filter_enqueue_fresh.
    + cbn. rewrite classOfCallback_callbackOf.
      now destruct (timerClass_eqb_spec (classOfEdit e) (classOfEdit e)).
    + apply (clearTimeout_own _ _ (proj1 Hw1)).
  - intros c Hc. unfold pendingOf at 1. rewrite Hp, <- Hh.
    rewrite filter_enqueue_other.
    + change (pendingOf c (clearTimeout (handleOf (classOfEdit e) w1) w1)
              = pendingOf c w).
      rewrite (clearTimeout_other _ _ _ (proj1 Hw1) Hc).
      unfold w1. rewrite pendingOf_setFilteredReports.
      apply map_id_in. intros tm Htm. apply pendingOf_In in Htm as [Htm Hclass].
      destruct c.
      * now apply renderTimer_financial.
      * destruct Hw as [_ Hsync]. unfold synced in Hsync.
        rewrite Forall_forall in Hsync. specialize (Hsync tm Htm).
        destruct tm as [i d k]. unfold renderTimer. cbn in *. f_equal.
        apply render_edited_financial; [|exact Hsync].
        destruct (classOfEdit e); [reflexivity | now elim Hc].
    + cbn. rewrite classOfCallback_callbackOf.
      destruct (timerClass_eqb_spec (classOfEdit e) c) as [Heq|_];
        [|reflexivity].
      now elim Hc.
Qed.

Lemma onChange_stable t e w : stable w -> stable (onChange t e w).
Proof.
  intros Hw. pose proof Hw as [(Hfresh & Hdistinct & Hone) Hsync].
  destruct (onChange_fields t e w) as (Hp & Hnext & Hown & Hother & _ & Hshown).
  destruct (onChange_restarts t e w Hw) as (Hnew & Hkept).
  split; [split; [|split]|].
  - intros c h Hh. rewrite Hnext.
    destruct (timerClass_eqb_spec c (classOfEdit e)) as [->|Hc].
    + rewrite Hown in Hh. injection Hh as <-. lia.
    + rewrite (Hother c Hc) in Hh. specialize (Hfresh c h Hh). lia.
  - intros h Hf Hn.
    destruct (classOfEdit e) eqn:He; cbn [handleOf] in Hown.
    + rewrite Hown in Hf. injection Hf as <-.
      pose proof (Hother Notes ltac:(discriminate)) as Hkept'.
      cbn [handleOf] in Hkept'. rewrite Hkept' in Hn.
      specialize (Hfresh Notes _ Hn). lia.
    + rewrite Hown in Hn. injection Hn as <-.
      pose proof (Hother Financial ltac:(discriminate)) as Hkept'.
      cbn [handleOf] in Hkept'. rewrite Hkept' in Hf.
      specialize (Hfresh Financial _ Hf). lia.
  - intros c. destruct (timerClass_eqb_spec c (classOfEdit e)) as [->|Hc].
    + right. now exists (nextTimer w), (t + delayMs),
                        (callbackOf (filteredReports w) e).
    + rewrite (Hkept c Hc), (Hother c Hc). apply Hone.
  - unfold synced. rewrite Hp, Hshown. apply Forall_forall. intros tm Htm.
    apply In_enqueue in Htm as [->|Htm]; [apply synced_callbackOf|].
    assert (Hin : In tm (map (renderTimer (edited e (filteredReports w)))
                           (pending w))).
    { destruct (handleOf (classOfEdit e) w); cbn in Htm; [|exact Htm].
      now apply filter_In in Htm. }
    apply in_map_iff in Hin as (tm0 & <- & _). apply synced_render.
Qed.

Lemma pendingOf_elapse c t w :
  pendingOf c (elapse t w)
  = filter (fun tm => negb (due tm <=? t)) (pendingOf c w).
Proof. unfold pendingOf; cbn. apply filter_swap. Qed.

Lemma flushed_elapse c t w :
  flushed c (elapse t w)
  = flushed c w
    ++ map (fun tm => send (callback tm))
         (filter (fun tm => due tm <=? t) (pendingOf c w)).
Proof.
  unfold flushed, pendingOf; cbn. rewrite filter_app. f_equal.
  induction (pending w) as [|tm l IH]; cbn; [reflexivity|].
  destruct (due tm <=? t) eqn:Hd; cbn; rewrite ?classOf_send;
    destruct (timerClass_eqb (classOfCallback (callback tm)) c) eqn:Hc;
    cbn; rewrite ?Hd; cbn; rewrite ?IH; reflexivity.
Qed.

Lemma flushed_quiesce c w :
  flushed c (quiesce w)
  = flushed c w ++ map (fun tm => send (callback tm)) (pendingOf c w).
Proof.
  unfold flushed, pendingOf; cbn. rewrite filter_app. f_equal.
  induction (pending w) as [|tm l IH]; cbn; [reflexivity|].
  rewrite classOf_send.
  destruct (timerClass_eqb (classOfCallback (callback tm)) c); cbn;
    now rewrite IH.
Qed.

Lemma elapse_stable t w : stable w -> stable (elapse t w).
Proof.
  intros [(Hfresh & Hdistinct & Hone) Hsync]. split; [split; [|split]|].
  - intros [] h Hh; [apply (Hfresh Financial) | apply (Hfresh Notes)]; exact Hh.
  - exact Hdistinct.
  - intros c. rewrite pendingOf_elapse.
    destruct (Hone c) as [Hnil|(h & d & k & Hh & Hp)].
    + left. now rewrite Hnil.
    + rewrite Hp. cbn. destruct (d <=? t); cbn; [now left|].
      right. exists h, d, k. split; [|reflexivity].
      destruct c; exact Hh.
  - unfold synced in *. cbn. rewrite Forall_forall in *.
    intros tm Htm. apply filter_In in Htm as [Htm _]. now apply Hsync.
Qed.

(** Before the first timer is due the event loop has nothing to run. *)
Lemma elapse_idle t w :
  Forall (fun tm => t < due tm) (pending w) -> elapse t w = w.
Proof.
  intros Hdue. rewrite Forall_forall in Hdue.
  destruct w as [pend next hF hN fetched user shown sent n];
    unfold elapse; cbn in *.
  rewrite filter_all, filter_none, app_nil_r; [now rewrite Nat.add_0_r| |].
  - intros tm Htm. specialize (Hdue tm Htm). apply Z.leb_gt. lia.
  - intros tm Htm. specialize (Hdue tm Htm). apply negb_true_iff, Z.leb_gt. lia.
Qed.

(** The events that are not edits only render, and only those that
    replace the list render another list. *)
Lemma handle_renders t ev w :
  (forall e, ev <> Edit e) ->
  renders w (handle t ev w)
  /\ (replaces ev = false ->
      pending (handle t ev w) = pending w
      /\ filteredReports (handle t ev w) = filteredReports w).
Proof.
  intros Hev. destruct ev as [e|  |[data|]|userId]; cbn.
  - now elim (Hev e).
  - split; [|intros _; now split]. repeat split. now left.
  - destruct (fetching w).
    + split; [|discriminate]. repeat split. now left.
    + split; [|discriminate]. repeat split. now right.
  - destruct (fetching w); (split; [|intros _; now split]);
      repeat split; now left.
  - destruct (userId =? selectedUserFilter w)%string.
    + split; [|discriminate]. repeat split. now left.
    + split; [|discriminate]. repeat split. now right.
Qed.

Lemma handle_stable t ev w : stable w -> stable (handle t ev w).
Proof.
  intros Hw. destruct ev as [e|  |response|userId];
    try (apply (renders_stable w); [|exact Hw];
         apply handle_renders; discriminate).
  now apply onChange_stable.
Qed.

(** Every state of a session has its handles and its notes areas as the
    handlers leave them. *)
Lemma run_stable es : forall w, stable w -> stable (run es w).
Proof.
  induction es as [|[t ev] es IH]; intros w Hw; cbn; [exact Hw|].
  now apply IH, handle_stable, elapse_stable.
Qed.

(** *** The last edit of a class reaches the backend *)

Lemma flushed_onChange c t e w : flushed c (onChange t e w) = flushed c w.
Proof.
  unfold flushed. destruct (onChange_fields t e w) as (_ & _ & _ & _ & Hreq & _).
  now rewrite Hreq.
Qed.

Lemma settled_elapse last t w : settled last w -> settled last (elapse t w).
Proof.
  intros Hlast c. specialize (Hlast c).
  rewrite pendingOf_elapse, flushed_elapse.
  destruct (last c) as [e|].
  - destruct Hlast as [(tm & Hp & Hfrom)|[Hnone (before & q & Hsent & Hfrom)]].
    + rewrite Hp. cbn. destruct (due tm <=? t); cbn.
      * right. split; [reflexivity|].
        now exists (flushed c w), (send (callback tm)).
      * left. now exists tm.
    + right. rewrite Hnone. cbn. split; [reflexivity|].
      exists before, q. now rewrite app_nil_r.
  - destruct Hlast as [Hnone Hsent]. rewrite Hnone, Hsent. now split.
Qed.

Lemma settled_renders last w w' :
  renders w w' -> settled last w -> settled last w'.
Proof.
  intros Hr Hlast c. specialize (Hlast c). rewrite (renders_flushed c _ _ Hr).
  destruct (renders_pendingOf c _ _ Hr) as [Hp|Hp]; rewrite Hp; [exact Hlast|].
  destruct (last c) as [e|].
  - destruct Hlast as [(tm & Hp' & Hfrom)|[Hnone Hsent]].
    + left. exists (renderTimer (filteredReports w') tm). rewrite Hp'.
      split; [reflexivity|]. cbn. now apply fromEdit_render.
    + right. now rewrite Hnone.
  - destruct Hlast as [Hnone Hsent]. now rewrite Hnone.
Qed.

Lemma settled_handle last t ev w :
  stable w -> settled last w ->
  settled (fun c => match editOfClass c ev with
                    | Some e => Some e
                    | None => last c
                    end)
    (handle t ev w).
Proof.
  intros Hw Hlast.
  destruct ev as [e|  |response|userId];
    try (intros c; cbn [editOfClass];
         apply (settled_renders last w); [|exact Hlast];
         apply handle_renders; discriminate).
  intros c. cbn [handle editOfClass].
  destruct (onChange_restarts t e w Hw) as (Hnew & Hkept).
  rewrite flushed_onChange.
  destruct (timerClass_eqb_spec (classOfEdit e) c) as [<-|Hc].
  - left. eexists. split; [exact Hnew|]. cbn. rewrite send_callbackOf.
    apply fromEdit_flushOf.
  - rewrite Hkept by congruence. apply Hlast.
Qed.

Lemma settled_ext last last' w :
  (forall c, last c = last' c) -> settled last w -> settled last' w.
Proof. intros Hext Hlast c. rewrite <- Hext. apply Hlast. Qed.

Lemma run_settled es : forall last w,
  stable w -> settled last w ->
  settled
    (fun c => match lastOfClass c es with Some e => Some e | None => last c end)
    (run es w).
Proof.
  induction es as [|[t ev] es IH]; intros last w Hw Hlast; [exact Hlast|].
  cbn [run fold_left fst snd].
  eapply settled_ext;
    [|apply (IH (fun c => match editOfClass c ev with
                          | Some e => Some e
                          | None => last c
                          end)
                (handle t ev (elapse t w)));
      [now apply handle_stable, elapse_stable
      |apply settled_handle; [now apply elapse_stable|];
       apply settled_elapse; exact Hlast]].
  intros c. cbn [lastOfClass].
  destruct (lastOfClass c es); [reflexivity|].
  now destruct (editOfClass c ev).
Qed.

Lemma settled_initial fetched : settled (fun _ => None) (initial fetched).
Proof. intros c. now split. Qed.

(** *** Every request comes from an edit *)

Lemma accounted_elapse seen t w : accounted seen w -> accounted seen (elapse t w).
Proof.
  intros [Hfrom Hcount]. split.
  - intros q Hq. apply Hfrom. cbn in Hq.
    rewrite !in_app_iff, !in_map_iff in *.
    destruct Hq as [[Hq|(tm & <- & Htm)]|(tm & <- & Htm)].
    + now left.
    + right. exists tm. apply filter_In in Htm. tauto.
    + right. exists tm. apply filter_In in Htm. tauto.
  - cbn. rewrite length_app, length_map.
    pose proof (filter_split_length _ (fun tm => due tm <=? t) (pending w)).
    lia.
Qed.

Lemma accounted_renders seen w w' :
  renders w w' -> accounted seen w -> accounted seen w'.
Proof.
  intros (_ & _ & _ & Hreq & Hshown) [Hfrom Hcount].
  unfold accounted. rewrite Hreq.
  destruct Hshown as [[Hp _]|Hp]; rewrite Hp; [now split|].
  split; [|now rewrite length_map].
  intros q Hq. rewrite in_app_iff in Hq. destruct Hq as [Hq|Hq].
  - apply Hfrom. apply in_app_iff. now left.
  - rewrite map_map in Hq. apply in_map_iff in Hq as (tm & <- & Htm).
    destruct (Hfrom (send (callback tm))) as (e & He & Hfrom').
    { apply in_app_iff. right. apply in_map_iff. now exists tm. }
    exists e. split; [exact He|]. cbn. now apply fromEdit_render.
Qed.

Lemma accounted_onChange seen t e w :
  accounted seen w -> accounted (seen ++ [e]) (onChange t e w).
Proof.
  intros [Hfrom Hcount].
  destruct (onChange_fields t e w) as (Hp & _ & _ & _ & Hreq & _).
  set (w1 := setFilteredReports (edited e (filteredReports w)) w) in *.
  destruct (accounted_renders seen w w1 (renders_setFilteredReports _ w)
              (conj Hfrom Hcount)) as [Hfrom1 Hcount1].
  assert (Hsub : forall tm,
    In tm (pending (clearTimeout (handleOf (classOfEdit e) w) w1)) ->
    In tm (pending w1)).
  { intros tm. destruct (handleOf (classOfEdit e) w); cbn; [|easy].
    intros Htm. now apply filter_In in Htm. }
  assert (Hless :
    (List.length (pending (clearTimeout (handleOf (classOfEdit e) w) w1))
     <= List.length (pending w1))%nat).
  { destruct (handleOf (classOfEdit e) w); cbn; [apply filter_length_le | lia]. }
  split.
  - intros q Hq. rewrite Hreq, Hp in Hq.
    rewrite in_app_iff, in_map_iff in Hq.
    destruct Hq as [Hq|(tm & <- & Htm)].
    + destruct (Hfrom q) as (e' & He' & Hq'); [apply in_app_iff; now left|].
      exists e'. split; [apply in_app_iff; now left | exact Hq'].
    + apply In_enqueue in Htm as [->|Htm].
      * exists e. split; [apply in_app_iff; right; now left|].
        cbn. rewrite send_callbackOf. apply fromEdit_flushOf.
      * destruct (Hfrom1 (send (callback tm))) as (e' & He' & Hq').
        { apply in_app_iff. right. apply in_map_iff. exists tm.
          split; [reflexivity | now apply Hsub]. }
        exists e'. split; [apply in_app_iff; now left | exact Hq'].
  - rewrite Hreq, Hp, length_enqueue, length_app. cbn.
    change (requests w1) with (requests w) in Hcount1. lia.
Qed.

Lemma accounted_handle seen t ev w :
  accounted seen w ->
  accounted (seen ++ match ev with Edit e => [e] | _ => [] end) (handle t ev w).
Proof.
  intros Hw. destruct ev as [e|  |response|userId]; rewrite ?app_nil_r;
    try (apply (accounted_renders seen w); [|exact Hw];
         apply handle_renders; discriminate).
  now apply accounted_onChange.
Qed.

Lemma run_accounted es : forall seen w,
  accounted seen w -> accounted (seen ++ editsOf es) (run es w).
Proof.
  induction es as [|[t ev] es IH]; intros seen w Hw; cbn [run fold_left].
  - cbn. now rewrite app_nil_r.
  - unfold editsOf. cbn [flat_map snd]. rewrite app_assoc.
    apply IH. cbn [fst snd].
    now apply accounted_handle, accounted_elapse.
Qed.

(** *** The text of the last notes edit *)

Lemma lastOfClass_none c t ev es :
  lastOfClass c ((t, ev) :: es) = None ->
  lastOfClass c es = None /\ editOfClass c ev = None.
Proof. cbn. now destruct (lastOfClass c es). Qed.

Lemma notes_after_edit t rid s w :
  stable w -> notesOnTheirWay t rid s (onChange t (EditAdminNotes rid s) w).
Proof.
  intros Hw.
  destruct (onChange_restarts t (EditAdminNotes rid s) w Hw) as (Hnew & _).
  left. eexists. split; [exact Hnew|]. now split.
Qed.

Lemma notes_elapse t rid s t' w :
  notesOnTheirWay t rid s w ->
  notesOnTheirWay t rid s (elapse t' w)
  /\ (t + delayMs <= t' ->
      pendingOf Notes (elapse t' w) = []
      /\ exists before,
           flushed Notes (elapse t' w) = before ++ [UpdateAdminNotes rid s]).
Proof.
  intros Hway. unfold notesOnTheirWay.
  rewrite pendingOf_elapse, flushed_elapse.
  destruct Hway as [(tm & Hp & Hdue & Hsend)|[Hnone (before & Hsent)]].
  - rewrite Hp. cbn. destruct (Z.leb_spec (due tm) t') as [Hle|Hgt]; cbn.
    + assert (Hdone : @nil timer = []
                      /\ exists before,
                           flushed Notes w ++ [send (callback tm)]
                           = before ++ [UpdateAdminNotes rid s]).
      { split; [reflexivity|]. exists (flushed Notes w). now rewrite Hsend. }
      split; [now right | intros _; exact Hdone].
    + split; [left; now exists tm | intros Hlate; lia].
  - rewrite Hnone. cbn. rewrite app_nil_r.
    assert (Hdone : @nil timer = []
                    /\ exists before',
                         flushed Notes w = before' ++ [UpdateAdminNotes rid s]).
    { split; [reflexivity | now exists before]. }
    split; [now right | intros _; exact Hdone].
Qed.

Lemma notes_step t rid s t' ev w :
  stable w -> notesOnTheirWay t rid s w ->
  editOfClass Notes ev = None ->
  (replaces ev = true -> t + delayMs <= t') ->
  notesOnTheirWay t rid s (handle t' ev (elapse t' w)).
Proof.
  intros Hw Hway Hclass Hlate.
  pose proof (elapse_stable t' w Hw) as Hw1.
  destruct (notes_elapse t rid s t' w Hway) as (Hway1 & Hfired).
  set (w1 := elapse t' w) in *.
  destruct ev as [e|  |response|userId].
  - cbn [handle]. unfold notesOnTheirWay.
    destruct (onChange_restarts t' e w1 Hw1) as (_ & Hkept).
    rewrite flushed_onChange, Hkept; [exact Hway1|].
    cbn in Hclass. now destruct (classOfEdit e).
  - destruct (handle_renders t' Reload w1 ltac:(discriminate)) as (Hr & Hsame).
    destruct (Hsame eq_refl) as (Hp & _).
    unfold notesOnTheirWay, pendingOf. rewrite Hp, (renders_flushed _ _ _ Hr).
    exact Hway1.
  - destruct (handle_renders t' (Answer response) w1 ltac:(discriminate))
      as (Hr & Hsame).
    destruct response as [data|].
    + destruct (Hfired (Hlate eq_refl)) as (Hnone & Hsent). right.
      rewrite (renders_flushed _ _ _ Hr). split; [|exact Hsent].
      destruct (renders_pendingOf Notes _ _ Hr) as [Hp|Hp]; rewrite Hp;
        now rewrite Hnone.
    + destruct (Hsame eq_refl) as (Hp & _).
      unfold notesOnTheirWay, pendingOf. rewrite Hp, (renders_flushed _ _ _ Hr).
      exact Hway1.
  - destruct (handle_renders t' (SelectUser userId) w1 ltac:(discriminate))
      as (Hr & _).
    destruct (Hfired (Hlate eq_refl)) as (Hnone & Hsent). right.
    rewrite (renders_flushed _ _ _ Hr). split; [|exact Hsent].
    destruct (renders_pendingOf Notes _ _ Hr) as [Hp|Hp]; rewrite Hp;
      now rewrite Hnone.
Qed.

Lemma run_notes t rid s post : forall w,
  stable w -> notesOnTheirWay t rid s w ->
  lastOfClass Notes post = None ->
  Forall (fun te => replaces (snd te) = true -> t + delayMs <= fst te) post ->
  notesOnTheirWay t rid s (run post w).
Proof.
  induction post as [|[t' ev] post IH]; intros w Hw Hway Hlast Hlate;
    [exact Hway|].
  cbn [run fold_left fst snd].
  apply lastOfClass_none in Hlast as [Hlast Hclass].
  apply Forall_cons_iff in Hlate as [Hnow Hlate]. cbn [fst snd] in Hnow.
  apply IH; try assumption.
  - now apply handle_stable, elapse_stable.
  - now apply notes_step.
Qed.

Lemma run_app es es' w : run (es ++ es') w = run es' (run es w).
Proof. apply fold_left_app. Qed.

(** The notes typed last reach the backend as they were typed when no
    other list is put on screen while their timer is pending. *)
Lemma notes_kept pre t rid s post w :
  stable w ->
  lastOfClass Notes post = None ->
  Forall (fun te => replaces (snd te) = true -> t + delayMs <= fst te) post ->
  exists before,
    flushed Notes
      (quiesce (run (pre ++ (t, Edit (EditAdminNotes rid s)) :: post) w))
    = before ++ [UpdateAdminNotes rid s].
Proof.
  intros Hw Hlast Hlate. rewrite run_app.
  change (run ((t, Edit (EditAdminNotes rid s)) :: post) (run pre w))
    with (run post (onChange t (EditAdminNotes rid s) (elapse t (run pre w)))).
  set (w1 := onChange t (EditAdminNotes rid s) (elapse t (run pre w))).
  assert (Hw1 : stable w1).
  { apply onChange_stable, elapse_stable. now apply run_stable. }
  assert (Hway : notesOnTheirWay t rid s w1).
  { apply notes_after_edit, elapse_stable. now apply run_stable. }
  pose proof (run_notes t rid s post w1 Hw1 Hway Hlast Hlate) as Hend.
  rewrite flushed_quiesce.
  destruct Hend as [(tm & Hp & _ & Hsend)|[Hnone (before & Hsent)]].
  - exists (flushed Notes (run post w1)). rewrite Hp. cbn. now rewrite Hsend.
  - exists before. rewrite Hnone, Hsent. cbn. now rewrite app_nil_r.
Qed.

(** *** One request for a burst *)

Lemma wellFormed_one c w :
  wellFormed w -> (List.length (pendingOf c w) <= 1)%nat.
Proof.
  intros (_ & _ & Hone).
  destruct (Hone c) as [Hnil|(h & d & k & _ & Hp)]; rewrite ?Hnil, ?Hp; cbn; lia.
Qed.

Lemma oneAtMost_elapse c t w : oneAtMost c w -> oneAtMost c (elapse t w).
Proof.
  unfold oneAtMost. rewrite pendingOf_elapse, flushed_elapse.
  rewrite length_app, length_map.
  pose proof (filter_split_length _ (fun tm => due tm <=? t) (pendingOf c w)).
  lia.
Qed.

Lemma oneAtMost_handle c t ev w :
  stable w -> editOfClass c ev = None ->
  oneAtMost c w -> oneAtMost c (handle t ev w).
Proof.
  intros Hw Hclass Hone. unfold oneAtMost in *.
  destruct ev as [e|  |response|userId];
    try (match goal with
         | |- context [handle t ?ev w] =>
             destruct (handle_renders t ev w ltac:(discriminate)) as (Hr & _)
         end;
         rewrite (renders_flushed c _ _ Hr);
         destruct (renders_pendingOf c _ _ Hr) as [Hp|Hp]; rewrite Hp;
         rewrite ?length_map; exact Hone).
  cbn [handle]. destruct (onChange_restarts t e w Hw) as (_ & Hkept).
  rewrite flushed_onChange, Hkept; [exact Hone|].
  cbn in Hclass. intros ->.
  now destruct (timerClass_eqb_spec (classOfEdit e) (classOfEdit e)).
Qed.

Lemma run_oneAtMost c es : forall w,
  stable w -> lastOfClass c es = None -> oneAtMost c w ->
  oneAtMost c (run es w).
Proof.
  induction es as [|[t ev] es IH]; intros w Hw Hlast Hone; [exact Hone|].
  cbn [run fold_left fst snd].
  apply lastOfClass_none in Hlast as [Hlast Hclass].
  apply IH; [now apply handle_stable, elapse_stable | exact Hlast|].
  apply oneAtMost_handle; [now apply elapse_stable | exact Hclass|].
  now apply oneAtMost_elapse.
Qed.

Lemma oneAtMost_quiesce c w :
  oneAtMost c w -> (List.length (flushed c (quiesce w)) <= 1)%nat.
Proof.
  unfold oneAtMost. now rewrite flushed_quiesce, length_app, length_map.
Qed.

Lemma chronological_head t ev es :
  chronological ((t, ev) :: es) = true -> Forall (fun te => t <= fst te) es.
Proof.
  revert t ev. induction es as [|[t' ev'] es IH]; intros t ev Hc; [constructor|].
  cbn [chronological] in Hc. apply andb_true_iff in Hc as [Hle Hc].
  apply Z.leb_le in Hle. constructor; [exact Hle|].
  eapply Forall_impl; [|exact (IH t' ev' Hc)]. cbn. intros; lia.
Qed.

Lemma chronological_tail t ev es :
  chronological ((t, ev) :: es) = true -> chronological es = true.
Proof.
  destruct es as [|[t' ev'] es]; [reflexivity|].
  cbn [chronological]. intros Hc. now apply andb_true_iff in Hc as [_ Hc].
Qed.

(** Once the delay after an edit of a class is over, a burst of the class
    has no further edit. *)
Lemma closeEdits_late c t0 es :
  closeEdits c (Some t0) es = true ->
  Forall (fun te => t0 + delayMs <= fst te) es ->
  lastOfClass c es = None.
Proof.
  induction es as [|[t ev] es IH]; intros Hclose Hlate; [reflexivity|].
  apply Forall_cons_iff in Hlate as [Hnow Hlate]. cbn [fst] in Hnow.
  cbn [closeEdits] in Hclose. cbn [lastOfClass].
  destruct (editOfClass c ev) as [e|].
  - apply andb_true_iff in Hclose as [Hsoon _]. apply Z.ltb_lt in Hsoon. lia.
  - now rewrite (IH Hclose Hlate).
Qed.

Lemma editOfClass_some c ev e :
  editOfClass c ev = Some e -> ev = Edit e /\ classOfEdit e = c.
Proof.
  destruct ev as [e'|  |response|userId]; cbn; try discriminate.
  destruct (timerClass_eqb_spec (classOfEdit e') c); [|discriminate].
  intros H. injection H as <-. now split.
Qed.

Lemma burst_once c es : forall w previous,
  stable w -> chronological es = true -> closeEdits c previous es = true ->
  flushed c w = [] ->
  Forall (fun tm => match previous with
                    | Some t0 => due tm = t0 + delayMs
                    | None => False
                    end) (pendingOf c w) ->
  (List.length (flushed c (quiesce (run es w))) <= 1)%nat.
Proof.
  induction es as [|[t ev] es IH]; intros w previous Hw Hchron Hclose Hsent Hdue.
  - cbn [run fold_left]. rewrite flushed_quiesce, Hsent, length_app, length_map.
    pose proof (wellFormed_one c w (proj1 Hw)). cbn. lia.
  - cbn [run fold_left fst snd].
    pose proof (chronological_head _ _ _ Hchron) as Hhead.
    pose proof (chronological_tail _ _ _ Hchron) as Htail.
    pose proof (elapse_stable t w Hw) as Hw1.
    cbn [closeEdits] in Hclose.
    destruct (editOfClass c ev) as [e|] eqn:Hclass.
    + apply editOfClass_some in Hclass as [-> <-].
      apply andb_true_iff in Hclose as [Hsoon Hclose].
      cbn [handle].
      destruct (onChange_restarts t e (elapse t w) Hw1) as (Hnew & _).
      apply (IH _ (Some t)); try assumption.
      * now apply onChange_stable.
      * rewrite flushed_onChange, flushed_elapse, Hsent. cbn.
        rewrite filter_none; [reflexivity|].
        intros tm Htm. rewrite Forall_forall in Hdue. specialize (Hdue tm Htm).
        destruct previous as [t0|]; [|contradiction].
        apply Z.ltb_lt in Hsoon. apply Z.leb_gt. lia.
      * rewrite Hnew. constructor; [reflexivity | constructor].
    + destruct (filter (fun tm => due tm <=? t) (pendingOf c w))
        as [|tm0 fired] eqn:Hfired.
      * apply (IH _ previous); try assumption.
        -- now apply handle_stable.
        -- assert (Hsent1 : flushed c (elapse t w) = [])
             by now rewrite flushed_elapse, Hsent, Hfired.
           destruct ev as [e|  |response|userId];
             try (match goal with
                  | |- context [handle t ?ev _] =>
                      destruct (handle_renders t ev (elapse t w)
                                  ltac:(discriminate)) as (Hr & _)
                  end;
                  now rewrite (renders_flushed c _ _ Hr)).
           cbn [handle]. now rewrite flushed_onChange.
        -- assert (Hdue1 : Forall (fun tm => match previous with
                                              | Some t0 => due tm = t0 + delayMs
                                              | None => False
                                              end)
                             (pendingOf c (elapse t w))).
           { rewrite pendingOf_elapse. apply Forall_forall. intros tm Htm.
             apply filter_In in Htm as [Htm _].
             rewrite Forall_forall in Hdue. now apply Hdue. }
           destruct ev as [e|  |response|userId];
             try (match goal with
                  | |- context [handle t ?ev _] =>
                      destruct (handle_renders t ev (elapse t w)
                                  ltac:(discriminate)) as (Hr & _)
                  end;
                  destruct (renders_pendingOf c _ _ Hr) as [Hp|Hp]; rewrite Hp;
                  [exact Hdue1|];
                  apply Forall_map; exact Hdue1).
           cbn [handle].
           destruct (onChange_restarts t e (elapse t w) Hw1) as (_ & Hkept).
           rewrite Hkept; [exact Hdue1|].
           cbn in Hclass. intros ->.
           now destruct (timerClass_eqb_spec (classOfEdit e) (classOfEdit e)).
      * assert (Hin : In tm0 (filter (fun tm => due tm <=? t) (pendingOf c w)))
          by (rewrite Hfired; now left).
        apply filter_In in Hin as [Hin Hfire]. apply Z.leb_le in Hfire.
        rewrite Forall_forall in Hdue. specialize (Hdue tm0 Hin).
        destruct previous as [t0|]; [|contradiction].
        assert (Hlast : lastOfClass c es = None).
        { apply (closeEdits_late c t0); [exact Hclose|].
          eapply Forall_impl; [|exact Hhead]. cbn. intros; lia. }
        apply oneAtMost_quiesce, run_oneAtMost;
          [now apply handle_stable | exact Hlast|].
        apply oneAtMost_handle; [exact Hw1 | exact Hclass|].
        apply oneAtMost_elapse. unfold oneAtMost. rewrite Hsent.
        pose proof (wellFormed_one c w (proj1 Hw)). cbn. lia.
Qed.

(** *** The claim and its amended form *)

(** A request that comes from an edit, written out: the report, the field
    and, for a cost, [parseFloat(newValue) || 0]. *)
Lemma fromEdit_cases e q :
  fromEdit e q <->
  match e with
  | EditTotalCost rid v =>
      q = UpdateFinancialField rid "total_cost"
            (if PrimFloat.eqb v 0%float || PrimFloat.is_nan v then 0%float else v)
  | EditPartsCost rid v =>
      q = UpdateFinancialField rid "parts_cost"
            (if PrimFloat.eqb v 0%float || PrimFloat.is_nan v then 0%float else v)
  | EditAdminNotes rid _ => exists s, q = UpdateAdminNotes rid s
  end.
Proof.
  assert (Hcount : forall v : float,
            or_zero (Some v)
            = if PrimFloat.eqb v 0%float || PrimFloat.is_nan v then 0%float else v).
  { intros v. unfold or_zero, js_truthy, js_zero, double_number.
    now destruct (PrimFloat.eqb v 0 || PrimFloat.is_nan v). }
  unfold fromEdit.
  destruct e as [rid v|rid v|rid s], q as [r f x|r s']; cbn [targetOf fieldOf classOf flushOf];
    rewrite <- ?Hcount; split.
  all: try (intros [Htarget Hvalue]; injection Htarget as -> Hf;
            try discriminate Hf; subst;
            solve [now apply Hvalue | now exists s' | discriminate (Hvalue eq_refl)]).
  all: try (intros Hq; injection Hq as -> -> ->; now split).
  all: try (intros Hq; discriminate Hq).
  all: try (intros [s0 Hq]; first [discriminate Hq | injection Hq as -> ->];
            split; [reflexivity | discriminate]).
  - intros [s0 Hq]. discriminate Hq.
  - intros [Htarget _]. injection Htarget as ->. now exists s'.
Qed.

Lemma flushed_class c q w : In q (flushed c w) -> classOf q = c.
Proof.
  unfold flushed. intros Hq. apply filter_In in Hq as [_ Hq].
  now destruct (timerClass_eqb_spec (classOf q) c).
Qed.

(** A burst in the narrow sense is a burst of the edits of each class. *)
Lemma burst_closeEdits c es :
  burst es = true -> chronological es = true /\ closeEdits c None es = true.
Proof.
  unfold burst. intros Hb. apply andb_true_iff in Hb as [Hchron Hwin].
  split; [exact Hchron|].
  destruct es as [|[t0 ev0] es]; [reflexivity|].
  assert (Hall : Forall (fun te => t0 <= fst te < t0 + delayMs) ((t0, ev0) :: es)).
  { apply Forall_forall. intros te Hte.
    rewrite forallb_forall in Hwin. specialize (Hwin te Hte).
    apply Z.ltb_lt in Hwin. split; [|exact Hwin].
    destruct Hte as [<-|Hte]; [cbn; lia|].
    pose proof (chronological_head _ _ _ Hchron) as Hhead.
    rewrite Forall_forall in Hhead. now apply Hhead. }
  clear Hchron Hwin.
  assert (Hgen : forall l previous,
            Forall (fun te => t0 <= fst te < t0 + delayMs) l ->
            match previous with Some t => t0 <= t | None => True end ->
            closeEdits c previous l = true).
  { induction l as [|[t ev] l IH]; intros previous Hl Hprev; [reflexivity|].
    apply Forall_cons_iff in Hl as [Ht Hl]. cbn [fst] in Ht.
    cbn [closeEdits]. destruct (editOfClass c ev).
    - apply andb_true_iff. split.
      + destruct previous as [t'|]; [|reflexivity]. apply Z.ltb_lt. lia.
      + apply IH; [exact Hl | cbn; lia].
    - now apply IH. }
  now apply Hgen.
Qed.

(** C2 as stated fails: the timers are kept per class, not per report and
    field.  An edit of [parts_cost] half a second after an edit of
    [total_cost] cancels the pending flush of [total_cost], and an edit of
    the notes of one report cancels the pending flush of the notes of
    another; the cancelled value never reaches the backend. *)
Lemma debounce_per_field_fails :
  (burst [(0, Edit (EditTotalCost "r1" 100%float));
          (500, Edit (EditPartsCost "r1" 40%float))] = true /\
   map (fun tm => (tid tm, send (callback tm)))
     (pending (run [(0, Edit (EditTotalCost "r1" 100%float))] (initial twoCards)))
   = [(1%nat, UpdateFinancialField "r1" "total_cost" 100%float)] /\
   map (fun tm => (tid tm, send (callback tm)))
     (pending
        (run [(0, Edit (EditTotalCost "r1" 100%float));
              (500, Edit (EditPartsCost "r1" 40%float))] (initial twoCards)))
   = [(2%nat, UpdateFinancialField "r1" "parts_cost" 40%float)] /\
   requests
     (quiesce
        (run [(0, Edit (EditTotalCost "r1" 100%float));
              (500, Edit (EditPartsCost "r1" 40%float))] (initial twoCards)))
   = [UpdateFinancialField "r1" "parts_cost" 40%float]) /\
  (burst [(0, Edit (EditAdminNotes "r1" "call back"));
          (300, Edit (EditAdminNotes "r2" "done"))] = true /\
   requests
     (quiesce
        (run [(0, Edit (EditAdminNotes "r1" "call back"));
              (300, Edit (EditAdminNotes "r2" "done"))] (initial twoCards)))
   = [UpdateAdminNotes "r2" "done"]) /\
  ~ (forall es t e tm,
       let w := elapse t (run es (initial twoCards)) in
       In tm (pending w) ->
       samePair (targetOf (send (callback tm))) (fieldOf e) = false ->
       In (tid tm) (map tid (pending (onChange t e w)))) /\
  ~ (forall es p,
       burst es = true ->
       flushedFor p (quiesce (run es (initial twoCards)))
       = flushList (lastOfPair p es)).
Proof.
  split; [repeat split|split; [repeat split|split]].
  - intros Hclaim.
    specialize (Hclaim [(0, Edit (EditTotalCost "r1" 100%float))] 500
                  (EditPartsCost "r1" 40%float)
                  {| tid := 1; due := 1000;
                     callback := FinancialCallback "r1" "total_cost" 100%float |}
                  (or_introl eq_refl) eq_refl).
    destruct Hclaim as [Hsame|[]]. discriminate Hsame.
  - intros Hclaim.
    specialize (Hclaim
      [(0, Edit (EditTotalCost "r1" 100%float));
       (500, Edit (EditPartsCost "r1" 40%float))]
      ("r1", "total_cost") eq_refl).
    discriminate Hclaim.
Qed.

(** C2, amended.  The timers are kept per class: one for the two financial
    fields of all reports and one for the notes of all reports.  An edit
    cancels the pending timer of its class, whatever report and field it was
    for, and starts the delay of 1000 ms again; it leaves the timer of the
    other class alone.  So over a burst of the edits of a class (each less
    than 1000 ms after the one before it, whatever else happens in between)
    the class sends one request, for the report and field of its last edit.
    A financial request carries the value of that edit,
    [parseFloat(newValue) || 0].  A notes request reads the notes area when
    its timer fires: it carries the text of the last notes edit when no
    other list is put on screen between that edit and the firing. *)
Theorem debounce_per_class fetched es c :
  chronological es = true ->
  closeEdits c None es = true ->
  let final := quiesce (run es (initial fetched)) in
  let counted := fun v : float =>
    if PrimFloat.eqb v 0%float || PrimFloat.is_nan v then 0%float else v in
  delayMs = 1000 /\
  match lastOfClass c es with
  | None => flushed c final = []
  | Some (EditTotalCost rid v) =>
      flushed c final = [UpdateFinancialField rid "total_cost" (counted v)]
  | Some (EditPartsCost rid v) =>
      flushed c final = [UpdateFinancialField rid "parts_cost" (counted v)]
  | Some (EditAdminNotes rid _) =>
      exists s, flushed c final = [UpdateAdminNotes rid s]
  end /\
  (forall pre t rid s post,
     c = Notes ->
     es = pre ++ (t, Edit (EditAdminNotes rid s)) :: post ->
     lastOfClass Notes post = None ->
     Forall (fun te => replaces (snd te) = true -> t + 1000 <= fst te) post ->
     flushed Notes final = [UpdateAdminNotes rid s]) /\
  (forall es' t e,
     let w := run es' (initial fetched) in
     let own := match e with EditAdminNotes _ _ => Notes | _ => Financial end in
     let other := match e with EditAdminNotes _ _ => Financial | _ => Notes end in
     (exists k,
        pendingOf own (onChange t e w)
        = [{| tid := nextTimer w; due := t + 1000; callback := k |}]
        /\ send k = match e with
                    | EditTotalCost rid v =>
                        UpdateFinancialField rid "total_cost" (counted v)
                    | EditPartsCost rid v =>
                        UpdateFinancialField rid "parts_cost" (counted v)
                    | EditAdminNotes rid s => UpdateAdminNotes rid s
                    end)
     /\ pendingOf other (onChange t e w) = pendingOf other w).
Proof.
  intros Hchron Hclose final counted.
  assert (Hone : (List.length (flushed c final) <= 1)%nat).
  { apply (burst_once c es (initial fetched) None);
      [apply stable_initial | exact Hchron | exact Hclose | reflexivity
       | constructor]. }
  split; [reflexivity|]. split; [|split].
  - pose proof (run_settled es _ _ (stable_initial fetched)
                  (settled_initial fetched) c) as Hlast.
    cbn beta in Hlast. unfold final in *. rewrite flushed_quiesce in *.
    destruct (lastOfClass c es) as [e|].
    + assert (Hq : exists before q,
                 flushed c (run es (initial fetched))
                 ++ map (fun tm => send (callback tm))
                      (pendingOf c (run es (initial fetched)))
                 = before ++ [q] /\ fromEdit e q).
      { destruct Hlast as [(tm & -> & Hfrom)|(-> & before & q & -> & Hfrom)].
        - now exists (flushed c (run es (initial fetched))), (send (callback tm)).
        - exists before, q. now rewrite app_nil_r. }
      destruct Hq as (before & q & Heq & Hfrom).
      rewrite Heq in *. rewrite length_app in Hone. cbn in Hone.
      destruct before as [|q0 before]; [|cbn in Hone; lia].
      apply fromEdit_cases in Hfrom. cbn [app].
      destruct e as [rid v|rid v|rid s0];
        [now rewrite Hfrom | now rewrite Hfrom|].
      destruct Hfrom as [s ->]. now exists s.
    + destruct Hlast as [-> ->]. reflexivity.
  - intros pre t rid s post -> -> Hlast Hlate.
    destruct (notes_kept pre t rid s post (initial fetched)
                (stable_initial fetched) Hlast Hlate) as [before Heq].
    fold final in Heq. rewrite Heq in *. rewrite length_app in Hone.
    cbn in Hone. destruct before as [|q0 before]; [reflexivity | cbn in Hone; lia].
  - intros es' t e w own other.
    destruct (onChange_restarts t e w) as (Hnew & Hkept);
      [apply run_stable, stable_initial|].
    assert (Hown : classOfEdit e = own) by now destruct e.
    rewrite Hown in Hnew. split.
    + exists (callbackOf (filteredReports w) e). split; [exact Hnew|].
      rewrite send_callbackOf.
      pose proof (proj1 (fromEdit_cases e (flushOf e)) (fromEdit_flushOf e)) as Hq.
      destruct e as [rid v|rid v|rid s]; [exact Hq | exact Hq | reflexivity].
    + apply Hkept. rewrite Hown. unfold own, other. now destruct e.
Qed.

End Debounce.

(** Three edits of the notes of one report inside the delay, an edit of a
    financial field in between, the answer of the refetch after the notes
    have gone: one notes request, with the third text. *)
Lemma debounce_per_class_witness :
  ServiceReports.chronological
    (typing ++ [(400, ServiceReports.Edit (ServiceReports.EditAdminNotes "r1" "cal"));
                (1500, ServiceReports.Answer (Some notesSaved))]) = true /\
  ServiceReports.closeEdits ServiceReports.Notes None
    (typing ++ [(400, ServiceReports.Edit (ServiceReports.EditAdminNotes "r1" "cal"));
                (1500, ServiceReports.Answer (Some notesSaved))]) = true /\
  ServiceReports.flushed ServiceReports.Notes
    (ServiceReports.quiesce
       (ServiceReports.run
          (typing ++ [(400, ServiceReports.Edit (ServiceReports.EditAdminNotes "r1" "cal"));
                      (1500, ServiceReports.Answer (Some notesSaved))])
          (ServiceReports.initial twoCards)))
  = [ServiceReports.UpdateAdminNotes "r1" "cal"] /\
  ServiceReports.requests
    (ServiceReports.quiesce
       (ServiceReports.run
          (typing ++ [(400, ServiceReports.Edit (ServiceReports.EditAdminNotes "r1" "cal"));
                      (1500, ServiceReports.Answer (Some notesSaved))])
          (ServiceReports.initial twoCards)))
  = [ServiceReports.UpdateFinancialField "r1" "total_cost" 120%float;
     ServiceReports.UpdateAdminNotes "r1" "cal"].
Proof.
  split; [reflexivity|]. split; [reflexivity|]. split; [|reflexivity].
  destruct (debounce_per_class twoCards
              (typing ++ [(400, ServiceReports.Edit
                                  (ServiceReports.EditAdminNotes "r1" "cal"));
                          (1500, ServiceReports.Answer (Some notesSaved))])
              ServiceReports.Notes eq_refl eq_refl)
    as (_ & _ & Hkept & _).
  apply (Hkept typing 400 "r1" "cal"
               [(1500, ServiceReports.Answer (Some notesSaved))]);
    [reflexivity | reflexivity | reflexivity|].
  repeat constructor. cbn. intros _. lia.
Defined.

(** * Further properties of the code *)

(** ** Layout of the PDF: order, bounds, spacing, page sizes *)

Section LayoutInvariants.
Import ReportsDownload PdfLayout.

Variables (pageWidth pageHeight : Q).
Variable splitTextToSize : string -> Q -> list string.

#[local] Abbreviation afterBlocks := (afterBlocks pageWidth splitTextToSize).
#[local] Abbreviation needsNewPage := (needsNewPage pageHeight).
#[local] Abbreviation placeReport := (placeReport pageWidth pageHeight splitTextToSize).
#[local] Abbreviation placeReports := (placeReports pageWidth pageHeight splitTextToSize).
#[local] Abbreviation layout := (layout pageWidth pageHeight splitTextToSize).

#[local] Abbreviation start :=
  {| pdf := newDocument; yPosition := 45; reportsPerPage := 0 |}.

(** X1. Whatever the page size, the document holds every report of the
    input exactly once, in the order of the input, and the containers are
    numbered 1, 2, 3, ... in that order. *)
Theorem layout_order_and_numbering reports :
  map content (List.concat (layout reports)) = reports /\
  map number (List.concat (layout reports)) = seq 1 (List.length reports) /\
  List.length (List.concat (layout reports)) = List.length reports.
Proof.
  unfold ReportsDownload.layout.
  pose proof (placeReports_content pageWidth pageHeight splitTextToSize
                reports 0 start) as Hcontent.
  pose proof (placeReports_numbers pageWidth pageHeight splitTextToSize
                reports 0 start) as Hnumbers.
  cbn in Hcontent, Hnumbers. split; [exact Hcontent|]. split; [exact Hnumbers|].
  rewrite <- (length_map content), Hcontent. reflexivity.
Qed.

Lemma layout_size reports :
  List.length (List.concat (layout reports)) = List.length reports.
Proof.
  unfold ReportsDownload.layout.
  rewrite <- (length_map content), placeReports_content. reflexivity.
Qed.

Lemma new_page_when_over s :
  needsNewPage s = false -> (inject_Z (yPosition s) <= pageHeight - 100)%Q.
Proof.
  unfold ReportsDownload.needsNewPage. intros H.
  apply orb_false_iff in H as [_ H]. apply negb_false_iff in H.
  now apply Qle_bool_iff.
Qed.

Lemma placeReport_withinPage i r s :
  (120 <= pageHeight)%Q -> withinPage pageHeight s ->
  withinPage pageHeight (placeReport i r s).
Proof.
  intros Hpage [Hy Hfits]. unfold withinPage.
  rewrite placeReport_appends.
  pose proof (afterBlocks_bounds pageWidth splitTextToSize r 20) as Hfresh.
  pose proof (afterBlocks_bounds pageWidth splitTextToSize r (yPosition s))
    as Hsame.
  split.
  - unfold ReportsDownload.placeReport, containerHeight.
    destruct (needsNewPage s); cbn [yPosition]; lia.
  - apply Forall_app. split; [exact Hfits|]. constructor; [|constructor].
    unfold fits, containerHeight; cbn [top].
    destruct (needsNewPage s) eqn:Hnew.
    + split; [lia|]. change (inject_Z (20 - 5 + 85)) with 100%Q. lra.
    + pose proof (new_page_when_over s Hnew) as Hle.
      split; [lia|].
      replace (yPosition s - 5 + 85) with (yPosition s + 80) by lia.
      rewrite inject_Z_plus. change (inject_Z 80) with 80%Q.
      set (y := inject_Z (yPosition s)) in *. lra.
Qed.

Lemma placeReports_withinPage reports : forall i s,
  (120 <= pageHeight)%Q -> withinPage pageHeight s ->
  withinPage pageHeight (placeReports i reports s).
Proof.
  induction reports as [|r rest IH]; intros i s Hpage Hs; cbn;
    [exact Hs|].
  now apply IH, placeReport_withinPage.
Qed.

(** X2. On a page of at least 120 millimetres every container lies on its
    page: its border starts at 15 or lower and ends at least 20 above the
    bottom edge, clear of the footer line. *)
Theorem containers_fit_on_page reports :
  (120 <= pageHeight)%Q ->
  Forall (fits pageHeight) (List.concat (layout reports)).
Proof.
  intros Hpage. unfold ReportsDownload.layout.
  apply (placeReports_withinPage reports 0 start Hpage).
  split; [cbn; lia | constructor].
Qed.

Lemma ForallOrdPairs_snoc (A : Type) (R : A -> A -> Prop) (l : list A) (x : A) :
  ForallOrdPairs R l -> Forall (fun a => R a x) l ->
  ForallOrdPairs R (l ++ [x]).
Proof.
  induction 1 as [|a l Ha Hl IH]; intros Hx; cbn.
  - constructor; [constructor | constructor].
  - apply Forall_cons_iff in Hx as [Hax Hx].
    constructor; [|now apply IH].
    apply Forall_app. split; [exact Ha|]. now constructor.
Qed.

Lemma placeReport_spacedOut i r s : spacedOut s -> spacedOut (placeReport i r s).
Proof.
  intros [Hpast Hpages].
  pose proof (afterBlocks_bounds pageWidth splitTextToSize r 20) as Hfresh.
  pose proof (afterBlocks_bounds pageWidth splitTextToSize r (yPosition s))
    as Hsame.
  unfold pages in Hpages. apply Forall_app in Hpages as [Hdone Hcur].
  apply Forall_inv in Hcur.
  unfold spacedOut, ReportsDownload.placeReport, containerHeight, pages.
  destruct (needsNewPage s);
    cbn [pdf yPosition reportsPerPage draw addPage finished current app].
  - split.
    + constructor; [cbn; lia | constructor].
    + apply Forall_app. split.
      * apply Forall_app. split; [exact Hdone|]. now constructor.
      * constructor; [|constructor]. constructor; [constructor | constructor].
  - split.
    + apply Forall_app. split.
      * eapply Forall_impl; [|exact Hpast]. cbn. intros; lia.
      * constructor; [cbn; lia | constructor].
    + apply Forall_app. split; [exact Hdone|]. constructor; [|constructor].
      apply ForallOrdPairs_snoc; [exact Hcur|].
      eapply Forall_impl; [|exact Hpast]. unfold below; cbn. intros; lia.
Qed.

Lemma placeReports_spacedOut reports : forall i s,
  spacedOut s -> spacedOut (placeReports i reports s).
Proof.
  induction reports as [|r rest IH]; intros i s Hs; cbn; [exact Hs|].
  now apply IH, placeReport_spacedOut.
Qed.

(** X3. Whatever the page size, two containers of one page never overlap:
    the later one starts at least 146 below the start of the earlier one,
    which is 85 high. *)
Theorem containers_do_not_overlap reports :
  Forall (ForallOrdPairs
            (fun a b => top a + 146 <= top b
                        /\ top a + containerHeight < top b))
    (layout reports).
Proof.
  assert (Hspaced : spacedOut (placeReports 0 reports start)).
  { apply placeReports_spacedOut. split; [constructor|].
    constructor; [constructor | constructor]. }
  destruct Hspaced as [_ Hpages]. unfold ReportsDownload.layout.
  eapply Forall_impl; [|exact Hpages].
  intros p Hp. induction Hp as [|a l Ha Hl IH]; constructor; [|exact IH].
  eapply Forall_impl; [|exact Ha].
  unfold below, containerHeight. intros; lia.
Qed.

Lemma placeReport_filled i r s :
  (145 <= pageHeight)%Q -> filled s -> filled (placeReport i r s).
Proof.
  intros Hpage (Hlen & Hcount & Hdone & Hempty).
  unfold filled, ReportsDownload.placeReport.
  destruct (needsNewPage s) eqn:Hnew;
    cbn [pdf yPosition reportsPerPage draw addPage finished current].
  - assert (Hsome : (1 <= List.length (current (pdf s)))%nat).
    { destruct (current (pdf s)) as [|c l] eqn:Hcur; [|cbn; lia].
      destruct (Hempty eq_refl) as [Hy _]. exfalso.
      apply needsNewPage_spec in Hnew as [Hthree|Hover].
      - rewrite <- Hlen in Hthree. cbn in Hthree. lia.
      - rewrite Hy in Hover. change (inject_Z 45) with 45%Q in Hover. lra. }
    split; [reflexivity|]. split; [lia|]. split.
    + apply Forall_app. split; [exact Hdone|]. constructor; [lia | constructor].
    + discriminate.
  - assert (Hroom : (reportsPerPage s < 3)%nat).
    { destruct (Nat.lt_ge_cases (reportsPerPage s) 3) as [Hlt|Hge]; [easy|].
      assert (Hnew' : needsNewPage s = true); [|congruence].
      apply needsNewPage_spec. now left. }
    rewrite length_app. cbn [List.length].
    split; [lia|]. split; [lia|]. split; [exact Hdone|].
    intros Habs. now apply app_eq_nil in Habs as [_ Habs].
Qed.

Lemma placeReports_filled reports : forall i s,
  (145 <= pageHeight)%Q -> filled s -> filled (placeReports i reports s).
Proof.
  induction reports as [|r rest IH]; intros i s Hpage Hs; cbn; [exact Hs|].
  now apply IH, placeReport_filled.
Qed.

Lemma placeReports_nonempty reports : forall i s,
  current (pdf s) <> [] -> current (pdf (placeReports i reports s)) <> [].
Proof.
  induction reports as [|r rest IH]; intros i s Hs; cbn; [exact Hs|].
  apply IH. rewrite placeReport_page_break. unfold draw; cbn.
  intros Habs. now apply app_eq_nil in Habs as [_ Habs].
Qed.

(** X4. On a page of at least 145 millimetres a non-empty input gives a
    document without blank pages: every page holds one, two or three
    containers, so there are no more pages than reports. *)
Theorem no_blank_page reports :
  (145 <= pageHeight)%Q -> reports <> [] ->
  Forall (fun p : page => (1 <= List.length p <= 3)%nat) (layout reports) /\
  (List.length (layout reports) <= List.length reports)%nat.
Proof.
  intros Hpage Hreports.
  assert (Hstart : filled start).
  { repeat split; cbn; try lia. constructor. }
  pose proof (placeReports_filled reports 0 start Hpage Hstart)
    as (Hlen & Hcount & Hdone & _).
  assert (Hcur : current (pdf (placeReports 0 reports start)) <> []).
  { destruct reports as [|r rest]; [now elim Hreports|]. cbn.
    apply placeReports_nonempty. rewrite placeReport_page_break.
    unfold draw; cbn. intros Habs. now apply app_eq_nil in Habs as [_ Habs]. }
  assert (Hall : Forall (fun p : page => (1 <= List.length p <= 3)%nat)
                   (layout reports)).
  { unfold ReportsDownload.layout, pages. apply Forall_app.
    split; [exact Hdone|]. constructor; [|constructor].
    destruct (current (pdf (placeReports 0 reports start))) as [|c l] eqn:Hc;
      [now elim Hcur|].
    rewrite Hlen. cbn in Hlen. lia. }
  split; [exact Hall|].
  rewrite <- (layout_size reports). clear - Hall.
  induction Hall as [|p l Hp _ IH]; cbn; [lia|].
  rewrite length_app. unfold page in *. lia.
Qed.

End LayoutInvariants.

(** Two plain reports on the A4 page of the download: the page is taller
    than 120 millimetres and both containers lie on it. *)
Lemma containers_fit_on_page_witness :
  (120 <= ReportsDownload.a4Height)%Q /\
  Forall (PdfLayout.fits ReportsDownload.a4Height)
    (List.concat
       (ReportsDownload.layout ReportsDownload.a4Width
          ReportsDownload.a4Height (fun s _ => [s])
          (map (fun n => plainReport n "Smith Pool" "john" "completed"
                           "2024-03-09T12:00Z" (Some "2024-03-10T12:00Z"))
             ["r1"; "r2"]))).
Proof.
  assert (Hpage : (120 <= ReportsDownload.a4Height)%Q)
    by (vm_compute; discriminate).
  split; [exact Hpage|].
  apply (containers_fit_on_page ReportsDownload.a4Width
           ReportsDownload.a4Height (fun s _ => [s])).
  exact Hpage.
Defined.

(** Three plain reports on the A4 page of the download: two pages, none of
    them blank. *)
Lemma no_blank_page_witness :
  (145 <= ReportsDownload.a4Height)%Q /\
  Forall (fun p : ReportsDownload.page => (1 <= List.length p <= 3)%nat)
    (ReportsDownload.layout ReportsDownload.a4Width
       ReportsDownload.a4Height (fun s _ => [s])
       (map (fun n => plainReport n "Smith Pool" "john" "completed"
                        "2024-03-09T12:00Z" (Some "2024-03-10T12:00Z"))
          ["r1"; "r2"; "r3"])) /\
  (List.length
     (ReportsDownload.layout ReportsDownload.a4Width
        ReportsDownload.a4Height (fun s _ => [s])
        (map (fun n => plainReport n "Smith Pool" "john" "completed"
                         "2024-03-09T12:00Z" (Some "2024-03-10T12:00Z"))
           ["r1"; "r2"; "r3"])) <= 3)%nat.
Proof.
  assert (Hpage : (145 <= ReportsDownload.a4Height)%Q)
    by (vm_compute; discriminate).
  split; [exact Hpage|].
  apply (no_blank_page ReportsDownload.a4Width
           ReportsDownload.a4Height (fun s _ => [s])
           (map (fun n => plainReport n "Smith Pool" "john" "completed"
                            "2024-03-09T12:00Z" (Some "2024-03-10T12:00Z"))
              ["r1"; "r2"; "r3"])).
  - exact Hpage.
  - discriminate.
Defined.

(** ** The photo block of a container *)

Section PhotoBlock.
Import ReportsDownload PdfLayout.

Variables (pageWidth : Q).
Variable splitTextToSize : string -> Q -> list string.
Variable addImage : string -> bool.

Lemma placePhotos_data photoStartX photoY photos : forall j,
  map data (placePhotos addImage photoStartX photoY j photos)
  = filter addImage photos.
Proof.
  induction photos as [|p rest IH]; intros j; cbn; [reflexivity|].
  destruct (addImage p); cbn; now rewrite IH.
Qed.

Lemma placePhotos_cells photoStartX photoY photos : forall j,
  Forall (fun im => (j < badge im <= j + List.length photos)%nat
                    /\ inCell photoStartX photoY im)
    (placePhotos addImage photoStartX photoY j photos).
Proof.
  induction photos as [|p rest IH]; intros j; cbn [placePhotos]; [constructor|].
  apply Forall_app. split.
  - destruct (addImage p); [|constructor]. constructor; [|constructor].
    unfold inCell; cbn [badge left upper List.length].
    replace (j + 1 - 1)%nat with j by lia.
    split; [lia|]. split; reflexivity.
  - eapply Forall_impl; [|exact (IH (S j))]. cbn [List.length].
    intros im [Hb Hcell]. split; [lia | exact Hcell].
Qed.

Lemma placePhotos_badges photoStartX photoY photos : forall j,
  ForallOrdPairs (fun a b => (badge a < badge b)%nat)
    (placePhotos addImage photoStartX photoY j photos).
Proof.
  induction photos as [|p rest IH]; intros j; cbn [placePhotos]; [constructor|].
  pose proof (placePhotos_cells photoStartX photoY rest (S j)) as Hrest.
  destruct (addImage p); cbn [app]; [|apply IH].
  constructor; [|apply IH].
  eapply Forall_impl; [|exact Hrest]. cbn. intros im [Hb _]. lia.
Qed.

Lemma cells_apart photoStartX photoY a b :
  inCell photoStartX photoY a -> inCell photoStartX photoY b ->
  (1 <= badge a <= 4)%nat -> (1 <= badge b <= 4)%nat ->
  badge a <> badge b ->
  (left a + 23 <= left b)%Q \/ (left b + 23 <= left a)%Q
  \/ upper a + 23 <= upper b \/ upper b + 23 <= upper a.
Proof.
  unfold inCell, photoSize. intros [Hla Hua] [Hlb Hub] Ha Hb Hne.
  assert (Hcases : (badge a = 1 \/ badge a = 2 \/ badge a = 3 \/ badge a = 4)%nat)
    by lia.
  assert (Hcases' : (badge b = 1 \/ badge b = 2 \/ badge b = 3 \/ badge b = 4)%nat)
    by lia.
  destruct Hcases as [Ea|[Ea|[Ea|Ea]]], Hcases' as [Eb|[Eb|[Eb|Eb]]];
    try (elim Hne; congruence);
    rewrite Ea in Hla, Hua; rewrite Eb in Hlb, Hub; cbn in Hla, Hua, Hlb, Hub;
    try (right; right; left; lia); try (right; right; right; lia);
    change (inject_Z 23) with 23%Q in *; change (inject_Z 0) with 0%Q in *;
    set (la := left a) in *; set (lb := left b) in *;
    first [left; lra | right; left; lra].
Qed.

(** X5. The photo block of a report whose title band starts at [y0] (its
    border at [y0 - 5], 85 high).  At most four images are drawn: the first
    four photos that the PDF library accepts, in order; a photo it rejects
    is skipped and the following ones are still drawn.  The images carry
    increasing badges, lie inside the border of the container, and no two
    of them overlap.  When every photo is accepted, the images and the
    count of the [+N more] line add up to the number of photos. *)
Theorem photo_block_layout (r : report) (y0 : Z) :
  let block :=
    drawPhotos addImage pageWidth (photos r)
      (afterBlocks pageWidth splitTextToSize r y0) in
  map data (images block) = filter addImage (firstn maxPhotos (photos r)) /\
  (List.length (images block) <= maxPhotos)%nat /\
  ForallOrdPairs (fun a b => (badge a < badge b)%nat) (images block) /\
  Forall (fun im => y0 - 5 <= upper im
                    /\ upper im + photoSize <= y0 - 5 + containerHeight)
    (images block) /\
  (forall a b, In a (images block) -> In b (images block) ->
     badge a <> badge b ->
     (left a + 23 <= left b)%Q \/ (left b + 23 <= left a)%Q
     \/ upper a + 23 <= upper b \/ upper b + 23 <= upper a) /\
  ((forall p, In p (photos r) -> addImage p = true) ->
   (List.length (images block)
    + match more block with Some n => n | None => 0 end
    = List.length (photos r))%nat).
Proof.
  intros block.
  set (photoStartX := (pageWidth / 2 + 5)%Q).
  set (photoY := afterBlocks pageWidth splitTextToSize r y0 - 35).
  set (shown := firstn (Nat.min (List.length (photos r)) maxPhotos) (photos r)).
  assert (Hshown : shown = firstn maxPhotos (photos r)).
  { unfold shown. destruct (Nat.le_ge_cases (List.length (photos r)) maxPhotos).
    - rewrite Nat.min_l by assumption.
      rewrite !firstn_all2 by lia. reflexivity.
    - now rewrite Nat.min_r by assumption. }
  assert (Hlen : (List.length shown <= maxPhotos)%nat).
  { rewrite Hshown, length_firstn. lia. }
  assert (Himages : images block
                    = placePhotos addImage photoStartX photoY 0 shown).
  { unfold block, drawPhotos.
    destruct (photos r) as [|p l] eqn:Hp; [reflexivity|]. reflexivity. }
  pose proof (placePhotos_data photoStartX photoY shown 0) as Hdata.
  pose proof (placePhotos_cells photoStartX photoY shown 0) as Hcells.
  pose proof (placePhotos_badges photoStartX photoY shown 0) as Hbadges.
  pose proof (afterBlocks_bounds pageWidth splitTextToSize r y0) as Hy.
  rewrite <- Himages in Hdata, Hcells, Hbadges.
  assert (Hcount : (List.length (images block) <= maxPhotos)%nat).
  { rewrite <- (length_map data), Hdata.
    etransitivity; [apply filter_length_le | exact Hlen]. }
  rewrite Forall_forall in Hcells.
  split; [now rewrite Hdata, Hshown|]. split; [exact Hcount|].
  split; [exact Hbadges|]. split; [|split].
  - apply Forall_forall. intros im Him.
    destruct (Hcells im Him) as [Hb [_ Hu]].
    unfold photoSize, containerHeight, maxPhotos in *. rewrite Hu.
    assert (Hrow : ((badge im - 1) / 2 < 2)%nat).
    { apply Nat.Div0.div_lt_upper_bound. lia. }
    set (row := Z.of_nat ((badge im - 1) / 2)) in *.
    assert (Hrow' : 0 <= row <= 1) by (unfold row; lia).
    unfold photoY. nia.
  - intros a b Ha Hb Hne.
    destruct (Hcells a Ha) as [Hba Hca], (Hcells b Hb) as [Hbb Hcb].
    unfold maxPhotos in Hlen.
    apply (cells_apart photoStartX photoY); try assumption; lia.
  - intros Hall.
    assert (Hfull : filter addImage shown = shown).
    { apply forallb_filter_id. apply forallb_forall. intros p Hp.
      apply Hall. rewrite Hshown in Hp.
      rewrite <- (firstn_skipn maxPhotos (photos r)).
      apply in_or_app. now left. }
    rewrite <- (length_map data), Hdata, Hfull, Hshown, length_firstn.
    unfold block, drawPhotos.
    destruct (Nat.ltb_spec 0 (List.length (photos r))) as [Hpos|Hzero];
      [|cbn [more]; lia].
    destruct (Nat.ltb_spec maxPhotos (List.length (photos r)));
      cbn [more]; unfold maxPhotos in *; lia.
Qed.

End PhotoBlock.

(** ** The download: outcomes of a run and stability of the filter *)

Section DownloadRuns.
Import ReportsDownload DownloadCriteria.

Variables (pageWidth pageHeight : Q).
Variable splitTextToSize : string -> Q -> list string.
Variable parseDate : string -> option Z.

#[local] Abbreviation generateReport :=
  (generateReport pageWidth pageHeight splitTextToSize parseDate).
#[local] Abbreviation filterForDownload := (filterForDownload parseDate).
#[local] Abbreviation layout := (layout pageWidth pageHeight splitTextToSize).

Lemma filterForDownload_keep allReports startDate endDate
  selectedClient selectedEmployee :
  filterForDownload allReports startDate endDate selectedClient selectedEmployee
  = filter (keepForDownload parseDate startDate endDate
              selectedClient selectedEmployee) allReports.
Proof.
  unfold ReportsDownload.filterForDownload, keepForDownload.
  destruct (isSelected selectedClient), (isSelected selectedEmployee);
    cbn [negb orb].
  - induction allReports as [|r l IH]; cbn; [reflexivity|].
    destruct (completedInRange _ _ _ r); cbn; [|exact IH].
    destruct (client_name r =? selectedClient)%string; cbn; [|exact IH].
    destruct (employee_id r =? selectedEmployee)%string; cbn; congruence.
  - induction allReports as [|r l IH]; cbn; [reflexivity|].
    destruct (completedInRange _ _ _ r); cbn; [|exact IH].
    destruct (client_name r =? selectedClient)%string; cbn; congruence.
  - induction allReports as [|r l IH]; cbn; [reflexivity|].
    destruct (completedInRange _ _ _ r); cbn; [|exact IH].
    destruct (employee_id r =? selectedEmployee)%string; cbn; congruence.
  - apply filter_ext. intros r. now rewrite !andb_true_r.
Qed.

(** The five ways a click on the download button can go. *)
Lemma generateReport_cases startDate endDate selectedClient selectedEmployee
  response thrown :
  generateReport startDate endDate selectedClient selectedEmployee response
    thrown
  = if (startDate =? "")%string || (endDate =? "")%string
    then ([Alert "Please select both start and end dates"], Returned tt)
    else
      match response with
      | None =>
          ([SetIsGenerating true; Alert "Failed to generate report";
            SetIsGenerating false], Returned tt)
      | Some allReports =>
          match filterForDownload allReports startDate endDate
                  selectedClient selectedEmployee with
          | [] =>
              ([SetIsGenerating true;
                Alert "No completed reports found for the selected criteria";
                SetIsGenerating false], Returned tt)
          | r :: rest =>
              match thrown with
              | Some _ =>
                  ([SetIsGenerating true; Alert "Failed to generate report";
                    SetIsGenerating false], Returned tt)
              | None =>
                  ([SetIsGenerating true;
                    Save ("service_reports_" ++ startDate ++ "_to_" ++ endDate
                          ++ ".pdf")%string (layout (r :: rest));
                    SetIsGenerating false], Returned tt)
              end
          end
      end.
Proof.
  unfold ReportsDownload.generateReport.
  destruct ((startDate =? "")%string || (endDate =? "")%string); [reflexivity|].
  destruct response as [allReports|]; [|reflexivity].
  cbn [await bind ret].
  destruct (ReportsDownload.filterForDownload parseDate allReports startDate
              endDate selectedClient selectedEmployee); [reflexivity|].
  now destruct thrown.
Qed.

(** X6. Every run of the download handler returns normally and shows the
    user exactly one thing, an alert or a saved file.  The busy indicator
    is either left alone (dates missing) or switched on once and off once,
    in that order.  A file is saved exactly when both dates are given, the
    request succeeds, the filter keeps a report and no call of the PDF
    library throws; it then holds the layout of the kept reports under the
    name of the period.  When the request fails or the PDF library throws,
    the user is told that the generation failed and nothing is saved. *)
Theorem generateReport_outcomes startDate endDate selectedClient
  selectedEmployee response thrown :
  let run :=
    generateReport startDate endDate selectedClient selectedEmployee response
      thrown in
  snd run = Returned tt /\
  List.length (filter isOutcome (fst run)) = 1%nat /\
  (busyChanges (fst run) = [] \/ busyChanges (fst run) = [true; false]) /\
  (forall fileName doc,
     In (Save fileName doc) (fst run) <->
     startDate <> "" /\ endDate <> "" /\ thrown = None /\
     exists allReports,
       response = Some allReports
       /\ filterForDownload allReports startDate endDate
            selectedClient selectedEmployee <> []
       /\ fileName
          = ("service_reports_" ++ startDate ++ "_to_" ++ endDate ++ ".pdf")%string
       /\ doc = layout (filterForDownload allReports startDate endDate
                          selectedClient selectedEmployee)) /\
  (startDate <> "" -> endDate <> "" ->
   (response = None
    \/ exists allReports error,
         response = Some allReports /\ thrown = Some error
         /\ filterForDownload allReports startDate endDate
              selectedClient selectedEmployee <> []) ->
   fst run = [SetIsGenerating true; Alert "Failed to generate report";
              SetIsGenerating false]).
Proof.
  intros run. subst run. rewrite generateReport_cases.
  destruct (String.eqb_spec startDate "") as [Hs|Hs]; cbn [orb];
    [|destruct (String.eqb_spec endDate "") as [He|He]; cbn [orb];
      [|destruct response as [allReports|];
        [destruct (filterForDownload allReports startDate endDate
                     selectedClient selectedEmployee) as [|r rest] eqn:Hkept;
         [|destruct thrown as [error|]]|]]];
    (split; [reflexivity|]); (split; [reflexivity|]);
    (split; [first [now left | now right]|]);
    (split; [intros fileName doc; (split; [intros Hin|])|]).
  - destruct Hin as [H|[]]; discriminate.
  - intros (Hne & _). contradiction.
  - intros Hne. contradiction.
  - destruct Hin as [H|[]]; discriminate.
  - intros (_ & Hne & _). contradiction.
  - intros _ Hne. contradiction.
  - destruct Hin as [H|[H|[H|[]]]]; discriminate.
  - intros (_ & _ & _ & all & Hall & Hne & _).
    injection Hall as <-. now rewrite Hkept in Hne.
  - intros _ _ [H|(all & error & Hall & _ & Hne)]; [discriminate|].
    injection Hall as <-. now rewrite Hkept in Hne.
  - destruct Hin as [H|[H|[H|[]]]]; discriminate.
  - intros (_ & _ & Hnone & _). discriminate.
  - reflexivity.
  - destruct Hin as [H|[H|[H|[]]]]; try discriminate.
    injection H as <- <-. split; [exact Hs|]. split; [exact He|].
    split; [reflexivity|].
    exists allReports. rewrite Hkept.
    split; [reflexivity|]. split; [discriminate|]. split; reflexivity.
  - intros (_ & _ & _ & all & Hall & _ & -> & ->).
    injection Hall as <-. rewrite Hkept. right. now left.
  - intros _ _ [H|(all & error & _ & H & _)]; discriminate.
  - destruct Hin as [H|[H|[H|[]]]]; discriminate.
  - intros (_ & _ & _ & all & Hall & _). discriminate.
  - reflexivity.
Qed.

Lemma filter_idem (A : Type) (f : A -> bool) (l : list A) :
  filter f (filter f l) = filter f l.
Proof.
  induction l as [|x l IH]; cbn; [reflexivity|].
  destruct (f x) eqn:Hx; cbn; rewrite ?Hx, IH; reflexivity.
Qed.

(** X7. The filter of the download is stable: filtering its own result
    again with the same criteria changes nothing, and every report it keeps
    is one the completed view shows for the same response. *)
Theorem filterForDownload_stable allReports startDate endDate
  selectedClient selectedEmployee shown :
  filterForDownload
    (filterForDownload allReports startDate endDate
       selectedClient selectedEmployee)
    startDate endDate selectedClient selectedEmployee
  = filterForDownload allReports startDate endDate
      selectedClient selectedEmployee /\
  incl (filterForDownload allReports startDate endDate
          selectedClient selectedEmployee)
       (ServicesConcluded.fetchCompletedReports (Some allReports) shown).
Proof.
  rewrite !filterForDownload_keep. split; [apply filter_idem|].
  intros r Hr. apply filter_In in Hr as [Hin Hkeep].
  unfold ServicesConcluded.fetchCompletedReports. apply filter_In.
  split; [exact Hin|].
  unfold keepForDownload, completedInRange in Hkeep.
  destruct (status r =? "completed")%string; [reflexivity|].
  cbn in Hkeep. discriminate.
Qed.

(** X8. Widening the period never loses a report: with the other criteria
    unchanged, a report kept for a period is kept for every period that
    starts no later and ends no earlier. *)
Theorem filterForDownload_wider_period allReports startDate endDate
  startDate' endDate' selectedClient selectedEmployee
  (start end_ start' end_' : Z) :
  parseDate startDate = Some start -> parseDate endDate = Some end_ ->
  parseDate startDate' = Some start' -> parseDate endDate' = Some end_' ->
  start' <= start -> end_ <= end_' ->
  incl (filterForDownload allReports startDate endDate
          selectedClient selectedEmployee)
       (filterForDownload allReports startDate' endDate'
          selectedClient selectedEmployee).
Proof.
  intros Hs He Hs' He' Hle Hge. rewrite !filterForDownload_keep.
  intros r Hr. apply filter_In in Hr as [Hin Hkeep]. apply filter_In.
  split; [exact Hin|].
  unfold keepForDownload in *.
  apply andb_true_iff in Hkeep as [Hkeep Hemp].
  apply andb_true_iff in Hkeep as [Hrange Hcli].
  rewrite Hemp, Hcli, !andb_true_r.
  unfold completedInRange in *. rewrite Hs, He in Hrange. rewrite Hs', He'.
  destruct (negb (status r =? "completed")%string); [discriminate|].
  destruct (parseDate (or_string (completion_date r) (request_date r)))
    as [d|]; [|discriminate].
  apply andb_true_iff in Hrange as [H1 H2].
  apply Z.leb_le in H1, H2. apply andb_true_iff. split; apply Z.leb_le; lia.
Qed.

End DownloadRuns.

Lemma filterForDownload_wider_period_witness :
  incl
    (ReportsDownload.filterForDownload parseISO
       [plainReport "r1" "Smith Pool" "john" "completed" "2024-03-09T12:00Z"
          (Some "2024-03-10T09:30Z")]
       "2024-03-05" "2024-03-15" "" "")
    (ReportsDownload.filterForDownload parseISO
       [plainReport "r1" "Smith Pool" "john" "completed" "2024-03-09T12:00Z"
          (Some "2024-03-10T09:30Z")]
       "2024-03-01" "2024-03-31" "" "").
Proof.
  apply (filterForDownload_wider_period parseISO
           [plainReport "r1" "Smith Pool" "john" "completed" "2024-03-09T12:00Z"
              (Some "2024-03-10T09:30Z")]
           "2024-03-05" "2024-03-15" "2024-03-01" "2024-03-31" "" ""
           1709596800000 1710460800000 1709251200000 1711843200000);
    solve [reflexivity | lia].
Defined.

(** ** The photos of the report form *)

Section FormPhotos.
Import ReportForm.

Lemma filterIndexed_past (A : Type) index (l : list A) : forall i,
  (index < i)%nat ->
  filterIndexed (fun _ i => negb (i =? index)%nat) i l = l.
Proof.
  induction l as [|x l IH]; intros i Hi; cbn; [reflexivity|].
  destruct (Nat.eqb_spec i index) as [->|_]; [lia|]. cbn.
  now rewrite IH by lia.
Qed.

Lemma filterIndexed_drop (A : Type) index (l : list A) : forall i,
  (i <= index)%nat ->
  filterIndexed (fun _ i => negb (i =? index)%nat) i l
  = firstn (index - i) l ++ skipn (S (index - i)) l.
Proof.
  induction l as [|x l IH]; intros i Hi; cbn [filterIndexed].
  - now rewrite firstn_nil, skipn_nil.
  - destruct (Nat.eqb_spec i index) as [->|Hne]; cbn [negb].
    + rewrite Nat.sub_diag. cbn. apply filterIndexed_past. lia.
    + rewrite IH by lia.
      replace (index - i)%nat with (S (index - S i)) by lia. reflexivity.
Qed.

Lemma filterIndexed_length (A : Type) (keep : A -> nat -> bool) (l : list A) :
  forall i, (List.length (filterIndexed keep i l) <= List.length l)%nat.
Proof.
  induction l as [|x l IH]; intros i; cbn; [lia|].
  specialize (IH (S i)). destruct (keep x i); cbn; lia.
Qed.

(** X9. Removing the photo (or video) at an index drops the element at
    that position and nothing else: the elements before and after keep
    their order; an index beyond the end leaves the list as it is. *)
Theorem removePhoto_drops_one index prev :
  removePhoto index prev = firstn index prev ++ skipn (S index) prev /\
  removeVideo index prev = removePhoto index prev /\
  ((index < List.length prev)%nat ->
   S (List.length (removePhoto index prev)) = List.length prev) /\
  ((List.length prev <= index)%nat -> removePhoto index prev = prev).
Proof.
  assert (Hdrop : removePhoto index prev
                  = firstn index prev ++ skipn (S index) prev).
  { unfold removePhoto. rewrite filterIndexed_drop by lia.
    now rewrite Nat.sub_0_r. }
  split; [exact Hdrop|]. split; [reflexivity|]. split.
  - intros Hin. rewrite Hdrop, length_app, length_firstn, length_skipn. lia.
  - intros Hout. rewrite Hdrop, firstn_all2, skipn_all2 by lia.
    apply app_nil_r.
Qed.

Lemma onload_appends finished prev : onload finished prev = prev ++ finished.
Proof.
  unfold onload. revert prev.
  induction finished as [|x l IH]; intros prev; cbn; [now rewrite app_nil_r|].
  rewrite IH, <- app_assoc. reflexivity.
Qed.

Lemma photoStep_bound photos ev :
  (List.length photos <= 5)%nat -> readsFinish ev ->
  (List.length (photoStep photos ev) <= 5)%nat.
Proof.
  intros Hlen Hev. destruct ev as [files finished|index]; cbn in *.
  - unfold handlePhotoUpload.
    destruct (Nat.ltb_spec 5 (List.length photos + List.length files));
      [exact Hlen|].
    rewrite onload_appends, length_app.
    rewrite <- (Permutation_length Hev). lia.
  - pose proof (filterIndexed_length _
                  (fun (_ : string) i => negb (i =? index)%nat) photos 0).
    unfold removePhoto. lia.
Qed.

(** X10. The form never holds more than five photos: starting from at most
    five, after any sequence of choices of files (each choice refused as a
    whole when it would pass five, its reads finishing in any order before
    the next action) and removals, the list has at most five entries. *)
Theorem photos_never_exceed_five events photos :
  (List.length photos <= 5)%nat ->
  Forall readsFinish events ->
  (List.length (fold_left photoStep events photos) <= 5)%nat.
Proof.
  revert photos. induction events as [|ev events IH]; intros photos Hlen Hevs;
    cbn; [exact Hlen|].
  apply Forall_cons_iff in Hevs as [Hev Hevs].
  apply IH; [|exact Hevs]. now apply photoStep_bound.
Qed.

End FormPhotos.

Lemma photos_never_exceed_five_witness :
  (List.length
     (fold_left ReportForm.photoStep
        [ReportForm.Choose ["a"; "b"; "c"] ["b"; "a"; "c"];
         ReportForm.Choose ["d"; "e"; "f"] ["d"; "e"; "f"];
         ReportForm.Remove 0;
         ReportForm.Choose ["g"; "h"] ["h"; "g"]]
        ["p"]) <= 5)%nat.
Proof.
  apply (photos_never_exceed_five
           [ReportForm.Choose ["a"; "b"; "c"] ["b"; "a"; "c"];
            ReportForm.Choose ["d"; "e"; "f"] ["d"; "e"; "f"];
            ReportForm.Remove 0;
            ReportForm.Choose ["g"; "h"] ["h"; "g"]]
           ["p"]).
  - cbn. lia.
  - repeat constructor.
Defined.

(** ** Edits of the admin controls: what is shown and what is sent *)

Section EditSessions.
Import ServiceReports DebounceSessions.



Lemma accounted_initial fetched : accounted [] (initial fetched).
Proof. split; [intros q [] | cbn; lia]. Qed.

(** X12. What reaches the backend, in any session of edits, refetches and
    changes of the employee filter, once the timers have run out.  The
    last request of a class writes the report and the field of the last
    edit of the class, and a class without edits has sent nothing; the last
    financial request carries the value of the last financial edit,
    [parseFloat(newValue) || 0]; the last notes request carries the text of
    the last notes edit when no other list was put on screen while its
    timer was pending.  Every request writes the report and the field of
    one of the edits, a financial request with the value of that edit, and
    there are no more requests than edits. *)
Theorem debounce_final_value_sent fetched es :
  let final := quiesce (run es (initial fetched)) in
  let counted := fun v : float =>
    if PrimFloat.eqb v 0%float || PrimFloat.is_nan v then 0%float else v in
  let comesFrom := fun (e : edit) (q : request) =>
    match e with
    | EditTotalCost rid v => q = UpdateFinancialField rid "total_cost" (counted v)
    | EditPartsCost rid v => q = UpdateFinancialField rid "parts_cost" (counted v)
    | EditAdminNotes rid _ => exists s, q = UpdateAdminNotes rid s
    end in
  (forall c,
     match lastOfClass c es with
     | Some e => exists before q, flushed c final = before ++ [q] /\ comesFrom e q
     | None => flushed c final = []
     end) /\
  (forall pre t rid s post,
     es = pre ++ (t, Edit (EditAdminNotes rid s)) :: post ->
     lastOfClass Notes post = None ->
     Forall (fun te => replaces (snd te) = true -> t + 1000 <= fst te) post ->
     exists before, flushed Notes final = before ++ [UpdateAdminNotes rid s]) /\
  (forall q, In q (requests final) ->
             exists e, In e (editsOf es) /\ comesFrom e q) /\
  (List.length (requests final) <= List.length (editsOf es))%nat.
Proof.
  intros final counted comesFrom.
  pose proof (run_settled es _ _ (stable_initial fetched)
                (settled_initial fetched)) as Hlast.
  pose proof (run_accounted es _ _ (accounted_initial fetched)) as [Hfrom Hcount].
  cbn [app] in Hfrom, Hcount. unfold settled in Hlast.
  unfold final. set (w := run es (initial fetched)) in *.
  split; [|split; [|split]].
  - intros c. specialize (Hlast c). cbn beta in Hlast.
    rewrite flushed_quiesce.
    destruct (lastOfClass c es) as [e|].
    + destruct Hlast as [(tm & -> & Hq)|(-> & before & q & -> & Hq)].
      * exists (flushed c w), (send (callback tm)). split; [reflexivity|].
        now apply fromEdit_cases.
      * exists before, q. rewrite app_nil_r. split; [reflexivity|].
        now apply fromEdit_cases.
    + destruct Hlast as [-> ->]. reflexivity.
  - intros pre t rid s post -> Hnone Hlate.
    apply (notes_kept pre t rid s post (initial fetched));
      [apply stable_initial | exact Hnone | exact Hlate].
  - intros q Hq. destruct (Hfrom q Hq) as (e & He & Hcomes).
    exists e. split; [exact He | now apply fromEdit_cases].
  - cbn [quiesce requests]. rewrite length_app, length_map. exact Hcount.
Qed.

(** X23. The notes callback reads the notes area when its timer fires,
    not when the key was pressed: when the answer of a refetch puts the
    list of the server on screen while the timer of the notes is pending,
    and the card of the report is still there, the request that follows
    carries the notes of the server (the empty text when it has none) in
    place of the text typed. *)
Theorem notes_read_when_timer_fires t data w n h d rid target r :
  fetching w = S n ->
  pendingOf Notes w
  = [{| tid := h; due := d; callback := NotesCallback rid target |}] ->
  attached target = true ->
  find (fun r' => (id r' =? rid)%string)
    (filterReports (fetchReports (Some data) (reports w)) (selectedUserFilter w))
  = Some r ->
  flushed Notes (quiesce (handle t (Answer (Some data)) w))
  = flushed Notes w
    ++ [UpdateAdminNotes rid
          match admin_notes r with Some notes => notes | None => "" end].
Proof.
  intros Hfetch Hpending Hattached Hfind.
  rewrite flushed_quiesce. cbn [handle]. rewrite Hfetch.
  unfold filterReportsEffect. rewrite pendingOf_setFilteredReports.
  change (pendingOf Notes (setReports _ (set_fetching n w)))
    with (pendingOf Notes w).
  rewrite Hpending. cbn [map renderTimer callback renderCallback send].
  unfold render. rewrite Hattached.
  cbn [reports selectedUserFilter setReports set_fetching].
  rewrite Hfind. cbn [shownText]. do 3 f_equal.
  destruct (admin_notes r) as [notes|]; [apply or_string_some | reflexivity].
Qed.

End EditSessions.

(** The estimate is saved while the administrator is still typing the
    notes; the answer of the refetch arrives 50 ms before the timer of the
    notes fires and the request goes out with the notes the server had. *)
Lemma notes_read_when_timer_fires_witness :
  ServiceReports.requests
    (ServiceReports.quiesce
       (ServiceReports.run
          (typing ++ [(400, ServiceReports.Edit
                              (ServiceReports.EditAdminNotes "r1" "cal"));
                      (1350, ServiceReports.Answer (Some estimateSaved))])
          (ServiceReports.initial twoCards)))
  = [ServiceReports.UpdateFinancialField "r1" "total_cost" 120%float;
     ServiceReports.UpdateAdminNotes "r1" "old note"] /\
  ServiceReports.flushed ServiceReports.Notes
    (ServiceReports.quiesce
       (ServiceReports.handle 1350 (ServiceReports.Answer (Some estimateSaved))
          (ServiceReports.elapse 1350
             (ServiceReports.run
                (typing ++ [(400, ServiceReports.Edit
                                    (ServiceReports.EditAdminNotes "r1" "cal"))])
                (ServiceReports.initial twoCards)))))
  = [ServiceReports.UpdateAdminNotes "r1" "old note"].
Proof.
  split; [reflexivity|].
  apply (notes_read_when_timer_fires 1350 estimateSaved
           (ServiceReports.elapse 1350
              (ServiceReports.run
                 (typing ++ [(400, ServiceReports.Edit
                                     (ServiceReports.EditAdminNotes "r1" "cal"))])
                 (ServiceReports.initial twoCards)))
           0%nat 4%nat 1400 "r1"
           {| ServiceReports.shownText := "cal"; ServiceReports.attached := true |}
           (ServiceReports.with_total_cost 120%float
              (ServiceReports.with_admin_notes "old note"
                 (plainReport "r1" "Ana" "e1" "reported" "2024-03-08T12:00:00Z"
                    None))));
    reflexivity.
Defined.

(** ** The flag in terms of the age of a report *)

Section FlagAge.
Import ServiceReports.

Variable parseDate : string -> option Z.

Lemma getReportFlag_by_age now r d :
  parseDate (request_date r) = Some d ->
  getReportFlag parseDate now r
  = if now - d <=? msPerDay then Some Green else Some Red.
Proof.
  intros Hd. unfold getReportFlag. rewrite (diffDays_valid parseDate now r d Hd).
  assert (Hday : 0 < msPerDay) by reflexivity.
  pose proof (ceil_div_le (now - d) msPerDay 1 Hday) as Hle.
  rewrite Z.mul_1_l in Hle.
  destruct (Z.leb_spec (ceil_div (now - d) msPerDay) 1) as [H1|H1],
           (Z.leb_spec (now - d) msPerDay) as [H2|H2];
    try reflexivity; try (exfalso; lia).
  destruct (Z.leb_spec 2 (ceil_div (now - d) msPerDay)); [reflexivity | lia].
Qed.

(** X13. The flag only depends on the age of the report in milliseconds:
    it is red exactly when the request is more than 24 hours old and green
    exactly when it is at most 24 hours old (requests dated in the future
    included).  A report that is red stays red at every later time. *)
Theorem flag_red_iff_older_than_a_day now r :
  (getReportFlag parseDate now r = Some Red <->
   exists d, parseDate (request_date r) = Some d /\ msPerDay < now - d) /\
  (getReportFlag parseDate now r = Some Green <->
   exists d, parseDate (request_date r) = Some d /\ now - d <= msPerDay) /\
  (forall later, now <= later ->
     getReportFlag parseDate now r = Some Red ->
     getReportFlag parseDate later r = Some Red).
Proof.
  destruct (parseDate (request_date r)) as [d|] eqn:Hd.
  - pose proof (fun t => getReportFlag_by_age t r d Hd) as Hage.
    split; [|split].
    + rewrite Hage. destruct (Z.leb_spec (now - d) msPerDay); split.
      * discriminate.
      * intros (d' & Hd' & Hlt). injection Hd' as <-. lia.
      * intros _. now exists d.
      * reflexivity.
    + rewrite Hage. destruct (Z.leb_spec (now - d) msPerDay); split.
      * intros _. now exists d.
      * reflexivity.
      * discriminate.
      * intros (d' & Hd' & Hle). injection Hd' as <-. lia.
    + intros later Hlater. rewrite !Hage.
      destruct (Z.leb_spec (now - d) msPerDay); [discriminate|].
      destruct (Z.leb_spec (later - d) msPerDay); [lia | reflexivity].
  - assert (Hnone : forall t, getReportFlag parseDate t r = None).
    { intros t. unfold getReportFlag.
      now rewrite (diffDays_invalid parseDate t r Hd). }
    split; [|split].
    + rewrite Hnone. split; [discriminate | now intros (d & Hd' & _)].
    + rewrite Hnone. split; [discriminate | now intros (d & Hd' & _)].
    + intros later _. rewrite Hnone. discriminate.
Qed.

End FlagAge.

(** ** The period line of the active view *)

Section Period.
Import ReportForm.

Variable parseDate : string -> option Z.
Variables toDateString formatLATime : option Z -> string.

Lemma min2_swap a b c : min2 a (min2 b c) = min2 b (min2 a c).
Proof.
  destruct a, b, c; cbn; try reflexivity; f_equal; lia.
Qed.

Lemma max2_swap a b c : max2 a (max2 b c) = max2 b (max2 a c).
Proof.
  destruct a, b, c; cbn; try reflexivity; f_equal; lia.
Qed.

Lemma mathMin_permutation l l' : Permutation l l' -> mathMin l = mathMin l'.
Proof.
  unfold mathMin. induction 1; cbn; try congruence. apply min2_swap.
Qed.

Lemma mathMax_permutation l l' : Permutation l l' -> mathMax l = mathMax l'.
Proof.
  unfold mathMax. induction 1; cbn; try congruence. apply max2_swap.
Qed.

Lemma mathMin_bounds l :
  Forall (fun d => d <> None) l -> l <> [] ->
  exists m, mathMin l = Finite m /\ In (Some m) l
            /\ Forall (fun d => match d with Some z => m <= z | None => False end) l.
Proof.
  induction l as [|d l IH]; intros Hvalid Hne; [now elim Hne|].
  apply Forall_cons_iff in Hvalid as [Hd Hvalid].
  destruct d as [z|]; [|now elim Hd]. clear Hd Hne.
  destruct l as [|d' l'].
  - exists z. cbn. repeat split; [now left|]. constructor; [lia|constructor].
  - destruct (IH Hvalid ltac:(discriminate)) as (m & Hm & Hin & Hall).
    change (mathMin (Some z :: d' :: l'))
      with (min2 (Finite z) (mathMin (d' :: l'))).
    rewrite Hm. cbn [min2]. exists (Z.min z m). split; [reflexivity|].
    destruct (Z.min_spec z m) as [[Hlt ->]|[Hge ->]].
    + split; [now left|]. constructor; [lia|].
      eapply Forall_impl; [|exact Hall]. intros [x|]; [lia | easy].
    + split; [now right|]. constructor; [lia|exact Hall].
Qed.

Lemma mathMax_bounds l :
  Forall (fun d => d <> None) l -> l <> [] ->
  exists m, mathMax l = Finite m /\ In (Some m) l
            /\ Forall (fun d => match d with Some z => z <= m | None => False end) l.
Proof.
  induction l as [|d l IH]; intros Hvalid Hne; [now elim Hne|].
  apply Forall_cons_iff in Hvalid as [Hd Hvalid].
  destruct d as [z|]; [|now elim Hd]. clear Hd Hne.
  destruct l as [|d' l'].
  - exists z. cbn. repeat split; [now left|]. constructor; [lia|constructor].
  - destruct (IH Hvalid ltac:(discriminate)) as (m & Hm & Hin & Hall).
    change (mathMax (Some z :: d' :: l'))
      with (max2 (Finite z) (mathMax (d' :: l'))).
    rewrite Hm. cbn [max2]. exists (Z.max z m). split; [reflexivity|].
    destruct (Z.max_spec z m) as [[Hlt ->]|[Hge ->]].
    + split; [now right|]. constructor; [lia|exact Hall].
    + split; [now left|]. constructor; [lia|].
      eapply Forall_impl; [|exact Hall]. intros [x|]; [lia | easy].
Qed.

Lemma mathMin_invalid l : In None l -> mathMin l = NaN.
Proof.
  unfold mathMin. induction l as [|d l IH]; intros Hin; [easy|].
  destruct Hin as [->|Hin]; [reflexivity|].
  cbn [fold_right]. rewrite (IH Hin). now destruct (valueOf d).
Qed.

Lemma mathMax_invalid l : In None l -> mathMax l = NaN.
Proof.
  unfold mathMax. induction l as [|d l IH]; intros Hin; [easy|].
  destruct Hin as [->|Hin]; [reflexivity|].
  cbn [fold_right]. rewrite (IH Hin). now destruct (valueOf d).
Qed.

(** X14. The period line does not depend on the order of the reports
    shown, and an empty list gives [No reports].  When every request date
    of a list that is not empty is valid, the line is made of the earliest
    and the latest request date of the list: the earliest one alone when
    both fall on the same day, the two joined by a dash otherwise.  When
    some request date is invalid the line is what [formatLATime] makes of
    an invalid date. *)
Theorem getReportPeriod_order_independent reports reports' :
  Permutation reports reports' ->
  getReportPeriod parseDate toDateString formatLATime reports
  = getReportPeriod parseDate toDateString formatLATime reports' /\
  getReportPeriod parseDate toDateString formatLATime [] = "No reports" /\
  (reports <> [] ->
   Forall (fun r => parseDate (request_date r) <> None) reports ->
   exists first last,
     (exists r, In r reports /\ parseDate (request_date r) = Some first)
     /\ (exists r, In r reports /\ parseDate (request_date r) = Some last)
     /\ (forall r d, In r reports -> parseDate (request_date r) = Some d ->
                     first <= d <= last)
     /\ getReportPeriod parseDate toDateString formatLATime reports
        = if (toDateString (Some first) =? toDateString (Some last))%string
          then formatLATime (Some first)
          else (formatLATime (Some first) ++ " - "
                ++ formatLATime (Some last))%string) /\
  (forall r, In r reports -> parseDate (request_date r) = None ->
     getReportPeriod parseDate toDateString formatLATime reports
     = formatLATime None).
Proof.
  intros Hperm. split; [|split; [reflexivity|split]].
  - unfold getReportPeriod.
    rewrite (Permutation_length Hperm).
    pose proof (Permutation_map (fun r => parseDate (request_date r)) Hperm)
      as Hdates.
    now rewrite (mathMin_permutation _ _ Hdates),
                (mathMax_permutation _ _ Hdates).
  - intros Hne Hvalid.
    assert (Hdates : map (fun r => parseDate (request_date r)) reports <> [])
      by (destruct reports; [now elim Hne | discriminate]).
    destruct (mathMin_bounds (map (fun r => parseDate (request_date r)) reports))
      as (lo & Hlo & Hinlo & Halllo); [now apply Forall_map | exact Hdates |].
    destruct (mathMax_bounds (map (fun r => parseDate (request_date r)) reports))
      as (hi & Hhi & Hinhi & Hallhi); [now apply Forall_map | exact Hdates |].
    exists lo, hi. split; [|split; [|split]].
    + apply in_map_iff in Hinlo as (r & Hr & Hin). now exists r.
    + apply in_map_iff in Hinhi as (r & Hr & Hin). now exists r.
    + intros r d Hr Hd. rewrite Forall_map, Forall_forall in Halllo, Hallhi.
      specialize (Halllo r Hr). specialize (Hallhi r Hr). cbn in Halllo, Hallhi.
      rewrite Hd in Halllo, Hallhi. lia.
    + unfold getReportPeriod. rewrite Hlo, Hhi. cbn [newDate].
      destruct reports; [now elim Hne | reflexivity].
  - intros r Hin Hinvalid. unfold getReportPeriod.
    assert (Hnone : In None (map (fun r => parseDate (request_date r)) reports)).
    { apply in_map_iff. now exists r. }
    rewrite (mathMin_invalid _ Hnone), (mathMax_invalid _ Hnone). cbn [newDate].
    rewrite String.eqb_refl.
    destruct reports; [easy | reflexivity].
Qed.

End Period.

(** Two reports requested on 2024-03-08 and 2024-03-09, with formatters
    that know these two days: in either order the line is the range from
    the first day to the second. *)
Lemma getReportPeriod_order_independent_witness :
  ReportForm.getReportPeriod parseISO
    (fun d => match d with
              | Some z => if z <? 1709942400000 then "Fri Mar 08 2024"
                          else "Sat Mar 09 2024"
              | None => "Invalid Date"
              end)
    (fun d => match d with
              | Some z => if z <? 1709942400000 then "03/08/2024"
                          else "03/09/2024"
              | None => "Invalid date"
              end)
    [plainReport "r1" "Smith Pool" "john" "reported" "2024-03-09T12:00Z" None;
     plainReport "r2" "Smith Pool" "john" "reported" "2024-03-08T12:00Z" None]
  = ReportForm.getReportPeriod parseISO
      (fun d => match d with
                | Some z => if z <? 1709942400000 then "Fri Mar 08 2024"
                            else "Sat Mar 09 2024"
                | None => "Invalid Date"
                end)
      (fun d => match d with
                | Some z => if z <? 1709942400000 then "03/08/2024"
                            else "03/09/2024"
                | None => "Invalid date"
                end)
      [plainReport "r2" "Smith Pool" "john" "reported" "2024-03-08T12:00Z" None;
       plainReport "r1" "Smith Pool" "john" "reported" "2024-03-09T12:00Z" None]
  /\ ReportForm.getReportPeriod parseISO
       (fun d => match d with
                 | Some z => if z <? 1709942400000 then "Fri Mar 08 2024"
                             else "Sat Mar 09 2024"
                 | None => "Invalid Date"
                 end)
       (fun d => match d with
                 | Some z => if z <? 1709942400000 then "03/08/2024"
                             else "03/09/2024"
                 | None => "Invalid date"
                 end)
       [plainReport "r1" "Smith Pool" "john" "reported" "2024-03-09T12:00Z" None;
        plainReport "r2" "Smith Pool" "john" "reported" "2024-03-08T12:00Z" None]
     = "03/08/2024 - 03/09/2024".
Proof.
  split; [|reflexivity].
  apply (getReportPeriod_order_independent parseISO
           (fun d => match d with
                     | Some z => if z <? 1709942400000 then "Fri Mar 08 2024"
                                 else "Sat Mar 09 2024"
                     | None => "Invalid Date"
                     end)
           (fun d => match d with
                     | Some z => if z <? 1709942400000 then "03/08/2024"
                                 else "03/09/2024"
                     | None => "Invalid date"
                     end)
           [plainReport "r1" "Smith Pool" "john" "reported" "2024-03-09T12:00Z" None;
            plainReport "r2" "Smith Pool" "john" "reported" "2024-03-08T12:00Z" None]).
  apply perm_swap.
Defined.

(** ** The body of the update request of the edit form *)

Section UpdateRequest.
Import ReportForm.

Variable parseFloat : string -> float.

(** X15. What the edit form sends.  Its properties are pairwise distinct.
    Unless the user is an admin it sends the description, the priority, the
    photos and the employee notes and nothing else: no admin notes and no
    amounts.  A gross profit is sent exactly when an admin has filled in
    both costs, and it is then the difference of the two costs sent with
    it. *)
Theorem updateData_fields (role : option string)
  (description priority : string) (photos : list string)
  (employeeNotes adminNotes totalCost partsCost : string) :
  let data :=
    updateData parseFloat role description priority photos
      employeeNotes adminNotes totalCost partsCost in
  NoDup (map fst data) /\
  (role <> Some "admin" ->
   map fst data = ["description"; "priority"; "photos"; "employee_notes"]) /\
  (property "gross_profit" data <> None <->
   role = Some "admin" /\ totalCost <> "" /\ partsCost <> "") /\
  (forall g, property "gross_profit" data = Some g ->
     exists total parts,
       property "total_cost" data = Some (VNumber total)
       /\ property "parts_cost" data = Some (VNumber parts)
       /\ g = VNumber (PrimFloat.sub total parts)).
Proof.
  intros data. subst data. unfold updateData.
  assert (Hrole : (exists r, role = Some r /\ r <> "admin") \/ role = None
                  \/ role = Some "admin").
  { destruct role as [r|]; [|now right; left].
    destruct (String.eqb_spec r "admin") as [->|Hr];
      [now right; right | left; now exists r]. }
  destruct Hrole as [(r & -> & Hr)|[->| ->]].
  - apply String.eqb_neq in Hr. rewrite Hr. cbn.
    split; [repeat constructor; cbn; intuition discriminate|].
    split; [reflexivity|]. split; [|discriminate].
    split; [now intros H | intros (H & _)].
    injection H as ->. now rewrite String.eqb_refl in Hr.
  - cbn. split; [repeat constructor; cbn; intuition discriminate|].
    split; [reflexivity|]. split; [|discriminate].
    split; [now intros H | now intros (H & _)].
  - cbn [String.eqb Ascii.eqb Bool.eqb].
    destruct (String.eqb_spec totalCost "") as [Ht|Ht],
             (String.eqb_spec partsCost "") as [Hp|Hp]; cbn.
    + split; [repeat constructor; cbn; intuition discriminate|].
      split; [now intros H|]. split; [|discriminate].
      split; [now intros H | now intros (_ & H & _)].
    + split; [repeat constructor; cbn; intuition discriminate|].
      split; [now intros H|]. split; [|discriminate].
      split; [now intros H | now intros (_ & H & _)].
    + split; [repeat constructor; cbn; intuition discriminate|].
      split; [now intros H|]. split; [|discriminate].
      split; [now intros H | now intros (_ & _ & H)].
    + split; [repeat constructor; cbn; intuition discriminate|].
      split; [now intros H|]. split; [split; [now intros _ | discriminate]|].
      intros g Hg. injection Hg as <-.
      now exists (parseFloat totalCost), (parseFloat partsCost).
Qed.

End UpdateRequest.

(** ** The session and the screens *)

Section Sessions.
Import Account.

Lemma step_consistent s ev :
  (stored s = token s /\
   forall h, authorization s = Some h ->
             exists t, token s = Some t /\ h = ("Bearer " ++ t)%string) ->
  stored (step s ev) = token (step s ev) /\
  forall h, authorization (step s ev) = Some h ->
            exists t, token (step s ev) = Some t /\ h = ("Bearer " ++ t)%string.
Proof.
  intros [Hstored Hheader].
  destruct ev as [|[userData|]|[[access_token userData]|]|]; cbn.
  - destruct (truthy_string (token s)) eqn:Htruthy; cbn; [|now split].
    split; [exact Hstored|]. intros h Hh. injection Hh as <-.
    destruct (token s) as [t|]; [|discriminate]. exists t.
    split; [reflexivity|]. cbn in *.
    now destruct (t =? "")%string.
  - now split.
  - split; [reflexivity | discriminate].
  - split; [reflexivity|]. intros h Hh. injection Hh as <-.
    now exists access_token.
  - now split.
  - split; [reflexivity | discriminate].
Qed.

(** X16. Whatever happens to the session (effects on the token, answers of
    the server, logins that succeed or fail, logouts, in any order), the
    token kept in [localStorage] is the token of the provider, and the
    [Authorization] header, when there is one, carries that very token;
    in particular there is no header without a stored token. *)
Theorem session_token_consistent storedToken events :
  stored (fold_left step events (mount storedToken))
  = token (fold_left step events (mount storedToken)) /\
  (forall h,
     authorization (fold_left step events (mount storedToken)) = Some h ->
     exists t,
       stored (fold_left step events (mount storedToken)) = Some t
       /\ h = ("Bearer " ++ t)%string).
Proof.
  assert (Hall : forall evs s,
    (stored s = token s /\
     forall h, authorization s = Some h ->
               exists t, token s = Some t /\ h = ("Bearer " ++ t)%string) ->
    stored (fold_left step evs s) = token (fold_left step evs s) /\
    forall h, authorization (fold_left step evs s) = Some h ->
              exists t, token (fold_left step evs s) = Some t
                        /\ h = ("Bearer " ++ t)%string).
  { induction evs as [|ev evs IH]; intros s Hs; cbn; [exact Hs|].
    apply IH. now apply step_consistent. }
  destruct (Hall events (mount storedToken)) as [Hstored Hheader].
  { split; [reflexivity | discriminate]. }
  split; [exact Hstored|]. intros h Hh. rewrite Hstored. now apply Hheader.
Qed.

(** X17. One screen at a time, and the admin screens only for admins: for
    every value of the active tab at most one component is rendered; a user
    who is not an admin gets the reported services, the completed services
    or nothing; without a user the login form is shown. *)
Theorem screens_by_role (u : option user) (activeTab : string) :
  (List.length (app u activeTab) <= 1)%nat /\
  (isAdmin u = false ->
   forall sc, In sc (app u activeTab) ->
     sc = LoginScreen \/ sc = ServiceReportsTab \/ sc = ServicesConcludedTab) /\
  (u = None -> app u activeTab = [LoginScreen]) /\
  (isAdmin u = true ->
   Forall (fun tab => List.length (app u tab) = 1%nat)
     ["reports"; "completed"; "clients"; "users"; "calendar";
      "reports-download"]).
Proof.
  assert (Hdash : (List.length (dashboard u activeTab) <= 1)%nat /\
    (isAdmin u = false ->
     forall sc, In sc (dashboard u activeTab) ->
       sc = ServiceReportsTab \/ sc = ServicesConcludedTab)).
  { unfold dashboard. destruct (isAdmin u);
      repeat match goal with
      | |- context [(activeTab =? ?s)%string] =>
          destruct (String.eqb_spec activeTab s) as [->|?]; cbn
      end;
      (split; [lia|]); intros H sc Hin; try discriminate;
      cbn in Hin; intuition congruence. }
  destruct Hdash as [Hone Hplain].
  split; [|split; [|split]].
  - destruct u; [exact Hone | cbn; lia].
  - intros Hno sc Hin. destruct u as [usr|]; cbn in Hin.
    + destruct (Hplain Hno sc Hin); tauto.
    + destruct Hin as [<-|[]]. now left.
  - now intros ->.
  - intros Hadmin. destruct u as [usr|]; [|discriminate].
    unfold app, dashboard. rewrite Hadmin. repeat constructor.
Qed.

End Sessions.

(** ** The clients view *)

Section Clients.
Import ClientsManagement.

(** X18. The employee filter of the clients view.  For an employee id
    other than the empty text and [unassigned], the view shows exactly the
    clients assigned to that employee, as many as the counter next to the
    employee's name says.  The [unassigned] view shows exactly the clients
    without an employee, so no client is in both; with no filter all
    clients are shown. *)
Theorem client_views (clients : list client) (employeeId : string) :
  employeeId <> "" -> employeeId <> "unassigned" ->
  List.length (filteredClients clients employeeId)
  = getEmployeeClientCount clients employeeId /\
  (forall c, In c (filteredClients clients employeeId) <->
             In c clients /\ employee_id c = Some employeeId) /\
  (forall c, In c (filteredClients clients "unassigned") <->
             In c clients
             /\ (employee_id c = None \/ employee_id c = Some "")) /\
  (forall c, ~ (In c (filteredClients clients employeeId)
                /\ In c (filteredClients clients "unassigned"))) /\
  filteredClients clients "" = clients.
Proof.
  intros Hne Hun.
  assert (Hview : filteredClients clients employeeId
                  = filter (assignedTo employeeId) clients).
  { unfold filteredClients.
    apply String.eqb_neq in Hne, Hun. now rewrite Hne, Hun. }
  assert (Hassigned : forall c,
    In c (filteredClients clients employeeId) <->
    In c clients /\ employee_id c = Some employeeId).
  { intros c. rewrite Hview, filter_In. unfold assignedTo.
    destruct (employee_id c) as [e|].
    - rewrite String.eqb_eq. split; intros [? H]; split; congruence.
    - split; intros [? H]; discriminate. }
  assert (Hnone : forall c,
    In c (filteredClients clients "unassigned") <->
    In c clients /\ (employee_id c = None \/ employee_id c = Some "")).
  { intros c. unfold filteredClients. cbn [String.eqb Ascii.eqb Bool.eqb].
    rewrite filter_In. unfold truthy_string.
    destruct (employee_id c) as [e|].
    - destruct (String.eqb_spec e "") as [->|He]; cbn.
      + split; intros [? _]; split; auto.
      + split; intros [? H]; [discriminate|].
        destruct H as [H|H]; [discriminate | congruence].
    - cbn. split; intros [? _]; split; auto. }
  split; [now rewrite Hview|]. split; [exact Hassigned|].
  split; [exact Hnone|]. split; [|reflexivity].
  intros c [Ha Hu]. apply Hassigned in Ha as [_ Ha].
  apply Hnone in Hu as [_ [Hu|Hu]]; congruence.
Qed.

End Clients.

(** ** The form of a new client *)

Section ClientForm.
Import ClientsManagement.

(** [String.prototype.trim] and [String.prototype.toLowerCase] of the
    host. *)
Variables (trim toLowerCase : string -> string).

#[local] Abbreviation handleCreateClient :=
  (handleCreateClient trim toLowerCase).
#[local] Abbreviation duplicateOf := (duplicateOf trim toLowerCase).

Lemma duplicateOf_spec (clients : list client) (n : newClient) :
  match duplicateOf clients n with
  | Some existing =>
      In existing clients
      /\ trim (toLowerCase (name existing)) = trim (toLowerCase (new_name n))
  | None =>
      forall c, In c clients ->
        trim (toLowerCase (name c)) <> trim (toLowerCase (new_name n))
  end.
Proof.
  unfold ClientsManagement.duplicateOf.
  destruct (find _ clients) as [existing|] eqn:Hfind.
  - apply find_some in Hfind as [Hin Hsame]. split; [exact Hin|].
    now apply String.eqb_eq.
  - intros c Hin. apply String.eqb_neq.
    exact (find_none _ _ Hfind c Hin).
Qed.

(** X19. What [handleCreateClient] does with the form.  When the name or
    the address is blank after trimming it only alerts.  Otherwise at most
    one request is sent; it carries the trimmed name and address, neither
    of them empty, and the employee id of the form, [null] in place of the
    empty one.  A confirmation is asked exactly when some client has the
    same name (both put in lower case and trimmed), it names such a client,
    and then the request is only sent after the user has confirmed.
    Whenever the busy flag is raised the handler lowers it last of all, and
    success is only announced after an accepted request. *)
Theorem handleCreateClient_requests (clients : list client) (n : newClient)
  (proceed accepted : bool) :
  let tr := handleCreateClient clients n proceed accepted in
  let sameName := fun c : client =>
    trim (toLowerCase (name c)) = trim (toLowerCase (new_name n)) in
  (trim (new_name n) = "" \/ trim (new_address n) = "" ->
   tr = [Alert "Please fill in both name and address"]) /\
  (List.length (filter isPost tr) <= 1)%nat /\
  (forall posted address e, In (Post posted address e) tr ->
     posted = trim (new_name n) /\ address = trim (new_address n)
     /\ posted <> "" /\ address <> ""
     /\ (new_employee_id n = "" -> e = None)
     /\ (new_employee_id n <> "" -> e = Some (new_employee_id n))
     /\ ((exists c, In c clients /\ sameName c) -> proceed = true)) /\
  (forall c, In (Confirm c) tr -> In c clients /\ sameName c) /\
  (trim (new_name n) <> "" -> trim (new_address n) <> "" ->
   (exists c, In c clients /\ sameName c) -> exists c, In (Confirm c) tr) /\
  (In (SetIsCreating true) tr -> last tr (Alert "") = SetIsCreating false) /\
  (In (Alert "Client created successfully!") tr ->
   accepted = true
   /\ exists e, In (Post (trim (new_name n)) (trim (new_address n)) e) tr).
Proof.
  intros tr sameName. subst tr sameName.
  pose proof (duplicateOf_spec clients n) as Hdup.
  unfold ClientsManagement.handleCreateClient.
  destruct (String.eqb_spec (trim (new_name n)) "") as [Hn|Hn]; cbn [orb].
  { split; [reflexivity|]. split; [cbn; lia|].
    split; [intros ? ? ? [H|[]]; discriminate|].
    split; [intros ? [H|[]]; discriminate|].
    split; [intros H; now elim H|].
    split; intros [H|[]]; discriminate. }
  destruct (String.eqb_spec (trim (new_address n)) "") as [Ha|Ha].
  { split; [reflexivity|]. split; [cbn; lia|].
    split; [intros ? ? ? [H|[]]; discriminate|].
    split; [intros ? [H|[]]; discriminate|].
    split; [intros _ H; now elim H|].
    split; intros [H|[]]; discriminate. }
  split; [intros [H|H]; contradiction|].
  set (e0 := if (new_employee_id n =? "")%string then None
             else Some (new_employee_id n)) in *.
  assert (Hpost : forall posted address e,
    Post (trim (new_name n)) (trim (new_address n)) e0 = Post posted address e ->
    posted = trim (new_name n) /\ address = trim (new_address n)
    /\ posted <> "" /\ address <> ""
    /\ (new_employee_id n = "" -> e = None)
    /\ (new_employee_id n <> "" -> e = Some (new_employee_id n))).
  { intros posted address e H. injection H as <- <- <-. subst e0.
    destruct (String.eqb_spec (new_employee_id n) "") as [He|He];
      repeat split; try assumption; try reflexivity; intros; congruence. }
  destruct (ClientsManagement.duplicateOf trim toLowerCase clients n)
    as [existing|]; destruct proceed, accepted;
    cbn [filter isPost List.length last];
    (split; [lia|]);
    (split;
     [intros posted address e Hin; cbn in Hin;
      repeat (destruct Hin as [Hin|Hin]; try discriminate Hin);
      try contradiction;
      destruct (Hpost posted address e Hin) as (?&?&?&?&?&?);
      repeat (split; [assumption|]);
      first [intros _; reflexivity
            | intros (c & Hc & Hsame); now elim (Hdup c Hc)]|]);
    (split;
     [intros c Hin; cbn in Hin;
      repeat (destruct Hin as [Hin|Hin]; try discriminate Hin);
      try contradiction; injection Hin as <-; exact Hdup|]);
    (split;
     [intros _ _ (c & Hc & Hsame);
      first [exists existing; cbn; tauto | now elim (Hdup c Hc)]|]);
    (split; [intros _; reflexivity|]);
    intros Hin; cbn in Hin;
    repeat (destruct Hin as [Hin|Hin]; try discriminate Hin);
    try contradiction;
    (split; [reflexivity|]); exists e0; cbn; tauto.
Qed.

End ClientForm.


Lemma client_views_witness :
  List.length
    (ClientsManagement.filteredClients
       [{| ClientsManagement.id := "c1"; ClientsManagement.name := "Smith Pool";
           ClientsManagement.address := "1 Main St";
           ClientsManagement.employee_id := Some "e1" |};
        {| ClientsManagement.id := "c2"; ClientsManagement.name := "Lee Pool";
           ClientsManagement.address := "2 Main St";
           ClientsManagement.employee_id := None |}] "e1")
  = ClientsManagement.getEmployeeClientCount
      [{| ClientsManagement.id := "c1"; ClientsManagement.name := "Smith Pool";
          ClientsManagement.address := "1 Main St";
          ClientsManagement.employee_id := Some "e1" |};
       {| ClientsManagement.id := "c2"; ClientsManagement.name := "Lee Pool";
          ClientsManagement.address := "2 Main St";
          ClientsManagement.employee_id := None |}] "e1".
Proof.
  apply (client_views
           [{| ClientsManagement.id := "c1"; ClientsManagement.name := "Smith Pool";
               ClientsManagement.address := "1 Main St";
               ClientsManagement.employee_id := Some "e1" |};
            {| ClientsManagement.id := "c2"; ClientsManagement.name := "Lee Pool";
               ClientsManagement.address := "2 Main St";
               ClientsManagement.employee_id := None |}] "e1");
    discriminate.
Defined.

(** ** The profit calendar *)

Section CalendarCells.
Import Calendar.

Variable fullYear : string -> option Z.
Variable monthAndDay : string -> option (nat * nat).

#[local] Abbreviation record := (record monthAndDay).
#[local] Abbreviation fetchYearlyData := (fetchYearlyData fullYear monthAndDay).
#[local] Abbreviation landsOn := (landsOn fullYear monthAndDay).

Lemma nth_error_updateAt (A : Type) (f : A -> A) (l : list A) : forall i j,
  nth_error (updateAt i f l) j
  = if (i =? j)%nat then option_map f (nth_error l j) else nth_error l j.
Proof.
  induction l as [|x l IH]; intros i j.
  - destruct i, j; cbn; try reflexivity; now destruct (_ =? _)%nat.
  - destruct i as [|i], j as [|j]; cbn; try reflexivity. apply IH.
Qed.

Lemma length_updateAt (A : Type) (f : A -> A) (l : list A) : forall i,
  List.length (updateAt i f l) = List.length l.
Proof.
  induction l as [|x l IH]; intros [|i]; cbn; try reflexivity. now rewrite IH.
Qed.

Lemma cell_addProfit t month' day' profit month day :
  cell (addProfit t month' day' profit) month day
  = if (month' =? month)%nat && (day' =? day)%nat
    then option_map (fun x => PrimFloat.add x profit) (cell t month day)
    else cell t month day.
Proof.
  unfold addProfit.
  destruct (cell t month' day') as [x|] eqn:Hcell.
  - unfold cell in *. rewrite nth_error_updateAt.
    destruct (Nat.eqb_spec month' month) as [->|Hm]; cbn [andb]; [|reflexivity].
    destruct (nth_error t month) as [row|]; [|discriminate]. cbn [option_map].
    destruct (Nat.eqb_spec day' 0) as [->|Hd']; [discriminate|].
    destruct (Nat.eqb_spec day 0) as [->|Hd].
    + now destruct (Nat.eqb_spec day' 0).
    + rewrite nth_error_updateAt.
      destruct (Nat.eqb_spec (day' - 1) (day - 1)) as [He|He],
               (Nat.eqb_spec day' day) as [He'|He'];
        try reflexivity; exfalso; lia.
  - destruct (Nat.eqb_spec month' month) as [->|Hm]; cbn [andb]; [|reflexivity].
    destruct (Nat.eqb_spec day' day) as [->|Hd]; [|reflexivity].
    now rewrite Hcell.
Qed.

Lemma shape_addProfit t month day profit :
  map (@List.length float) (addProfit t month day profit)
  = map (@List.length float) t.
Proof.
  unfold addProfit. destruct (cell t month day); [|reflexivity].
  revert month. induction t as [|row t IH]; intros [|month]; cbn;
    try reflexivity.
  - now rewrite length_updateAt.
  - now rewrite IH.
Qed.

Lemma shape_record t en :
  map (@List.length float) (record t en) = map (@List.length float) t.
Proof.
  unfold Calendar.record. destruct (hasAmounts en); [|reflexivity].
  destruct (monthAndDay _) as [[m d]|]; [apply shape_addProfit | reflexivity].
Qed.

Lemma cell_shape t t' :
  map (@List.length float) t = map (@List.length float) t' ->
  forall month day, cell t month day <> None <-> cell t' month day <> None.
Proof.
  intros Hshape month day.
  assert (Hrow : forall (a b : table),
    map (@List.length float) a = map (@List.length float) b ->
    cell a month day <> None -> cell b month day <> None).
  { clear. intros a b Hshape. unfold cell.
    assert (Hlen : option_map (@List.length float) (nth_error a month)
                   = option_map (@List.length float) (nth_error b month)).
    { now rewrite <- !nth_error_map, Hshape. }
    destruct (nth_error a month) as [ra|], (nth_error b month) as [rb|];
      try discriminate; try easy.
    injection Hlen as Hlen. destruct (day =? 0)%nat; [easy|].
    intros Ha. apply nth_error_Some in Ha. apply nth_error_Some. lia. }
  split; apply Hrow; congruence.
Qed.

Lemma cell_record t en month day :
  cell (record t en) month day
  = if hasAmounts en
       && match monthAndDay (or_string (last_modified en) "") with
          | Some (m, d) => (m =? month)%nat && (d =? day)%nat
          | None => false
          end
    then option_map (fun x => PrimFloat.add x (profitOf en)) (cell t month day)
    else cell t month day.
Proof.
  unfold Calendar.record. destruct (hasAmounts en); cbn [andb]; [|reflexivity].
  destruct (monthAndDay _) as [[m d]|]; [apply cell_addProfit | reflexivity].
Qed.

Lemma cell_fold entries : forall t month day,
  cell (fold_left record entries t) month day
  = option_map
      (fold_left PrimFloat.add
         (map profitOf
            (filter (fun en =>
               hasAmounts en
               && match monthAndDay (or_string (last_modified en) "") with
                  | Some (m, d) => (m =? month)%nat && (d =? day)%nat
                  | None => false
                  end) entries)))
      (cell t month day).
Proof.
  induction entries as [|en entries IH]; intros t month day; cbn [fold_left].
  - cbn. now destruct (cell t month day).
  - rewrite IH, cell_record. cbn [filter].
    destruct (hasAmounts en && _); [|reflexivity].
    cbn [map fold_left]. now destruct (cell t month day).
Qed.

Lemma nth_error_repeat_zero n i :
  nth_error (repeat 0%float n) i = if (i <? n)%nat then Some 0%float else None.
Proof.
  revert i. induction n as [|n IH]; intros [|i]; cbn; try reflexivity.
  rewrite IH. reflexivity.
Qed.

Lemma cell_emptyYear year month day :
  cell (emptyYear year) month day
  = if (month <? 12)%nat && (1 <=? day)%nat
       && (day <=? daysInMonth year month)%nat
    then Some 0%float else None.
Proof.
  unfold cell, emptyYear.
  do 12 (destruct month as [|month];
         [cbn [seq map nth_error Nat.ltb Nat.leb andb];
          destruct day as [|day]; [reflexivity|];
          cbn [Nat.eqb Nat.sub]; rewrite Nat.sub_0_r, nth_error_repeat_zero;
          cbn [Nat.leb andb]; unfold Nat.ltb; reflexivity|]).
  cbn. now destruct month.
Qed.

Lemma filter_filter (A : Type) (f g : A -> bool) (l : list A) :
  filter f (filter g l) = filter (fun x => g x && f x) l.
Proof.
  induction l as [|x l IH]; cbn; [reflexivity|].
  destruct (g x); cbn; [destruct (f x)|]; now rewrite IH.
Qed.

Lemma fold_record_shape entries : forall t,
  map (@List.length float) (fold_left record entries t)
  = map (@List.length float) t.
Proof.
  induction entries as [|en entries IH]; intros t; cbn; [reflexivity|].
  now rewrite IH, shape_record.
Qed.

Lemma yearlyTotal_concat (t : table) :
  calculateYearlyTotal t = fold_left PrimFloat.add (List.concat t) 0%float.
Proof.
  unfold calculateYearlyTotal. generalize 0%float.
  induction t as [|row t IH]; intros x; cbn [fold_left List.concat];
    [reflexivity|].
  rewrite fold_left_app. exact (IH _).
Qed.

Lemma truthy_string_spec (x : option string) :
  truthy_string x = true <-> exists s, x = Some s /\ s <> "".
Proof.
  destruct x as [s|]; cbn.
  - destruct (String.eqb_spec s "") as [->|Hs]; cbn; split.
    + discriminate.
    + intros (s' & Hs' & Hne). congruence.
    + intros _. now exists s.
    + reflexivity.
  - split; [discriminate | now intros (s & Hs & _)].
Qed.

Lemma truthy_amount_spec (x : option float) :
  truthy_number x = true <->
  exists v, x = Some v /\ PrimFloat.eqb v 0%float = false
            /\ PrimFloat.is_nan v = false.
Proof.
  destruct x as [v|]; cbn.
  - rewrite negb_true_iff, orb_false_iff. split.
    + intros [Hz Hn]. now exists v.
    + intros (v' & Hv & Hz & Hn). now injection Hv as <-.
  - split; [discriminate | now intros (v & Hv & _)].
Qed.

(** X20. The table of the profit calendar, for a year from 0 to 275759.
    It has the twelve months of the selected year (of the year 1900 later
    for a year up to 99, as [Date] reads it) with one amount for each of
    their days, and no other cell.  The amount of a day is the running
    sum, from 0 and in the order of the response, of
    [total_cost - parts_cost] over the reports that land on it: the
    reports whose status is [completed], whose [last_modified] is set, has
    the selected year as its year and that day as its month and day (all
    three as the time zone of the browser gives them), and whose two costs
    are both set and neither 0 nor [NaN].  The total of the year adds up
    the cells in calendar order. *)
Theorem calendar_cells (selectedYear : Z) (data : list entry) :
  0 <= selectedYear <= 275759 ->
  map (@List.length float) (fetchYearlyData selectedYear data)
  = map (daysInMonth selectedYear) (seq 0 12) /\
  (forall month day,
     cell (fetchYearlyData selectedYear data) month day <> None <->
     (month < 12)%nat /\ (1 <= day <= daysInMonth selectedYear month)%nat) /\
  (forall month day,
     (month < 12)%nat -> (1 <= day <= daysInMonth selectedYear month)%nat ->
     cell (fetchYearlyData selectedYear data) month day
     = Some (fold_left PrimFloat.add
               (map profitOf (filter (landsOn selectedYear month day) data))
               0%float)) /\
  (forall month day en,
     landsOn selectedYear month day en = true <->
     status (base en) = "completed"
     /\ (exists modified,
           last_modified en = Some modified /\ modified <> ""
           /\ fullYear modified = Some selectedYear
           /\ monthAndDay modified = Some (month, day))
     /\ (exists total,
           total_cost (base en) = Some total
           /\ PrimFloat.eqb total 0%float = false
           /\ PrimFloat.is_nan total = false)
     /\ (exists parts,
           parts_cost (base en) = Some parts
           /\ PrimFloat.eqb parts 0%float = false
           /\ PrimFloat.is_nan parts = false)) /\
  (forall month day en total parts,
     landsOn selectedYear month day en = true ->
     total_cost (base en) = Some total -> parts_cost (base en) = Some parts ->
     profitOf en = PrimFloat.sub total parts) /\
  (let year := if selectedYear <=? 99 then 1900 + selectedYear
               else selectedYear in
   let february :=
     if ((year mod 4 =? 0) && negb (year mod 100 =? 0)) || (year mod 400 =? 0)
     then 29%nat else 28%nat in
   map (daysInMonth selectedYear) (seq 0 12)
   = [31; february; 31; 30; 31; 30; 31; 31; 30; 31; 30; 31]%nat) /\
  calculateYearlyTotal (fetchYearlyData selectedYear data)
  = fold_left PrimFloat.add
      (List.concat (fetchYearlyData selectedYear data)) 0%float.
Proof.
  intros Hyear.
  assert (Hshape :
    map (@List.length float) (fetchYearlyData selectedYear data)
    = map (@List.length float) (emptyYear selectedYear)).
  { apply fold_record_shape. }
  assert (Hempty : forall month day,
    cell (emptyYear selectedYear) month day <> None <->
    (month < 12)%nat /\ (1 <= day <= daysInMonth selectedYear month)%nat).
  { intros month day. rewrite cell_emptyYear.
    destruct (Nat.ltb_spec month 12), (Nat.leb_spec 1 day),
             (Nat.leb_spec day (daysInMonth selectedYear month)); cbn;
      split; try easy; try lia. }
  assert (Hlands : forall month day en,
     landsOn selectedYear month day en = true <->
     status (base en) = "completed"
     /\ (exists modified,
           last_modified en = Some modified /\ modified <> ""
           /\ fullYear modified = Some selectedYear
           /\ monthAndDay modified = Some (month, day))
     /\ (exists total,
           total_cost (base en) = Some total
           /\ PrimFloat.eqb total 0%float = false
           /\ PrimFloat.is_nan total = false)
     /\ (exists parts,
           parts_cost (base en) = Some parts
           /\ PrimFloat.eqb parts 0%float = false
           /\ PrimFloat.is_nan parts = false)).
  { intros month day en. unfold Calendar.landsOn, inYear, hasAmounts.
    rewrite !andb_true_iff, String.eqb_eq, !truthy_amount_spec,
            truthy_string_spec.
    split.
    - intros [[[[Hstatus (modified & Hmod & Hne)] Hy] [[_ Ht] Hp]] Hmd].
      rewrite Hmod in Hy, Hmd. cbn [or_string] in Hy, Hmd.
      apply String.eqb_neq in Hne. rewrite Hne in Hy, Hmd.
      apply String.eqb_neq in Hne.
      split; [exact Hstatus|]. split; [|now split].
      exists modified. split; [exact Hmod|]. split; [exact Hne|]. split.
      + destruct (fullYear modified) as [y|]; [|discriminate].
        apply Z.eqb_eq in Hy. now subst y.
      + destruct (monthAndDay modified) as [[m d]|]; [|discriminate].
        apply andb_true_iff in Hmd as [Hm Hd].
        apply Nat.eqb_eq in Hm, Hd. now subst m d.
    - intros (Hstatus & (modified & Hmod & Hne & Hy & Hmd) & Ht & Hp).
      rewrite Hmod. cbn [or_string].
      apply String.eqb_neq in Hne. rewrite Hne. apply String.eqb_neq in Hne.
      rewrite Hy, Hmd, Z.eqb_refl, !Nat.eqb_refl.
      repeat split; try assumption; now exists modified. }
  split; [|split; [|split; [|split; [exact Hlands|split; [|split]]]]].
  - rewrite Hshape. unfold emptyYear. rewrite map_map.
    apply map_ext. intros month. apply repeat_length.
  - intros month day. rewrite <- Hempty. now apply cell_shape.
  - intros month day Hm Hd. unfold Calendar.fetchYearlyData.
    rewrite cell_fold, cell_emptyYear, filter_filter.
    destruct (Nat.ltb_spec month 12); [|lia].
    destruct (Nat.leb_spec 1 day); [|lia].
    destruct (Nat.leb_spec day (daysInMonth selectedYear month)); [|lia].
    cbn [andb option_map]. do 3 f_equal. apply filter_ext. intros en.
    unfold Calendar.landsOn. now rewrite andb_assoc.
  - intros month day en total parts Hland Htotal Hparts.
    apply Hlands in Hland as (_ & _ & (t & Ht & Ht0 & Htn) & (q & Hq & Hq0 & Hqn)).
    rewrite Htotal in Ht. rewrite Hparts in Hq.
    injection Ht as <-. injection Hq as <-.
    unfold profitOf. rewrite Htotal, Hparts.
    cbn [or_zero js_truthy double_number]. now rewrite Ht0, Htn, Hq0, Hqn.
  - cbn zeta. unfold daysInMonth, isLeap.
    destruct (Z.leb_spec 0 selectedYear) as [_|Hneg]; [|lia]. cbn [andb].
    now destruct (selectedYear <=? 99).
  - apply yearlyTotal_concat.
Qed.

End CalendarCells.

(** The year 2024 with three completed reports modified on March 9 (two
    with both costs, one without a parts cost) and one modified in 2023:
    February has 29 days and the cell of March 9 holds 80 + 25.5. *)
Lemma calendar_cells_witness :
  map (@List.length float)
    (Calendar.fetchYearlyData
       (fun s => if String.prefix "2024" s then Some 2024
                 else if String.prefix "2023" s then Some 2023 else None)
       (fun s => if String.prefix "2024-03-09" s then Some (2, 9)%nat
                 else if String.prefix "2023-03-09" s then Some (2, 9)%nat
                 else None)
       2024
       [{| Calendar.base :=
             ServiceReports.with_total_cost 120%float
               (ServiceReports.with_parts_cost 40%float
                  (plainReport "r1" "Smith Pool" "john" "completed"
                     "2024-03-08T12:00Z" (Some "2024-03-09T18:00Z")));
           Calendar.last_modified := Some "2024-03-09T18:00Z" |};
        {| Calendar.base :=
             ServiceReports.with_total_cost 60%float
               (plainReport "r2" "Smith Pool" "john" "completed"
                  "2024-03-08T12:00Z" (Some "2024-03-09T19:00Z"));
           Calendar.last_modified := Some "2024-03-09T19:00Z" |};
        {| Calendar.base :=
             ServiceReports.with_total_cost 75.5%float
               (ServiceReports.with_parts_cost 50%float
                  (plainReport "r3" "Lake House" "john" "completed"
                     "2024-03-08T12:00Z" (Some "2024-03-09T20:00Z")));
           Calendar.last_modified := Some "2024-03-09T20:00Z" |};
        {| Calendar.base :=
             ServiceReports.with_total_cost 500%float
               (ServiceReports.with_parts_cost 100%float
                  (plainReport "r4" "Lake House" "john" "completed"
                     "2023-03-08T12:00Z" (Some "2023-03-09T20:00Z")));
           Calendar.last_modified := Some "2023-03-09T20:00Z" |}])
  = [31; 29; 31; 30; 31; 30; 31; 31; 30; 31; 30; 31]%nat /\
  Calendar.cell
    (Calendar.fetchYearlyData
       (fun s => if String.prefix "2024" s then Some 2024
                 else if String.prefix "2023" s then Some 2023 else None)
       (fun s => if String.prefix "2024-03-09" s then Some (2, 9)%nat
                 else if String.prefix "2023-03-09" s then Some (2, 9)%nat
                 else None)
       2024
       [{| Calendar.base :=
             ServiceReports.with_total_cost 120%float
               (ServiceReports.with_parts_cost 40%float
                  (plainReport "r1" "Smith Pool" "john" "completed"
                     "2024-03-08T12:00Z" (Some "2024-03-09T18:00Z")));
           Calendar.last_modified := Some "2024-03-09T18:00Z" |};
        {| Calendar.base :=
             ServiceReports.with_total_cost 60%float
               (plainReport "r2" "Smith Pool" "john" "completed"
                  "2024-03-08T12:00Z" (Some "2024-03-09T19:00Z"));
           Calendar.last_modified := Some "2024-03-09T19:00Z" |};
        {| Calendar.base :=
             ServiceReports.with_total_cost 75.5%float
               (ServiceReports.with_parts_cost 50%float
                  (plainReport "r3" "Lake House" "john" "completed"
                     "2024-03-08T12:00Z" (Some "2024-03-09T20:00Z")));
           Calendar.last_modified := Some "2024-03-09T20:00Z" |};
        {| Calendar.base :=
             ServiceReports.with_total_cost 500%float
               (ServiceReports.with_parts_cost 100%float
                  (plainReport "r4" "Lake House" "john" "completed"
                     "2023-03-08T12:00Z" (Some "2023-03-09T20:00Z")));
           Calendar.last_modified := Some "2023-03-09T20:00Z" |}])
    2 9
  = Some 105.5%float.
Proof.
  destruct (calendar_cells
              (fun s => if String.prefix "2024" s then Some 2024
                        else if String.prefix "2023" s then Some 2023 else None)
              (fun s => if String.prefix "2024-03-09" s then Some (2, 9)%nat
                        else if String.prefix "2023-03-09" s then Some (2, 9)%nat
                        else None)
              2024
              [{| Calendar.base :=
                    ServiceReports.with_total_cost 120%float
                      (ServiceReports.with_parts_cost 40%float
                         (plainReport "r1" "Smith Pool" "john" "completed"
                            "2024-03-08T12:00Z" (Some "2024-03-09T18:00Z")));
                  Calendar.last_modified := Some "2024-03-09T18:00Z" |};
               {| Calendar.base :=
                    ServiceReports.with_total_cost 60%float
                      (plainReport "r2" "Smith Pool" "john" "completed"
                         "2024-03-08T12:00Z" (Some "2024-03-09T19:00Z"));
                  Calendar.last_modified := Some "2024-03-09T19:00Z" |};
               {| Calendar.base :=
                    ServiceReports.with_total_cost 75.5%float
                      (ServiceReports.with_parts_cost 50%float
                         (plainReport "r3" "Lake House" "john" "completed"
                            "2024-03-08T12:00Z" (Some "2024-03-09T20:00Z")));
                  Calendar.last_modified := Some "2024-03-09T20:00Z" |};
               {| Calendar.base :=
                    ServiceReports.with_total_cost 500%float
                      (ServiceReports.with_parts_cost 100%float
                         (plainReport "r4" "Lake House" "john" "completed"
                            "2023-03-08T12:00Z" (Some "2023-03-09T20:00Z")));
                  Calendar.last_modified := Some "2023-03-09T20:00Z" |}])
    as (Hshape & _ & Hcell & _); [lia|].
  split; [exact Hshape|].
  apply (Hcell 2%nat 9%nat); cbn; lia.
Defined.

(** ** Amounts on screen, [formatCurrency] *)

Section Amounts.








End Amounts.

(** ** The counters of the header of the active view *)

Section HeaderCounters.
Import ServiceReports ActiveCounters.

Variable parseDate : string -> option Z.
Variable now : Z.

Lemma filter_length_le_pointwise (A : Type) (f g : A -> bool) (l : list A) :
  (forall a, f a = true -> g a = true) ->
  (List.length (filter f l) <= List.length (filter g l))%nat.
Proof.
  intros Himp. induction l as [|a l IH]; cbn; [lia|].
  destruct (f a) eqn:Hf.
  - rewrite (Himp a Hf). cbn. lia.
  - destruct (g a); cbn; lia.
Qed.

Lemma statusCount_filter (s : string) (keep : report -> bool)
  (l : list report) :
  (statusCount s (filter keep l) <= statusCount s l)%nat.
Proof.
  unfold statusCount. rewrite filter_filter.
  apply filter_length_le_pointwise.
  intros a Ha. now apply andb_true_iff in Ha as [_ Ha].
Qed.

Lemma three_counters (l : list report) :
  (statusCount "scheduled" l + statusCount "in_progress" l
   + statusCount "reported" l
   + List.length
       (filter (fun r => negb ((status r =? "scheduled")%string
                               || (status r =? "in_progress")%string
                               || (status r =? "reported")%string)) l)
   = List.length l)%nat.
Proof.
  unfold statusCount. induction l as [|r l IH]; cbn; [reflexivity|].
  destruct (status r =? "scheduled")%string eqn:Hs.
  - apply String.eqb_eq in Hs. rewrite Hs. cbn. lia.
  - destruct (status r =? "in_progress")%string eqn:Hp.
    + apply String.eqb_eq in Hp. rewrite Hp. cbn. lia.
    + destruct (status r =? "reported")%string; cbn; lia.
Qed.

(** X22. The header of the active view, over the list on screen (the fetched
    reports that are not completed, narrowed to the selected employee).  The
    three status counters count disjoint reports, so with the reports of any
    other status they add up to the length of the list; no completed report
    is counted; the late counter is the number of overdue reports; and
    selecting an employee never raises a counter. *)
Theorem header_counters (data previous : list report) (selectedUserFilter : string) :
  let reports := fetchReports (Some data) previous in
  let filteredReports := filterReports reports selectedUserFilter in
  (statusCount "scheduled" filteredReports
   + statusCount "in_progress" filteredReports
   + statusCount "reported" filteredReports
   + List.length
       (filter (fun r => negb ((status r =? "scheduled")%string
                               || (status r =? "in_progress")%string
                               || (status r =? "reported")%string))
          filteredReports)
   = List.length filteredReports)%nat /\
  statusCount "completed" filteredReports = 0%nat /\
  lateCount parseDate now filteredReports
  = List.length (filter (isReportOverdue parseDate now) filteredReports) /\
  (forall s, (statusCount s filteredReports <= statusCount s reports)%nat) /\
  (lateCount parseDate now filteredReports
   <= lateCount parseDate now reports)%nat.
Proof.
  cbn zeta. split; [apply three_counters|]. split; [|split; [|split]].
  - unfold statusCount.
    assert (Hnone : forall r,
      In r (filterReports (fetchReports (Some data) previous)
              selectedUserFilter) ->
      (status r =? "completed")%string = false).
    { intros r Hin. unfold filterReports in Hin.
      assert (Hfetched : In r (fetchReports (Some data) previous)).
      { destruct (selectedUserFilter =? "")%string; [exact Hin|].
        now apply filter_In in Hin as [Hin _]. }
      apply filter_In in Hfetched as [_ Hneq].
      now apply negb_true_iff in Hneq. }
    induction (filterReports (fetchReports (Some data) previous)
                 selectedUserFilter) as [|r l IH]; cbn; [reflexivity|].
    rewrite (Hnone r (or_introl eq_refl)). apply IH.
    intros r' Hin. apply Hnone. now right.
  - unfold lateCount. f_equal. apply filter_ext. intros r.
    unfold getReportFlag, isReportOverdue.
    destruct (diffDays parseDate now r) as [d|]; [|reflexivity].
    destruct (Z.leb_spec d 1), (Z.leb_spec 2 d); try reflexivity; lia.
  - intros s. unfold filterReports.
    destruct (selectedUserFilter =? "")%string; [lia|].
    apply statusCount_filter.
  - unfold filterReports.
    destruct (selectedUserFilter =? "")%string; [lia|].
    unfold lateCount. rewrite filter_filter.
    apply filter_length_le_pointwise.
    intros a Ha. now apply andb_true_iff in Ha as [_ Ha].
Qed.

End HeaderCounters.
